(** * phockup: the file classification and placement engine

    A shallow embedding of [src/phockup.py] (class [Phockup]) and the
    properties of its placement engine: duplicate handling, collision
    suffixes, sidecar naming, dry-run, missing sources, run counters and the
    empty-directory cleanup.

    Layout:
    - [PyStr]     : the [str] and [os.path] functions the program calls;
    - [OS]        : the filesystem and the [os] / [shutil] / [filecmp] calls;
    - [Run]       : the program state (filesystem, counters, log) and the
                    state-and-exception monad the methods run in;
    - [Engine]    : the methods of [Phockup], in the order of the source;
    - [Doubles]   : a metadata reader and a date resolver driven by a table;
    - [Logic]     : the predicates the theorems are stated with;
    - [Scenarios] : small filesystems and configurations;
    - [Progress]  : the file count of the progress bar;
    - [Effects]   : the relations between the state before and after a
                    call that the later theorems are stated with;
    - [Cases]     : further filesystems and configurations;
    - then the lemmas and theorems. *)

From Stdlib Require Import ZArith Lia String Ascii Bool.
From stdpp Require Import base option list sorting gmap sets strings pretty.

Open Scope Z_scope.


(* ===================================================================== *)
(** ** Python strings and [os.path] (POSIX flavour, [os.sep = "/"])       *)
(* ===================================================================== *)

Module PyStr.

Abbreviation chars := list_ascii_of_string.

(** [s.endswith(suf)] and [s.startswith(pre)]. *)
Definition endswith (s suf : string) : bool :=
  bool_decide (chars suf `suffix_of` chars s).
Definition startswith (s pre : string) : bool :=
  bool_decide (chars pre `prefix_of` chars s).

(** [s.lower()] of a string of ASCII characters.  A character above 127
    is left as it is, where Python lower-cases by the Unicode tables: what
    is proved of a lower-cased name is proved of ASCII names. *)
Definition ascii_lower (c : ascii) : ascii :=
  let n := nat_of_ascii c in
  if ((65 <=? n) && (n <=? 90))%nat then ascii_of_nat (n + 32) else c.

Fixpoint lower (s : string) : string :=
  match s with
  | EmptyString => EmptyString
  | String c s' => String (ascii_lower c) (lower s')
  end.

(** [s.count(c)] for a one-character [c]. *)
Fixpoint count (c : ascii) (s : string) : Z :=
  match s with
  | EmptyString => 0
  | String a s' => (if Ascii.eqb a c then 1 else 0) + count c s'
  end.

(** [s.rfind(c)] for a one-character [c]: the last index, or [-1]. *)
Fixpoint rfind_from (c : ascii) (i : Z) (s : string) : Z :=
  match s with
  | EmptyString => -1
  | String a s' =>
      let r := rfind_from c (i + 1) s' in
      if 0 <=? r then r else if Ascii.eqb a c then i else -1
  end.
Definition rfind (c : ascii) (s : string) : Z := rfind_from c 0 s.

(** Slices [s[:i]], [s[i:]] and [s[i:j]] for indices [0 <= i <= j]. *)
Fixpoint take (n : nat) (s : string) : string :=
  match n, s with
  | S n', String a s' => String a (take n' s')
  | _, _ => EmptyString
  end.
Fixpoint drop (n : nat) (s : string) : string :=
  match n, s with
  | S n', String _ s' => drop n' s'
  | _, _ => s
  end.
Definition upto (i : Z) (s : string) : string := take (Z.to_nat i) s.
Definition from (i : Z) (s : string) : string := drop (Z.to_nat i) s.
Definition slice (i j : Z) (s : string) : string := upto (j - i) (from i s).

(** [s.replace(old, new)] for a non-empty [old]: occurrences are replaced
    from the left and do not overlap; [skip] counts the characters of a
    match that are still to be passed over. *)
Fixpoint replace_skip (old new : string) (skip : nat) (s : string) : string :=
  match s with
  | EmptyString => EmptyString
  | String c s' =>
      match skip with
      | S k => replace_skip old new k s'
      | O =>
          if startswith s old
          then new +:+ replace_skip old new (String.length old - 1) s'
          else String c (replace_skip old new O s')
      end
  end.
Definition replace (old new s : string) : string := replace_skip old new O s.

(** [sep.join(parts)]. *)
Fixpoint join (sep : string) (parts : list string) : string :=
  match parts with
  | [] => EmptyString
  | [p] => p
  | p :: ps => p +:+ sep +:+ join sep ps
  end.

(** [s.split("/")]. *)
Fixpoint split_slash (cur : string) (s : string) : list string :=
  match s with
  | EmptyString => [String.rev cur]
  | String c s' =>
      if Ascii.eqb c "/" then String.rev cur :: split_slash EmptyString s'
      else split_slash (String c cur) s'
  end.

(** [os.path.splitext(p)] ([genericpath._splitext] with [sep = "/"],
    [extsep = "."]): the extension starts at the last dot of the last
    component, unless only dots precede it there. *)
Definition all_dots (s : string) : bool :=
  forallb (fun a => Ascii.eqb a ".") (chars s).

Definition splitext (p : string) : string * string :=
  let sepIndex := rfind "/" p in
  let dotIndex := rfind "." p in
  if sepIndex <? dotIndex then
    if all_dots (slice (sepIndex + 1) dotIndex p) then (p, EmptyString)
    else (upto dotIndex p, from dotIndex p)
  else (p, EmptyString).

(** [os.path.basename(p)]. *)
Definition basename (p : string) : string := from (rfind "/" p + 1) p.

(** [os.path.normpath(path)] (posixpath). *)
Definition norm_step (initial_slashes : Z) (new_comps : list string)
           (comp : string) : list string :=
  if bool_decide (comp = EmptyString) || bool_decide (comp = ".") then new_comps
  else if negb (bool_decide (comp = ".."))
          || ((initial_slashes =? 0) && bool_decide (new_comps = []))
          || bool_decide (last new_comps = Some "..")
       then new_comps ++ [comp]
       else removelast new_comps.

Definition normpath (path : string) : string :=
  if bool_decide (path = EmptyString) then "."
  else
    let initial_slashes :=
      if startswith path "/" then
        if startswith path "//" && negb (startswith path "///") then 2 else 1
      else 0 in
    let comps := fold_left (norm_step initial_slashes) (split_slash EmptyString path) [] in
    let p := join "/" comps in
    let p := (if initial_slashes =? 2 then "//"
              else if initial_slashes =? 1 then "/" else EmptyString) +:+ p in
    if bool_decide (p = EmptyString) then "." else p.

(** [f'{n:0wd}']: decimal, zero-padded on the left to width [w]. *)
Fixpoint zeros (n : nat) : string :=
  match n with O => EmptyString | S n' => String "0" (zeros n') end.
Definition zpad (w : nat) (n : Z) : string :=
  let d := pretty (Z.abs n) in
  let sign := if n <? 0 then "-" else EmptyString in
  sign +:+ zeros (w - String.length sign - String.length d) +:+ d.

End PyStr.

(* ===================================================================== *)
(** ** The filesystem and the [os], [shutil] and [filecmp] calls          *)
(* ===================================================================== *)

(** The filesystem is flat: the regular files, keyed by path, with their
    bytes and modification time, and the set of directory paths.  A call
    fails on the conditions this state can express (a missing source, an
    existing destination, a directory that still has entries).  The paths
    the program reads as sources are looked up among the regular files. *)

Module OS.
Import PyStr.

Record File := mkFile { f_data : list Byte.byte; f_mtime : Z }.

Record FS := mkFS { files : gmap string File; dirs : gset string }.

Definition set_files (fs : FS) (m : gmap string File) : FS :=
  {| files := m; dirs := dirs fs |}.
Definition set_dirs (fs : FS) (d : gset string) : FS :=
  {| files := files fs; dirs := d |}.

(** The exceptions that can reach the program.  All but [TypeError],
    [AttributeError] and [RuntimeError] are subclasses of [OSError]. *)
Inductive exn :=
| FileNotFoundError | FileExistsError | IsADirectoryError | NotADirectoryError
| DirectoryNotEmpty | SameFileError | ShutilError
| OSError (msg : string)
| TypeError | AttributeError | RuntimeError (msg : string).

Definition is_OSError (e : exn) : bool :=
  match e with
  | TypeError | AttributeError | RuntimeError _ => false
  | _ => true
  end.

Definition is_FileNotFoundError (e : exn) : bool :=
  match e with FileNotFoundError => true | _ => false end.

(** [e.strerror] *)
Definition strerror (e : exn) : string :=
  match e with
  | FileNotFoundError => "No such file or directory"
  | FileExistsError => "File exists"
  | IsADirectoryError => "Is a directory"
  | NotADirectoryError => "Not a directory"
  | DirectoryNotEmpty => "Directory not empty"
  | OSError m => m
  | _ => "None"
  end.

Inductive Result (A : Type) := Ok (a : A) | Raise (e : exn).
Arguments Ok {A} a.
Arguments Raise {A} e.

Definition isfile (fs : FS) (p : string) : bool :=
  bool_decide (is_Some (files fs !! p)).
Definition isdir (fs : FS) (p : string) : bool :=
  bool_decide (p ∈ dirs fs).
Definition exists_ (fs : FS) (p : string) : bool := isfile fs p || isdir fs p.

(** [os.path.join(a, b)] for a relative [b]. *)
Definition path_join (a b : string) : string :=
  if bool_decide (a = EmptyString) || endswith a "/" then a +:+ b
  else a +:+ "/" +:+ b.

(** [os.path.split(p)]: head without its trailing slashes, and tail. *)
Fixpoint rstrip_slash (s : string) : string :=
  match s with
  | EmptyString => EmptyString
  | String c s' =>
      let r := rstrip_slash s' in
      if bool_decide (r = EmptyString) && Ascii.eqb c "/" then EmptyString
      else String c r
  end.
Definition path_split (p : string) : string * string :=
  let i := rfind "/" p + 1 in
  let head := upto i p in
  let tail := from i p in
  (if negb (bool_decide (head = EmptyString))
      && negb (forallb (fun a => Ascii.eqb a "/") (chars head))
   then rstrip_slash head else head, tail).

(** [os.remove(p)] *)
Definition remove (fs : FS) (p : string) : Result FS :=
  if isfile fs p then Ok (set_files fs (delete p (files fs)))
  else if isdir fs p then Raise IsADirectoryError
  else Raise FileNotFoundError.

(** [os.rename(src, dst)] of a regular file; an existing [dst] file is
    replaced. *)
Definition rename (fs : FS) (src dst : string) : Result FS :=
  match files fs !! src with
  | None => Raise FileNotFoundError
  | Some f => Ok (set_files fs (<[dst := f]> (delete src (files fs))))
  end.

(** [shutil.move(src, dst)]: into [dst] when [dst] is a directory. *)
Definition move (fs : FS) (src dst : string) : Result FS :=
  if isdir fs dst then
    let real_dst := path_join dst (basename src) in
    if exists_ fs real_dst then Raise ShutilError
    else rename fs src real_dst
  else rename fs src dst.

(** [shutil.copy2(src, dst)]: bytes and modification time are copied. *)
Definition copy2 (fs : FS) (src dst : string) : Result FS :=
  let dst := if isdir fs dst then path_join dst (basename src) else dst in
  match files fs !! src with
  | None => Raise FileNotFoundError
  | Some f =>
      if bool_decide (src = dst) then Raise SameFileError
      else if isdir fs dst then Raise IsADirectoryError
      else Ok (set_files fs (<[dst := f]> (files fs)))
  end.

(** [os.link(src, dst)]: the new name shares bytes and modification time. *)
Definition link (fs : FS) (src dst : string) : Result FS :=
  match files fs !! src with
  | None => Raise FileNotFoundError
  | Some f =>
      if exists_ fs dst then Raise FileExistsError
      else Ok (set_files fs (<[dst := f]> (files fs)))
  end.

(** [filecmp.cmp(f1, f2, shallow)]: [os.stat] signatures (type, size,
    mtime) first, then the bytes. *)
Global Instance byte_eq_dec : EqDecision Byte.byte := Byte.byte_eq_dec.

Definition size_of (f : File) : Z := Z.of_nat (length (f_data f)).

(** Two regular files: equal signatures settle a shallow comparison,
    different sizes settle any, the bytes decide the rest. *)
Definition cmp_files (shallow : bool) (a b : File) : bool :=
  if shallow && bool_decide ((size_of a, f_mtime a) = (size_of b, f_mtime b))
  then true
  else if negb (size_of a =? size_of b) then false
  else bool_decide (f_data a = f_data b).

Definition cmp (fs : FS) (f1 f2 : string) (shallow : bool) : Result bool :=
  match files fs !! f1, files fs !! f2 with
  | Some a, Some b => Ok (cmp_files shallow a b)
  | Some _, None => if isdir fs f2 then Ok false else Raise FileNotFoundError
  | None, _ =>
      if isdir fs f1 && (isfile fs f2 || isdir fs f2) then Ok false
      else Raise FileNotFoundError
  end.

(** [os.mkdir(name)].  The parent is not inspected: in this filesystem a
    directory can be created below a path that holds a regular file,
    where [os.mkdir] raises [NotADirectoryError]. *)
Definition mkdir (fs : FS) (name : string) : Result FS :=
  if exists_ fs name then Raise FileExistsError
  else Ok (set_dirs fs ({[ name ]} ∪ dirs fs)).

(** [os.makedirs(name, exist_ok)]; the recursion on the head of the path
    is bounded by the length of the path. *)
Fixpoint makedirs_rec (n : nat) (fs : FS) (name : string) (exist_ok : bool)
  : Result FS :=
  let '(head, tail) := path_split name in
  let '(head, tail) :=
    if bool_decide (tail = EmptyString) then path_split head else (head, tail) in
  let last_step (fs : FS) :=
    match mkdir fs name with
    | Ok fs' => Ok fs'
    | Raise e => if negb exist_ok || negb (isdir fs name) then Raise e else Ok fs
    end in
  if negb (bool_decide (head = EmptyString)) && negb (bool_decide (tail = EmptyString))
     && negb (exists_ fs head)
  then
    match n with
    | O => Raise (OSError "path too deep")
    | S n' =>
        let fs1 := match makedirs_rec n' fs head exist_ok with
                   | Ok fs1 => Ok fs1
                   | Raise FileExistsError => Ok fs
                   | Raise e => Raise e
                   end in
        match fs1 with
        | Raise e => Raise e
        | Ok fs1 => if bool_decide (tail = ".") then Ok fs1 else last_step fs1
        end
    end
  else last_step fs.

Definition makedirs (fs : FS) (name : string) (exist_ok : bool) : Result FS :=
  makedirs_rec (String.length name) fs name exist_ok.

(** [os.rmdir(p)]: only an existing directory without entries goes. *)
Definition has_entries (fs : FS) (p : string) : bool :=
  bool_decide (set_Exists (fun q => q ≠ p ∧ (path_split q).1 = p)
                          (dom (files fs) ∪ dirs fs)).

Definition rmdir (fs : FS) (p : string) : Result FS :=
  if isdir fs p then
    if has_entries fs p then Raise DirectoryNotEmpty
    else Ok (set_dirs fs (dirs fs ∖ {[ p ]}))
  else if isfile fs p then Raise NotADirectoryError
  else Raise FileNotFoundError.

End OS.

(* ===================================================================== *)
(** ** The program state and its small state-and-exception monad          *)
(* ===================================================================== *)

Module Run.
Import OS.

Inductive level := DEBUG | INFO | WARNING.

(** What the methods of [Phockup] read and write besides the
    configuration: the filesystem, the five run counters and the records
    handed to [logger]. *)
Record State := mkState {
  fs : FS;
  files_processed : Z;
  duplicates_found : Z;
  unknown_found : Z;
  files_moved : Z;
  files_copied : Z;
  log : list (level * string)
}.

Definition with_fs (st : State) (f : FS) : State :=
  {| fs := f; files_processed := files_processed st;
     duplicates_found := duplicates_found st; unknown_found := unknown_found st;
     files_moved := files_moved st; files_copied := files_copied st;
     log := log st |}.
Definition inc_processed (st : State) : State :=
  {| fs := fs st; files_processed := files_processed st + 1;
     duplicates_found := duplicates_found st; unknown_found := unknown_found st;
     files_moved := files_moved st; files_copied := files_copied st;
     log := log st |}.
Definition inc_duplicates (st : State) : State :=
  {| fs := fs st; files_processed := files_processed st;
     duplicates_found := duplicates_found st + 1; unknown_found := unknown_found st;
     files_moved := files_moved st; files_copied := files_copied st;
     log := log st |}.
Definition inc_unknown (st : State) : State :=
  {| fs := fs st; files_processed := files_processed st;
     duplicates_found := duplicates_found st; unknown_found := unknown_found st + 1;
     files_moved := files_moved st; files_copied := files_copied st;
     log := log st |}.
Definition inc_moved (st : State) : State :=
  {| fs := fs st; files_processed := files_processed st;
     duplicates_found := duplicates_found st; unknown_found := unknown_found st;
     files_moved := files_moved st + 1; files_copied := files_copied st;
     log := log st |}.
Definition inc_copied (st : State) : State :=
  {| fs := fs st; files_processed := files_processed st;
     duplicates_found := duplicates_found st; unknown_found := unknown_found st;
     files_moved := files_moved st; files_copied := files_copied st + 1;
     log := log st |}.
Definition add_log (l : level) (msg : string) (st : State) : State :=
  {| fs := fs st; files_processed := files_processed st;
     duplicates_found := duplicates_found st; unknown_found := unknown_found st;
     files_moved := files_moved st; files_copied := files_copied st;
     log := log st ++ [(l, msg)] |}.

(** A call returns a value, or raises with the state it had reached.
    [OutOfFuel] only marks the end of a bounded unrolling of
    [while True]; [keeps_process_file] shows it is never produced. *)
Inductive outcome (A : Type) :=
| Return (a : A) (st : State)
| Raised (e : exn) (st : State)
| OutOfFuel.
Arguments Return {A} a st.
Arguments Raised {A} e st.
Arguments OutOfFuel {A}.

Definition M (A : Type) : Type := State -> outcome A.

Definition ret {A} (a : A) : M A := fun st => Return a st.
Definition bind {A B} (m : M A) (k : A -> M B) : M B :=
  fun st => match m st with
            | Return a st' => k a st'
            | Raised e st' => Raised e st'
            | OutOfFuel => OutOfFuel
            end.
Definition raise {A} (e : exn) : M A := fun st => Raised e st.
Definition modify (f : State -> State) : M unit := fun st => Return tt (f st).
Definition get : M State := fun st => Return st st.
Definition get_fs : M FS := fun st => Return (fs st) st.

(** A filesystem call: the filesystem changes only when it succeeds. *)
Definition os_call (op : FS -> Result FS) : M unit :=
  fun st => match op (fs st) with
            | Ok f => Return tt (with_fs st f)
            | Raise e => Raised e st
            end.
Definition os_query {A} (op : FS -> Result A) : M A :=
  fun st => match op (fs st) with
            | Ok a => Return a st
            | Raise e => Raised e st
            end.

(** [try: m  except <handles>: h] *)
Definition try_except {A} (m : M A) (handles : exn -> bool) (h : exn -> M A) : M A :=
  fun st => match m st with
            | Raised e st' => if handles e then h e st' else Raised e st'
            | r => r
            end.

Definition when (b : bool) (m : M unit) : M unit := if b then m else ret tt.

(** [for x in xs: body x] *)
Fixpoint for_each {A} (xs : list A) (body : A -> M unit) : M unit :=
  match xs with
  | [] => ret tt
  | x :: xs' => bind (body x) (fun _ => for_each xs' body)
  end.

Definition logger (l : level) (msg : string) : M unit := modify (add_log l msg).

End Run.

Notation "x <- m ;; k" := (Run.bind m (fun x => k))
  (at level 90, m at level 80, right associativity).
Notation "m ;;; k" := (Run.bind m (fun _ => k))
  (at level 90, right associativity).

(* ===================================================================== *)
(** ** [class Phockup]                                                     *)
(* ===================================================================== *)

Module Engine.
Import PyStr OS Run.

(** [datetime.datetime] (naive), ordered field by field. *)
Record datetime := mkDT {
  year : Z; month : Z; day : Z; hour : Z; minute : Z; second : Z;
  microsecond : Z
}.

Fixpoint lex_lt (a b : list Z) : bool :=
  match a, b with
  | x :: a', y :: b' => (x <? y) || ((x =? y) && lex_lt a' b')
  | _, _ => false
  end.
Definition dt_key (t : datetime) : list Z :=
  [year t; month t; day t; hour t; minute t; second t; microsecond t].
Definition dt_lt (a b : datetime) : bool := lex_lt (dt_key a) (dt_key b).

(** [str(t)] *)
Definition dt_str (t : datetime) : string :=
  zpad 4 (year t) +:+ "-" +:+ zpad 2 (month t) +:+ "-" +:+ zpad 2 (day t)
  +:+ " " +:+ zpad 2 (hour t) +:+ ":" +:+ zpad 2 (minute t) +:+ ":"
  +:+ zpad 2 (second t)
  +:+ (if microsecond t =? 0 then EmptyString
       else "." +:+ zpad 6 (microsecond t)).

(** The dictionary [Date.from_exif] returns: keys ['date'] and
    ['subseconds']. *)
Record DateDict := mkDate { dd_date : option datetime; dd_subseconds : string }.

(** The value of the local [file_date] of [process_file]: [None], the
    dictionary, or, once unpacked, its ['date']. *)
Inductive FileDate :=
| FD_None
| FD_Dict (d : DateDict)
| FD_Datetime (t : datetime).

Definition is_None (file_date : FileDate) : bool :=
  match file_date with FD_None => true | _ => false end.

Abbreviation ExifData := (gmap string string).

(** The keyword arguments of [Phockup(input_dir, output_dir, **args)];
    [None] stands for an absent key where the default is [None]. *)
Record Args := mkArgs {
  a_output_prefix : option string;
  a_output_suffix : option string;
  a_no_date_dir : option string;
  a_dir_format : option string;
  a_move : bool;
  a_link : bool;
  a_original_filenames : bool;
  a_date_regex : option string;
  a_timestamp : bool;
  a_date_field : option string;
  a_skip_unknown : bool;
  a_movedel : bool;
  a_rmdirs : bool;
  a_dry_run : bool;
  a_max_depth : Z;
  a_max_concurrency : Z;
  a_from_date : option string;
  a_to_date : option string;
  a_use_shallow_cmp : bool;
  a_file_type : option string
}.

(** The attributes [__init__] sets and no method changes afterwards.
    [movedel] and [rmdirs] hold tuples: lines 62 and 63 end in a comma,
    [self.movedel = args.get("movedel", False),]. *)
Record Phockup := mkPhockup {
  input_dir : string;
  output_dir : string;
  output_prefix : option string;
  output_suffix : option string;
  no_date_dir : string;
  dir_format : string;
  move : bool;
  link : bool;
  original_filenames : bool;
  date_regex : option string;
  timestamp : bool;
  date_field : option string;
  skip_unknown : bool;
  movedel : list bool;
  rmdirs : list bool;
  dry_run : bool;
  max_depth : Z;
  max_concurrency : Z;
  from_date : option datetime;
  to_date : option datetime;
  use_shallow_cmp : bool;
  stop_depth : Z;
  file_type : option string
}.

(** Truth value of a tuple: false only when it is empty. *)
Definition tuple_truth {A} (t : list A) : bool :=
  match t with [] => false | _ => true end.

(** [a or default] for a string that may be [None]. *)
Definition or_default (a : option string) (d : string) : string :=
  match a with
  | Some s => if bool_decide (s = EmptyString) then d else s
  | None => d
  end.

Definition ignored_files : list string := [".DS_Store"; "Thumbs.db"].
Definition ignored_extensions : list string := [".lrv"; ".thm"].
Definition known_sidecar_extensions : list string := [".xmp"; ".aae"].

Definition DEFAULT_DIR_FORMAT : list string := ["%Y"; "%m"; "%d"].
Definition DEFAULT_NO_DATE_DIRECTORY : string := "unknown".
Definition sys_maxsize : Z := 2 ^ 63 - 1.

Definition opt_str (o : option string) : string :=
  match o with Some s => s | None => "None" end.

(** *** [get_file_type]: three [re.match] tests on the MIME type.
    In these patterns [.] matches any character but a newline and [$]
    also matches just before a final newline. *)
Definition newline : ascii := "010"%char.

Definition before_dollar (s : string) : string :=
  if endswith s (String newline EmptyString)
  then take (String.length s - 1) s else s.

Definition no_newline (s : string) : bool :=
  forallb (fun a => negb (Ascii.eqb a newline)) (chars s).

Fixpoint match_dots (pat s : string) : bool :=
  match pat, s with
  | EmptyString, EmptyString => true
  | String p pat', String c s' =>
      (if Ascii.eqb p "." then negb (Ascii.eqb c newline) else Ascii.eqb p c)
      && match_dots pat' s'
  | _, _ => false
  end.

Definition patternImage (mimetype : string) : bool :=
  let b := before_dollar mimetype in
  (startswith b "image/"
   && negb (bool_decide (drop 6 b = EmptyString)) && no_newline (drop 6 b))
  || match_dots "application/vnd.adobe.photoshop" b.

Definition patternVideo (mimetype : string) : bool :=
  let b := before_dollar mimetype in
  startswith b "video/" && no_newline (drop 6 b).

Definition patternXMP (mimetype : string) : bool :=
  bool_decide (before_dollar mimetype = "application/rdf+xml").

Definition get_file_type (mimetype : string) : option string :=
  if patternImage mimetype then Some "image"
  else if patternVideo mimetype then Some "video"
  else if patternXMP mimetype then Some "xmp"
  else None.

(** *** The sidecar table of [process_sidecars]: a [dict], which keeps
    the position of a key that is assigned again. *)
Definition dict_set (k v : string) (d : list (string * string))
  : list (string * string) :=
  if bool_decide (k ∈ d.*1)
  then (fun kv : string * string =>
          if bool_decide (kv.1 = k) then (k, v) else kv) <$> d
  else d ++ [(k, v)].

Definition string_suffix (suffix : Z) : string :=
  if 1 <? suffix then "-" +:+ pretty suffix else EmptyString.

Definition sidecar_original_with_ext (original_filename sidecar_ext : string) :=
  original_filename +:+ sidecar_ext.
Definition sidecar_original_without_ext (original_filename sidecar_ext : string) :=
  (splitext original_filename).1 +:+ sidecar_ext.
Definition sidecar_original_leading_o (original_filename sidecar_ext : string) :=
  replace "IMG_" "IMG_O" (splitext original_filename).1 +:+ sidecar_ext.
Definition sidecar_original_trailing_o (original_filename sidecar_ext : string) :=
  (splitext original_filename).1 +:+ "O" +:+ sidecar_ext.

Definition sidecar_files (f : FS) (original_filename file_name : string)
           (suffix : Z) (sidecar_ext : string) : list (string * string) :=
  let sfx := string_suffix suffix in
  let d := [] in
  let d :=
    if isfile f (sidecar_original_with_ext original_filename sidecar_ext)
    then dict_set (sidecar_original_with_ext original_filename sidecar_ext)
                  (file_name +:+ sfx +:+ sidecar_ext) d
    else d in
  let d :=
    if isfile f (sidecar_original_without_ext original_filename sidecar_ext)
    then dict_set (sidecar_original_without_ext original_filename sidecar_ext)
                  ((splitext file_name).1 +:+ sfx +:+ sidecar_ext) d
    else d in
  let d :=
    if isfile f (sidecar_original_leading_o original_filename sidecar_ext)
    then dict_set (sidecar_original_leading_o original_filename sidecar_ext)
                  ((splitext (replace "IMG_" "IMG_O" file_name)).1
                     +:+ sfx +:+ sidecar_ext) d
    else d in
  let d :=
    if isfile f (sidecar_original_trailing_o original_filename sidecar_ext)
    then dict_set (sidecar_original_trailing_o original_filename sidecar_ext)
                  ((splitext file_name).1 +:+ "O" +:+ sfx +:+ sidecar_ext) d
    else d in
  d.

(** The step of the [while True] loop of [process_file]: [Break], or the
    fall-through to [suffix += 1] with the current [file_date]. *)
Inductive step := Break | Next (file_date : FileDate).

Section Collaborators.

(** The code of the repository outside [phockup.py], and the library
    calls whose result is not computed here:
    - [Exif(path).data()] of [src/exif.py], which reads the file at
      [path]: a function of the path and of the file found there;
    - [Date(filename).from_exif(exif, timestamp, date_regex, date_field)]
      of [src/date.py], which besides its arguments reads the name and
      the modification time of [filename];
    - [Date.strptime(text, format)] of [src/date.py];
    - [d.strftime(format)] on a [datetime.date]; [None] is [ValueError];
    - [process_files] (lines 279-293), which hands the paths of one
      directory to a pool of [max_concurrency] threads.  How the
      threads interleave is not computed here: the call is an
      arbitrary computation on the state, and it is made only when
      [max_concurrency > 1]. *)
Variable Exif_data : string -> option File -> option ExifData.
Variable Date_from_exif :
  string -> option File -> option ExifData -> bool -> option string
  -> option string -> option DateDict.
Variable Date_strptime : string -> string -> Result datetime.
Variable strftime : Z -> Z -> Z -> string -> option string.
Variable process_files : Phockup -> list string -> M unit.

(** *** [get_output_dir].  [date] is [None] both for [None] and for the
    [[]] of the call [self.get_output_dir([])]: subscripting either
    with ['date'] raises [TypeError].  A dictionary whose ['date'] is
    [None] raises [AttributeError], which the [except] does not name. *)
Definition get_output_dir (self : Phockup) (date : option DateDict) : M string :=
  segment <-
    match date with
    | None => ret (no_date_dir self)
    | Some d =>
        match dd_date d with
        | None => raise AttributeError
        | Some t =>
            match strftime (year t) (month t) (day t) (dir_format self) with
            | Some s => ret s
            | None => ret (no_date_dir self)
            end
        end
    end ;;
  let path := [Some (output_dir self); output_prefix self;
               Some segment; output_suffix self] in
  let path := omap id path in
  let fullpath := normpath (join "/" path) in
  f <- get_fs ;;
  when (negb (isdir f fullpath) && negb (dry_run self))
       (os_call (fun f => makedirs f fullpath true)) ;;;
  ret fullpath.

(** *** [get_file_name] *)
Definition get_file_name (self : Phockup) (original_filename : string)
           (date : option DateDict) : M string :=
  if original_filenames self then ret (basename original_filename)
  else
    match date with
    | None => ret (basename original_filename)
    | Some d =>
        match dd_date d with
        | None => raise AttributeError
        | Some t =>
            let filename :=
              [zpad 4 (year t); zpad 2 (month t); zpad 2 (day t); "-";
               zpad 2 (hour t); zpad 2 (minute t); zpad 2 (second t)] in
            let filename :=
              if negb (bool_decide (dd_subseconds d = EmptyString))
              then filename ++ [dd_subseconds d] else filename in
            ret (join EmptyString filename +:+ (splitext original_filename).2)
        end
    end.

(** *** [get_file_name_and_path] *)
Definition xmp_original_with_ext (filename : string) : string :=
  filename +:+ ".xmp".
Definition xmp_original_without_ext (filename : string) : string :=
  (splitext filename).1 +:+ ".xmp".

Definition xmp_filename (f : FS) (filename : string) : option string :=
  let x := None in
  let x := if isfile f (xmp_original_with_ext filename)
           then Some (xmp_original_with_ext filename) else x in
  let x := if isfile f (xmp_original_without_ext filename)
           then Some (xmp_original_without_ext filename) else x in
  x.

Definition target_type_of (exif_data : option ExifData) : option string :=
  match exif_data with
  | Some e =>
      match e !! "MIMEType" with
      | Some m => get_file_type m
      | None => None
      end
  | None => None
  end.

Definition exif_source (f : FS) (filename : string) : string :=
  match xmp_filename f filename with
  | None => filename
  | Some x => x
  end.

Definition get_file_name_and_path (self : Phockup) (filename : string)
  : M (string * string * string * option string * option DateDict) :=
  f <- get_fs ;;
  let exif_data :=
    Exif_data (exif_source f filename) (files f !! exif_source f filename) in
  let target_file_type := target_type_of exif_data in
  if bool_decide (target_file_type ∈ [Some "image"; Some "video"; Some "xmp"])
  then
    let date := Date_from_exif filename (files f !! filename) exif_data
                               (timestamp self) (date_regex self)
                               (date_field self) in
    output <- get_output_dir self date ;;
    target_file_name <- get_file_name self filename date ;;
    let target_file_name :=
      if negb (original_filenames self) then lower target_file_name
      else target_file_name in
    let target_file_path := join "/" [output; target_file_name] in
    ret (output, target_file_name, target_file_path, target_file_type, date)
  else
    output <- get_output_dir self None ;;
    let target_file_name := basename filename in
    let target_file_path := join "/" [output; target_file_name] in
    ret (output, target_file_name, target_file_path, target_file_type, None).

(** *** [process_sidecars] *)
Definition place_sidecar (self : Phockup) (output : string)
           (item : string * string) : M unit :=
  let '(original, target) := item in
  let sidecar_path := join "/" [output; target] in
  logger INFO (original +:+ " => " +:+ sidecar_path) ;;;
  when (negb (dry_run self))
       (if move self then os_call (fun f => OS.move f original sidecar_path)
        else if link self then os_call (fun f => OS.link f original sidecar_path)
        else os_call (fun f => copy2 f original sidecar_path)).

Definition process_sidecars (self : Phockup)
           (original_filename file_name : string) (suffix : Z)
           (output : string) : M unit :=
  for_each known_sidecar_extensions (fun sidecar_ext =>
    f <- get_fs ;;
    for_each (sidecar_files f original_filename file_name suffix sidecar_ext)
             (place_sidecar self output)).

(** *** [process_file] *)

(** Lines 311-316: the file-type filter. *)
Definition type_mismatch (self : Phockup) (target_file_type : option string)
  : bool :=
  match file_type self with
  | None => false
  | Some ft => negb (bool_decide (Some ft = target_file_type))
  end.

(** Lines 328-342: the date window.  Returns [Break] or the unpacked
    [file_date].  Comparing [None] with a [datetime] raises. *)
Definition date_window (self : Phockup) (filename progress : string)
           (file_date : FileDate) : M step :=
  let file_date :=
    match file_date with
    | FD_Dict d =>
        match dd_date d with Some t => FD_Datetime t | None => FD_None end
    | fd => fd
    end in
  r1 <-
    match from_date self with
    | None => ret (progress, false)
    | Some fr =>
        match file_date with
        | FD_Datetime t =>
            if dt_lt t fr
            then ret (progress +:+ " => " +:+ filename +:+ " skipped: date "
                        +:+ dt_str t +:+ " is older than --from-date "
                        +:+ dt_str fr, true)
            else ret (progress, false)
        | _ => raise TypeError
        end
    end ;;
  let '(progress, skip) := r1 in
  r2 <-
    match to_date self with
    | None => ret (progress, skip)
    | Some to =>
        match file_date with
        | FD_Datetime t =>
            if dt_lt to t
            then ret (progress +:+ " => " +:+ filename +:+ " skipped: date "
                        +:+ dt_str t +:+ " is newer than --to-date "
                        +:+ dt_str to, true)
            else ret (progress, skip)
        | _ => raise TypeError
        end
    end ;;
  let '(progress, skip) := r2 in
  if skip then logger INFO progress ;;; ret Break
  else ret (Next file_date).

(** Lines 345-356: the existing target holds the same content. *)
Definition duplicate (self : Phockup) (filename progress target_file : string)
  : M unit :=
  progress <-
    (if tuple_truth (movedel self) && move self && skip_unknown self
     then
       when (negb (dry_run self)) (os_call (fun f => remove f filename)) ;;;
       ret (progress +:+ " => deleted, duplicated file " +:+ target_file)
     else
       ret (progress +:+ " => skipped, duplicated file " +:+ target_file)) ;;
  modify inc_duplicates ;;;
  logger INFO progress.

(** Lines 358-389: the target is free.  [true] when the [except] branch
    ran, which breaks out before the sidecars. *)
Definition missing_source (progress : string) : M bool :=
  logger WARNING (progress +:+ " => skipped, no such file or directory") ;;;
  ret true.

Definition place (self : Phockup) (filename progress target_file_name : string)
           (suffix : Z) (output target_file : string) : M unit :=
  skipped <-
    (if move self then
       try_except
         (modify inc_moved ;;;
          when (negb (dry_run self))
               (os_call (fun f => OS.move f filename target_file)) ;;;
          ret false)
         is_FileNotFoundError
         (fun _ => missing_source progress)
     else if link self && negb (dry_run self) then
       os_call (fun f => OS.link f filename target_file) ;;;
       ret false
     else
       try_except
         (modify inc_copied ;;;
          when (negb (dry_run self))
               (os_call (fun f => copy2 f filename target_file)) ;;;
          ret false)
         is_FileNotFoundError
         (fun _ => missing_source progress)) ;;
  if skipped : bool then ret tt
  else
    logger INFO (progress +:+ " => " +:+ target_file) ;;;
    process_sidecars self filename target_file_name suffix output.

(** Lines 311-342: the three filters at the head of the loop body. *)
Definition filters (self : Phockup)
           (filename output target_file_name : string)
           (target_file_type : option string) (file_date : FileDate)
  : M step :=
  let progress := filename in
  if type_mismatch self target_file_type then
    logger INFO (progress +:+ " => skipped, file is '"
                   +:+ opt_str target_file_type +:+ "' but looking for '"
                   +:+ opt_str (file_type self) +:+ "'") ;;;
    ret Break
  else
    let date_unknown :=
      is_None file_date || endswith output (no_date_dir self) in
    if skip_unknown self && endswith output (no_date_dir self) then
      modify inc_unknown ;;;
      logger INFO (progress +:+ " => skipped, unknown date EXIF information for '"
                     +:+ target_file_name +:+ "'") ;;;
      ret Break
    else
      if negb date_unknown
      then date_window self filename progress file_date
      else ret (Next file_date).

(** Lines 344-389: the probe of [target_file] and what follows it. *)
Definition probe (self : Phockup) (filename target_file_name : string)
           (file_date : FileDate) (suffix : Z) (output target_file : string)
  : M step :=
  let progress := filename in
  f <- get_fs ;;
  if isfile f target_file then
    same <- (if negb (bool_decide (filename = target_file))
             then os_query (fun f => cmp f filename target_file
                                         (use_shallow_cmp self))
             else ret false) ;;
    if same : bool then
      duplicate self filename progress target_file ;;; ret Break
    else ret (Next file_date)
  else
    place self filename progress target_file_name suffix output target_file ;;;
    ret Break.

(** Lines 311-389: one pass through the body of [while True]. *)
Definition loop_body (self : Phockup)
           (filename output target_file_name : string)
           (target_file_type : option string) (file_date : FileDate)
           (suffix : Z) (target_file : string) : M step :=
  s <- filters self filename output target_file_name target_file_type
               file_date ;;
  match s with
  | Break => ret Break
  | Next file_date =>
      probe self filename target_file_name file_date suffix output target_file
  end.

(** Lines 391-393. *)
Definition suffixed (target_file_path : string) (suffix : Z) : string :=
  let target_split := splitext target_file_path in
  target_split.1 +:+ "-" +:+ pretty suffix +:+ target_split.2.

(** Lines 310-393: [while True], unrolled at most [n] times. *)
Fixpoint collision_loop (n : nat) (self : Phockup)
         (filename output target_file_name target_file_path : string)
         (target_file_type : option string) (file_date : FileDate)
         (suffix : Z) (target_file : string) : M unit :=
  match n with
  | O => fun _ => OutOfFuel
  | S n' =>
      s <- loop_body self filename output target_file_name target_file_type
                     file_date suffix target_file ;;
      match s with
      | Break => ret tt
      | Next file_date =>
          let suffix := suffix + 1 in
          let target_file := suffixed target_file_path suffix in
          collision_loop n' self filename output target_file_name
                         target_file_path target_file_type file_date
                         suffix target_file
      end
  end.

Definition date_value (date : option DateDict) : FileDate :=
  match date with None => FD_None | Some d => FD_Dict d end.

(** A free slot is probed after at most as many occupied ones as there
    are regular files. *)
Definition loop_bound (f : FS) : nat := S (size (files f)).

Definition process_file (self : Phockup) (filename : string) : M unit :=
  if existsb (fun sidecar_ext => endswith filename sidecar_ext)
             known_sidecar_extensions
  then ret tt
  else
    r <- get_file_name_and_path self filename ;;
    let '(output, target_file_name, target_file_path, target_file_type,
          file_date) := r in
    let suffix := 1 in
    let target_file := target_file_path in
    f <- get_fs ;;
    collision_loop (loop_bound f) self filename output target_file_name
                   target_file_path target_file_type (date_value file_date)
                   suffix target_file ;;;
    modify inc_processed.

(** *** [walk_directory], over the triples [os.walk(input_dir)] yields
    during the run.  Pruning [dirnames] at [stop_depth] acts on what the
    generator yields next, so it is part of [walk].  With
    [max_concurrency > 1] the paths of a directory go to
    [process_files]; otherwise they are processed one after the other,
    in order.  No [KeyboardInterrupt] is delivered, so neither branch
    returns early. *)
Definition sort_names (l : list string) : list string :=
  merge_sort String.le l.

Definition ignored_extension (filename : string) : bool :=
  existsb (fun ext => endswith (lower filename) ext) ignored_extensions.

Definition file_paths_to_process (root : string) (files : list string)
  : list string :=
  (fun filename => path_join root filename)
    <$> filter (fun filename =>
                  (filename ∉ ignored_files)
                  ∧ (ignored_extension filename = false))
               (sort_names files).

Definition skipped_extension_messages (files : list string)
  : list string :=
  flat_map (fun filename =>
              if bool_decide (filename ∈ ignored_files) then []
              else (fun ext => "Skipping '" +:+ filename
                                 +:+ "' since filename ends with '" +:+ ext +:+ "'")
                     <$> filter (fun ext => endswith (lower filename) ext = true)
                                ignored_extensions)
           (sort_names files).

Definition walk_directory (self : Phockup)
           (walk : list (string * list string * list string)) : M unit :=
  for_each walk (fun triple =>
    let '(root, dirnames, files) := triple in
    for_each (skipped_extension_messages files) (logger DEBUG) ;;;
    if 1 <? max_concurrency self
    then process_files self (file_paths_to_process root files)
    else for_each (file_paths_to_process root files) (process_file self)).

(** *** [rm_subdirs], over the triples of
    [os.walk(input_dir, topdown=False)]. *)
Definition get_depth (self : Phockup) (sub_path : string) : Z :=
  count "/" sub_path - count "/" (input_dir self).

Definition rm_subdirs (self : Phockup)
           (walk_up : list (string * list string * list string)) : M unit :=
  for_each walk_up (fun triple =>
    let '(root, dirs, files) := triple in
    if stop_depth self <? get_depth self root then ret tt
    else
      for_each dirs (fun name =>
        let dir_path := path_join root name in
        if stop_depth self <? get_depth self dir_path then ret tt
        else
          try_except
            (os_call (fun f => rmdir f dir_path) ;;;
             logger INFO ("Deleted empty directory: " +:+ dir_path))
            is_OSError
            (fun e => logger INFO (strerror e +:+ " - " +:+ dir_path
                                     +:+ " not deleted.")))).

(** *** [check_directories] *)
Definition check_directories (self : Phockup) : M unit :=
  f <- get_fs ;;
  if negb (exists_ f (input_dir self)) then
    raise (RuntimeError ("Input directory '" +:+ input_dir self
                           +:+ "' does not exist"))
  else if negb (isdir f (input_dir self)) then
    raise (RuntimeError ("Input directory '" +:+ input_dir self
                           +:+ "' is not a directory"))
  else
    when (negb (exists_ f (output_dir self)))
         (logger WARNING ("Output directory '" +:+ output_dir self
                            +:+ "' does not exist, creating now") ;;;
          try_except
            (when (negb (dry_run self))
                  (os_call (fun f => makedirs f (output_dir self) false)))
            is_OSError
            (fun _ => raise (OSError ("Cannot create output '"
                                        +:+ output_dir self
                                        +:+ "' directory. No write access!")))).

(** *** [print_action_report], without its first line (the run time
    and throughput are floating-point). *)
Definition print_action_report (self : Phockup) : M unit :=
  st <- get ;;
  when (negb (unknown_found st =? 0))
       (logger INFO ("Found " +:+ pretty (unknown_found st)
                       +:+ " files without EXIF date data.")) ;;;
  when (negb (duplicates_found st =? 0))
       (logger INFO ("Found " +:+ pretty (duplicates_found st)
                       +:+ " duplicate files.")) ;;;
  when (negb (files_copied st =? 0))
       (if dry_run self
        then logger INFO ("Would have copied " +:+ pretty (files_copied st)
                            +:+ " files.")
        else logger INFO ("Copied " +:+ pretty (files_copied st)
                            +:+ " files.")) ;;;
  when (negb (files_moved st =? 0))
       (if dry_run self
        then logger INFO ("Would have moved " +:+ pretty (files_moved st)
                            +:+ " files.")
        else logger INFO ("Moved " +:+ pretty (files_moved st)
                            +:+ " files.")).

(** *** [__init__]: the attributes, then the run.  [input_dir] and
    [output_dir] are taken after [os.path.expanduser]. *)
Definition strip_sep (d : string) : string :=
  if endswith d "/" then take (String.length d - 1) d else d.

Definition parse_bound (bound : option string) (clock : string)
  : Result (option datetime) :=
  match bound with
  | None => Ok None
  | Some d =>
      match Date_strptime (d +:+ " " +:+ clock) "%Y-%m-%d %H:%M:%S" with
      | Ok t => Ok (Some t)
      | Raise e => Raise e
      end
  end.

Definition attributes (input_dir output_dir : string) (args : Args)
           (from_date to_date : option datetime) : Phockup :=
  let input_dir := strip_sep input_dir in
  let output_dir := strip_sep output_dir in
  {| input_dir := input_dir;
     output_dir := output_dir;
     output_prefix := a_output_prefix args;
     output_suffix := a_output_suffix args;
     no_date_dir := or_default (a_no_date_dir args) DEFAULT_NO_DATE_DIRECTORY;
     dir_format := or_default (a_dir_format args) (join "/" DEFAULT_DIR_FORMAT);
     move := a_move args;
     link := a_link args;
     original_filenames := a_original_filenames args;
     date_regex := a_date_regex args;
     timestamp := a_timestamp args;
     date_field := a_date_field args;
     skip_unknown := a_skip_unknown args;
     movedel := [a_movedel args];
     rmdirs := [a_rmdirs args];
     dry_run := a_dry_run args;
     max_depth := a_max_depth args;
     max_concurrency := a_max_concurrency args;
     from_date := from_date;
     to_date := to_date;
     use_shallow_cmp := a_use_shallow_cmp args;
     stop_depth := if -1 <? a_max_depth args
                   then count "/" input_dir + a_max_depth args
                   else sys_maxsize;
     file_type := a_file_type args |}.

Definition initial_state (f : FS) : State :=
  {| fs := f; files_processed := 0; duplicates_found := 0;
     unknown_found := 0; files_moved := 0; files_copied := 0; log := [] |}.

Definition run_body (self : Phockup)
           (walk walk_up : list (string * list string * list string))
  : M unit :=
  when (1 <? max_concurrency self)
       (logger INFO ("Using " +:+ pretty (max_concurrency self)
                       +:+ " workers to process files.")) ;;;
  when (dry_run self)
       (logger WARNING
          "Dry-run phockup (does a trial run with no permanent changes)...") ;;;
  check_directories self ;;;
  walk_directory self walk ;;;
  when (move self && tuple_truth (rmdirs self)) (rm_subdirs self walk_up) ;;;
  st <- get ;;
  when (negb (files_processed st =? 0)) (print_action_report self).

Definition init (input_dir output_dir : string) (args : Args)
           (walk walk_up : list (string * list string * list string))
           (f : FS) : outcome unit :=
  match parse_bound (a_from_date args) "00:00:00" with
  | Raise e => Raised e (initial_state f)
  | Ok fr =>
      match parse_bound (a_to_date args) "23:59:59" with
      | Raise e => Raised e (initial_state f)
      | Ok to =>
          run_body (attributes input_dir output_dir args fr to) walk walk_up
                   (initial_state f)
      end
  end.

End Collaborators.

End Engine.

(* ===================================================================== *)
(** ** Stand-ins for the collaborators, for the concrete runs             *)
(* ===================================================================== *)

(** A catalogue gives each path the dictionary [Exif(path).data()] returns
    while the file exists, and each date text the dictionary
    [Date.from_exif] makes of it.  The date is read from the ['CreateDate']
    of the dictionary that is passed in, whichever file it came from. *)
Module Doubles.
Import PyStr OS Run Engine.

Record Catalogue := mkCatalogue {
  exif_table : gmap string (gmap string string);
  date_table : gmap string DateDict
}.

Definition Exif_data (c : Catalogue) (path : string) (file : option File)
  : option (gmap string string) :=
  match file with Some _ => exif_table c !! path | None => None end.

Definition Date_from_exif (c : Catalogue) (filename : string)
           (file : option File)
           (exif : option (gmap string string)) (timestamp : bool)
           (date_regex date_field : option string) : option DateDict :=
  match exif with
  | Some e =>
      match e !! "CreateDate" with
      | Some text => date_table c !! text
      | None => None
      end
  | None => None
  end.

(** No [--from-date] or [--to-date] text is accepted. *)
Definition Date_strptime (text format : string) : Result datetime :=
  Raise (OSError "time data does not match format").

(** [strftime] for the default format only. *)
Definition strftime (y m d : Z) (format : string) : option string :=
  if bool_decide (format = "%Y/%m/%d")
  then Some (zpad 4 y +:+ "/" +:+ zpad 2 m +:+ "/" +:+ zpad 2 d)
  else None.

Definition process_file (c : Catalogue) :=
  Engine.process_file (Exif_data c) (Date_from_exif c) strftime.
(** The pool of the concrete runs works through the paths in order.
    None of these runs has more than one worker, so it is never called. *)
Definition process_files (c : Catalogue) (self : Phockup)
           (paths : list string) : M unit :=
  for_each paths (process_file c self).
Definition init (c : Catalogue) :=
  Engine.init (Exif_data c) (Date_from_exif c) Date_strptime strftime
              (process_files c).

Definition default_args : Args :=
  {| a_output_prefix := None; a_output_suffix := None;
     a_no_date_dir := None; a_dir_format := None;
     a_move := false; a_link := false; a_original_filenames := false;
     a_date_regex := None; a_timestamp := false; a_date_field := None;
     a_skip_unknown := false; a_movedel := false; a_rmdirs := false;
     a_dry_run := false; a_max_depth := -1; a_max_concurrency := 1;
     a_from_date := None; a_to_date := None; a_use_shallow_cmp := false;
     a_file_type := None |}.

Definition jpeg (date_text : string) : gmap string string :=
  {[ "MIMEType" := "image/jpeg"; "CreateDate" := date_text ]}.

Definition xmp (date_text : string) : gmap string string :=
  {[ "MIMEType" := "application/rdf+xml"; "CreateDate" := date_text ]}.

Definition file (data : list Byte.byte) (mtime : Z) : File :=
  {| f_data := data; f_mtime := mtime |}.

Definition t_2023_03_04 : DateDict :=
  {| dd_date := Some (mkDT 2023 3 4 10 15 30 0); dd_subseconds := EmptyString |}.

End Doubles.

(* ===================================================================== *)
(** ** Vocabulary of the statements                                        *)
(* ===================================================================== *)

Module Logic.
Import PyStr OS Run Engine.

(** [spec m st Q E]: from [st] the call [m] ends, with a value and a state
    in [Q] or with an exception and a state in [E]. *)
Definition spec {A} (m : M A) (st : State)
           (Q : A -> State -> Prop) (E : exn -> State -> Prop) : Prop :=
  match m st with
  | Return a st' => Q a st'
  | Raised e st' => E e st'
  | OutOfFuel => False
  end.

(** [keeps R m]: the call [m] always ends, and [R] relates the state it
    starts from to the state it ends in, however it ends. *)
Definition keeps {A} (R : State -> State -> Prop) (m : M A) : Prop :=
  forall st, spec m st (fun _ st' => R st st') (fun _ st' => R st st').

(** The path probed when the loop counter is [suffix]: the target path
    itself at first, then [name-2.ext], [name-3.ext], ... *)
Definition candidate (target_file_path : string) (suffix : Z) : string :=
  if suffix =? 1 then target_file_path else suffixed target_file_path suffix.

(** The four places where [process_sidecars] looks for a sidecar. *)
Definition sidecar_originals (original_filename sidecar_ext : string)
  : list string :=
  [sidecar_original_with_ext original_filename sidecar_ext;
   sidecar_original_without_ext original_filename sidecar_ext;
   sidecar_original_leading_o original_filename sidecar_ext;
   sidecar_original_trailing_o original_filename sidecar_ext].


(** No sidecar of [filename] is a regular file of [f]. *)
Definition no_sidecars (f : FS) (filename : string) : Prop :=
  Forall (fun ext =>
            Forall (fun p => files f !! p = None)
                   (sidecar_originals filename ext))
         known_sidecar_extensions.

(** The test at the head of [process_file]. *)
Definition has_sidecar_ext (filename : string) : bool :=
  existsb (fun sidecar_ext => endswith filename sidecar_ext)
          known_sidecar_extensions.

(** A slot that does not stop the loop: a regular file that is the
    source itself, or that compares different from it. *)
Definition passed_over (self : Phockup) (st : State)
           (filename target : string) : Prop :=
  isfile (fs st) target = true
  /\ (filename = target
      \/ cmp (fs st) filename target (use_shallow_cmp self) = Ok false).

(** What a successful [makedirs] of [name] leaves behind: the same files,
    the old directories, and new ones no longer than [name]. *)
Definition makedirs_frame (name : string) (f f' : FS) : Prop :=
  files f' = files f
  /\ dirs f ⊆ dirs f'
  /\ (forall d, d ∈ dirs f' ->
                d ∈ dirs f \/ (String.length d <= String.length name)%nat).

(** The state in which [place] leaves a primary file that it could place
    and that has no sidecars. *)
Definition counted (self : Phockup) (st : State) : State :=
  if move self then inc_moved st
  else if link self && negb (dry_run self) then st
  else inc_copied st.

Definition landed_files (self : Phockup) (m : gmap string File)
           (filename target : string) (c : File) : gmap string File :=
  if move self then <[target := c]> (delete filename m)
  else <[target := c]> m.

Definition landed (self : Phockup) (st : State)
           (filename progress target : string) (c : File) : State :=
  add_log INFO (progress +:+ " => " +:+ target)
          (with_fs (counted self st)
                   (set_files (fs st)
                              (landed_files self (files (fs st)) filename
                                            target c))).

(** The state after the [except FileNotFoundError] branch of [place]. *)
Definition skipped_missing (self : Phockup) (st : State) (progress : string)
  : State :=
  add_log WARNING (progress +:+ " => skipped, no such file or directory")
          (if move self then inc_moved st else inc_copied st).

(** The same configuration with dry-run switched on or off. *)
Definition with_dry_run (b : bool) (self : Phockup) : Phockup :=
  {| input_dir := input_dir self; output_dir := output_dir self;
     output_prefix := output_prefix self; output_suffix := output_suffix self;
     no_date_dir := no_date_dir self; dir_format := dir_format self;
     move := move self; link := link self;
     original_filenames := original_filenames self;
     date_regex := date_regex self; timestamp := timestamp self;
     date_field := date_field self; skip_unknown := skip_unknown self;
     movedel := movedel self; rmdirs := rmdirs self;
     dry_run := b;
     max_depth := max_depth self; max_concurrency := max_concurrency self;
     from_date := from_date self; to_date := to_date self;
     use_shallow_cmp := use_shallow_cmp self; stop_depth := stop_depth self;
     file_type := file_type self |}.

(** Relations between the state before and after a call. *)
Definition same_processed (st st' : State) : Prop :=
  files_processed st' = files_processed st.
Definition same_fs (st st' : State) : Prop := fs st' = fs st.
Definition nothing_added (st st' : State) : Prop :=
  files (fs st') = files (fs st) /\ dirs (fs st') ⊆ dirs (fs st).
Definition same_files (st st' : State) : Prop :=
  files (fs st') = files (fs st).
Definition same_counters (st st' : State) : Prop :=
  files_processed st' = files_processed st
  /\ duplicates_found st' = duplicates_found st
  /\ unknown_found st' = unknown_found st
  /\ files_moved st' = files_moved st
  /\ files_copied st' = files_copied st.

(** A run that has placed the files [placed], in this order, in the first
    slots of [path], with the files [rest] still to come: the slots hold
    the bytes of the files placed, the other slots are free, the files to
    come are as they were, and no other file has appeared. *)
Definition slots_filled (path output : string) (st0 st : State)
           (placed rest : list string) : Prop :=
  (forall (i : nat) f,
      placed !! i = Some f ->
      files (fs st) !! candidate path (Z.of_nat i + 1) = files (fs st0) !! f)
  /\ (forall s,
         Z.of_nat (length placed) < s <= Z.of_nat (length (placed ++ rest)) ->
         files (fs st) !! candidate path s = None)
  /\ (forall s,
         1 <= s <= Z.of_nat (length (placed ++ rest)) ->
         candidate path s ∉ dirs (fs st))
  /\ (forall f,
         f ∈ rest ->
         files (fs st) !! f = files (fs st0) !! f /\ no_sidecars (fs st) f)
  /\ isfile (fs st) output = false
  /\ (forall p,
         is_Some (files (fs st) !! p) ->
         is_Some (files (fs st0) !! p)
         \/ exists s, 1 <= s <= Z.of_nat (length placed)
                      /\ p = candidate path s).

(** Two states with the same regular files and the same counters. *)
Definition alike (a b : State) : Prop :=
  files (fs a) = files (fs b) /\ same_counters b a.

End Logic.

(* ===================================================================== *)
(** ** Concrete runs                                                        *)
(* ===================================================================== *)

Module Scenarios.
Import PyStr OS Run Engine Doubles.

(** Two photographs taken in the same second, [a.jpg] and [b.jpg]. *)
Definition catalogue : Catalogue :=
  {| exif_table := {[ "/in/a.jpg" := jpeg "2023:03:04 10:15:30";
                      "/in/b.jpg" := jpeg "2023:03:04 10:15:30";
                      "/in/b.xmp" := xmp "2023:03:04 10:15:30";
                      "/in/b.jpg.xmp" := xmp "2023:03:04 10:15:30";
                      "/in/IMG_0001.JPG" := jpeg "2023:03:04 10:15:30";
                      "/in/IMG_0001.JPG.xmp" := xmp "2023:03:04 10:15:30" ]};
     date_table := {[ "2023:03:04 10:15:30" := t_2023_03_04 ]} |}.

Definition target : string := "/out/2023/03/04/20230304-101530.jpg".
Definition target_2 : string := "/out/2023/03/04/20230304-101530-2.jpg".

Definition with_mode (move link dry_run : bool) : Args :=
  {| a_output_prefix := None; a_output_suffix := None;
     a_no_date_dir := None; a_dir_format := None;
     a_move := move; a_link := link; a_original_filenames := false;
     a_date_regex := None; a_timestamp := false; a_date_field := None;
     a_skip_unknown := false; a_movedel := false; a_rmdirs := false;
     a_dry_run := dry_run; a_max_depth := -1; a_max_concurrency := 1;
     a_from_date := None; a_to_date := None; a_use_shallow_cmp := false;
     a_file_type := None |}.

(** [--move --skip-unknown], without [--movedel] and without [--rmdirs]. *)
Definition move_skip_unknown : Args :=
  {| a_output_prefix := None; a_output_suffix := None;
     a_no_date_dir := None; a_dir_format := None;
     a_move := true; a_link := false; a_original_filenames := false;
     a_date_regex := None; a_timestamp := false; a_date_field := None;
     a_skip_unknown := true; a_movedel := false; a_rmdirs := false;
     a_dry_run := false; a_max_depth := -1; a_max_concurrency := 1;
     a_from_date := None; a_to_date := None; a_use_shallow_cmp := false;
     a_file_type := None |}.

Definition self_of (args : Args) : Phockup :=
  attributes "/in" "/out" args None None.

(** [a.jpg], whose bytes are already at the target. *)
Definition fs_duplicate : FS :=
  {| files := {[ "/in/a.jpg" := file [Byte.x01] 5;
                 target := file [Byte.x01] 9 ]};
     dirs := {[ "/in"; "/out"; "/out/2023"; "/out/2023/03";
                "/out/2023/03/04" ]} |}.

(** An input tree with one file and one empty directory. *)
Definition fs_empty_dir : FS :=
  {| files := {[ "/in/a.jpg" := file [Byte.x01] 5 ]};
     dirs := {[ "/in"; "/in/empty"; "/out" ]} |}.

(** Two inputs with the same bytes. *)
Definition fs_twins : FS :=
  {| files := {[ "/in/a.jpg" := file [Byte.x01] 5;
                 "/in/b.jpg" := file [Byte.x01] 5 ]};
     dirs := {[ "/in"; "/out" ]} |}.

(** [a.jpg] was listed by the walk and is gone; [b.jpg] is there. *)
Definition fs_vanished : FS :=
  {| files := {[ "/in/b.jpg" := file [Byte.x02] 5 ]};
     dirs := {[ "/in"; "/out"; "/out/unknown" ]} |}.

(** A photograph with its sidecar. *)
Definition fs_sidecar : FS :=
  {| files := {[ "/in/IMG_0001.JPG" := file [Byte.x01] 5;
                 "/in/IMG_0001.JPG.xmp" := file [Byte.x02] 6 ]};
     dirs := {[ "/in"; "/out" ]} |}.


(** A photograph that already sits at its own target path. *)
Definition in_place_catalogue : Catalogue :=
  {| exif_table := {[ target := jpeg "2023:03:04 10:15:30" ]};
     date_table := {[ "2023:03:04 10:15:30" := t_2023_03_04 ]} |}.

Definition fs_in_place : FS :=
  {| files := {[ target := file [Byte.x01] 5 ]};
     dirs := {[ "/out"; "/out/2023"; "/out/2023/03"; "/out/2023/03/04" ]} |}.

(** Two photographs with different bytes. *)
Definition fs_pair : FS :=
  {| files := {[ "/in/a.jpg" := file [Byte.x01] 5;
                 "/in/b.jpg" := file [Byte.x02] 5 ]};
     dirs := {[ "/in"; "/out" ]} |}.

(** A second metadata reader, which disagrees with the first about the
    photograph and agrees about its sidecar. *)
Definition other_catalogue : Catalogue :=
  {| exif_table := {[ "/in/IMG_0001.JPG" := jpeg "1999:01:01 00:00:00";
                      "/in/IMG_0001.JPG.xmp" := xmp "2023:03:04 10:15:30" ]};
     date_table := {[ "2023:03:04 10:15:30" := t_2023_03_04 ]} |}.

Definition state_of {A} (r : outcome A) : State :=
  match r with
  | Return _ st | Raised _ st => st
  | OutOfFuel => initial_state {| files := ∅; dirs := ∅ |}
  end.

Definition walk_in (names : list string)
  : list (string * list string * list string) :=
  [("/in", [], names)].

End Scenarios.

(* ===================================================================== *)
(** ** [get_file_count], and more vocabulary                                *)
(* ===================================================================== *)

Module Progress.
Import PyStr OS Run Engine.


End Progress.

Module Effects.
Import PyStr OS Run Engine Logic.



(** The four counters of the action report, added up. *)
Definition outcomes (st : State) : Z :=
  duplicates_found st + unknown_found st + files_moved st + files_copied st.

(** At most one of the four has gone up, by one, and the processed
    counter has not moved. *)
Definition once (st st' : State) : Prop :=
  files_processed st' = files_processed st
  /\ outcomes st <= outcomes st' <= outcomes st + 1.

(** Every step of the four counters is matched by a step of the
    processed counter; [slack] is 1 for a call that was cut short. *)
Definition accounted (slack : Z) (st st' : State) : Prop :=
  files_processed st <= files_processed st'
  /\ outcomes st <= outcomes st'
     <= outcomes st + (files_processed st' - files_processed st) + slack.

Definition counts_well {A} (m : M A) : Prop :=
  forall st, spec m st (fun _ st' => accounted 0 st st')
                  (fun _ st' => accounted 1 st st').

(** A call that places a sidecar of [filename]: the source is one of the
    places where a sidecar is looked for, the destination ends in the
    same sidecar extension. *)
Definition sidecar_site (filename src dst : string) : Prop :=
  exists ext, ext ∈ known_sidecar_extensions
              /\ src ∈ sidecar_originals filename ext
              /\ endswith dst ext = true.

(** A relation between the regular files before and after, as a
    relation between states. *)
Definition on_files (F : gmap string File -> gmap string File -> Prop)
           (st st' : State) : Prop :=
  F (files (fs st)) (files (fs st')).

(** No regular file has gone. *)
Definition none_gone (m m' : gmap string File) : Prop :=
  forall p, is_Some (m !! p) -> is_Some (m' !! p).

(** No regular file has gone, and the path [filename] holds what it
    held. *)
Definition kept_at (filename : string) (m m' : gmap string File) : Prop :=
  none_gone m m' /\ m' !! filename = m !! filename.

(** The only regular files that have gone are [filename] and files at
    the places where its sidecars are looked for. *)
Definition only_own_gone (filename : string) (m m' : gmap string File)
  : Prop :=
  forall p, is_Some (m !! p) ->
            is_Some (m' !! p)
            \/ p = filename
            \/ exists ext, ext ∈ known_sidecar_extensions
                           /\ p ∈ sidecar_originals filename ext.

(** The moved and the copied counter are as before. *)
Definition not_reported (st st' : State) : Prop :=
  files_moved st' = files_moved st /\ files_copied st' = files_copied st.

(** The four counters of the action report are as before. *)
Definition outcomes_unchanged (st st' : State) : Prop :=
  duplicates_found st' = duplicates_found st
  /\ unknown_found st' = unknown_found st
  /\ files_moved st' = files_moved st
  /\ files_copied st' = files_copied st.

(** A regular file [q] that is an entry of the directory [d]. *)
Definition entry_of (d q : string) : Prop := q <> d /\ (path_split q).1 = d.

(** The directory paths [rm_subdirs] builds from the triples of the
    bottom-up walk. *)
Definition listed_dirs (walk_up : list (string * list string * list string))
  : list string :=
  flat_map (fun triple => path_join triple.1.1 <$> triple.1.2) walk_up.

(** [s.isascii()]: every character is below 128. *)
Definition isascii (s : string) : bool :=
  forallb (fun c => (nat_of_ascii c <? 128)%nat) (chars s).



(** A directory path that [rm_subdirs] builds and does not skip. *)
Definition within_depth (self : Phockup)
           (walk_up : list (string * list string * list string))
           (d : string) : Prop :=
  exists root ds fls name,
    (root, ds, fls) ∈ walk_up /\ name ∈ ds /\ d = path_join root name
    /\ get_depth self root <= stop_depth self
    /\ get_depth self d <= stop_depth self.

(** What the cleanup pass may do: remove directories among [listed] that
    are within the depth limit and hold no regular file. *)
Definition cleaned (self : Phockup) (listed : list string) (st st' : State)
  : Prop :=
  files (fs st') = files (fs st)
  /\ dirs (fs st') ⊆ dirs (fs st)
  /\ same_counters st st'
  /\ (forall d, d ∈ dirs (fs st) -> d ∉ dirs (fs st') ->
                d ∈ listed
                /\ get_depth self d <= stop_depth self
                /\ forall q, is_Some (files (fs st) !! q) -> ~ entry_of d q).

(** Two listings of the same tree: the same directories in the same
    order, each with the same file names in some order. *)
Definition same_listing
           (walk1 walk2 : list (string * list string * list string)) : Prop :=
  Forall2 (fun t1 t2 => t1.1.1 = t2.1.1 /\ t1.2 ≡ₚ t2.2) walk1 walk2.

End Effects.

Module Cases.
Import PyStr OS Run Engine Doubles Scenarios.

(** [--file-type], [--skip-unknown] in copy mode. *)
Definition with_filters (skip_unknown : bool) (file_type : option string)
  : Args :=
  {| a_output_prefix := None; a_output_suffix := None;
     a_no_date_dir := None; a_dir_format := None;
     a_move := false; a_link := false; a_original_filenames := false;
     a_date_regex := None; a_timestamp := false; a_date_field := None;
     a_skip_unknown := skip_unknown; a_movedel := false; a_rmdirs := false;
     a_dry_run := false; a_max_depth := -1; a_max_concurrency := 1;
     a_from_date := None; a_to_date := None; a_use_shallow_cmp := false;
     a_file_type := file_type |}.


(** [b.jpg], without sidecars, and a different photograph at its
    target. *)
Definition fs_taken : FS :=
  {| files := {[ "/in/b.jpg" := file [Byte.x02] 5;
                 target := file [Byte.x01] 9 ]};
     dirs := {[ "/in"; "/out"; "/out/2023"; "/out/2023/03";
                "/out/2023/03/04" ]} |}.


(** What a run in place leaves behind: the photograph at its own target
    path and its copy in the second slot. *)
Definition fs_in_place_again : FS :=
  {| files := {[ target := file [Byte.x01] 5;
                 target_2 := file [Byte.x01] 5 ]};
     dirs := {[ "/out"; "/out/2023"; "/out/2023/03"; "/out/2023/03/04" ]} |}.

(** A photograph and a text file the metadata reader knows nothing of. *)
Definition fs_notes : FS :=
  {| files := {[ "/in/a.jpg" := file [Byte.x01] 5;
                 "/in/notes.txt" := file [Byte.x07] 3 ]};
     dirs := {[ "/in"; "/out" ]} |}.

End Cases.

(* ===================================================================== *)
(** * Theorems                                                            *)
(* ===================================================================== *)

(* ===================================================================== *)
(** ** The string primitives on sample paths                             *)
(* ===================================================================== *)

Example splitext_jpg : PyStr.splitext "/out/2023/03/04/20230304-101530.jpg"
                       = ("/out/2023/03/04/20230304-101530", ".jpg").
Proof. vm_compute. reflexivity. Qed.
Example splitext_hidden : PyStr.splitext "/a.b/.bashrc" = ("/a.b/.bashrc", EmptyString).
Proof. vm_compute. reflexivity. Qed.
Example splitext_two : PyStr.splitext "x.tar.gz" = ("x.tar", ".gz").
Proof. vm_compute. reflexivity. Qed.
Example splitext_dots : PyStr.splitext "...jpg" = ("...jpg", EmptyString).
Proof. vm_compute. reflexivity. Qed.
Example replace_img : PyStr.replace "IMG_" "IMG_O" "/in/IMG_0123" = "/in/IMG_O0123".
Proof. vm_compute. reflexivity. Qed.
Example normpath_ex : PyStr.normpath "/out//a/./b/../2020" = "/out/a/2020".
Proof. vm_compute. reflexivity. Qed.
Example normpath_rel : PyStr.normpath "../x/" = "../x".
Proof. vm_compute. reflexivity. Qed.
Example zpad_ex : PyStr.zpad 4 33 = "0033" /\ PyStr.zpad 2 7 = "07" /\ PyStr.zpad 2 123 = "123".
Proof. vm_compute. auto. Qed.
Example lower_ex : PyStr.lower "IMG_01.JPG" = "img_01.jpg".
Proof. vm_compute. reflexivity. Qed.
Example basename_ex : PyStr.basename "/in/a/IMG.JPG" = "IMG.JPG" /\ PyStr.basename "x" = "x".
Proof. vm_compute. auto. Qed.
Example endswith_ex : PyStr.endswith "a.xmp" ".xmp" = true /\ PyStr.endswith "a.XMP" ".xmp" = false.
Proof. vm_compute. auto. Qed.

(* ===================================================================== *)
(** ** Strings                                                            *)
(* ===================================================================== *)

Section StringFacts.
Import PyStr.

Lemma str_app_cons (c : ascii) (a b : string) :
  String c a +:+ b = String c (a +:+ b).
Proof. reflexivity. Qed.

Lemma str_app_nil_l (b : string) : EmptyString +:+ b = b.
Proof. reflexivity. Qed.

Lemma str_app_nil_r (s : string) : s +:+ EmptyString = s.
Proof.
  induction s as [|c s IH]; [done|]. by rewrite str_app_cons, IH.
Qed.

Lemma str_app_assoc (a b c : string) : (a +:+ b) +:+ c = a +:+ (b +:+ c).
Proof.
  induction a as [|x a IH]; [done|]. by rewrite !str_app_cons, IH.
Qed.

Lemma str_length_app (a b : string) :
  String.length (a +:+ b) = (String.length a + String.length b)%nat.
Proof.
  induction a as [|x a IH]; [done|]. rewrite str_app_cons. simpl. by rewrite IH.
Qed.

Lemma str_app_cancel_r (a b c : string) : a +:+ c = b +:+ c -> a = b.
Proof.
  revert b. induction a as [|x a IH]; intros [|y b] H.
  - done.
  - apply (f_equal String.length) in H. rewrite !str_length_app in H. simpl in H. lia.
  - apply (f_equal String.length) in H. rewrite !str_length_app in H. simpl in H. lia.
  - rewrite !str_app_cons in H. injection H as -> H. f_equal. by apply IH.
Qed.

Lemma str_take_drop (n : nat) (s : string) : take n s +:+ drop n s = s.
Proof.
  revert s. induction n as [|n IH]; intros [|c s]; simpl; try done.
  by rewrite str_app_cons, IH.
Qed.

Lemma splitext_join (p : string) : (splitext p).1 +:+ (splitext p).2 = p.
Proof.
  unfold splitext.
  destruct (rfind "/" p <? rfind "." p); simpl; [|apply str_app_nil_r].
  destruct (all_dots _); simpl; [apply str_app_nil_r|].
  apply str_take_drop.
Qed.

End StringFacts.

Section Candidates.
Import PyStr Engine.

Lemma suffixed_inj (p : string) (s1 s2 : Z) :
  suffixed p s1 = suffixed p s2 -> s1 = s2.
Proof.
  unfold suffixed. intros H.
  apply (inj (String.app _)) in H.
  apply (inj (String.app _)) in H.
  apply str_app_cancel_r in H.
  by apply (inj pretty) in H.
Qed.

Lemma length_suffixed (p : string) (s : Z) :
  (String.length p < String.length (suffixed p s))%nat.
Proof.
  unfold suffixed. rewrite <- (splitext_join p) at 1.
  rewrite !str_length_app. simpl. lia.
Qed.

Lemma suffixed_ne (p : string) (s : Z) : suffixed p s ≠ p.
Proof.
  intros H. pose proof (length_suffixed p s) as L. rewrite H in L. lia.
Qed.

(** The path probed with a given value of [suffix]. *)
Lemma candidate_inj (p : string) (s1 s2 : Z) :
  (if s1 =? 1 then p else suffixed p s1) = (if s2 =? 1 then p else suffixed p s2) ->
  s1 = s2.
Proof.
  destruct (Z.eqb_spec s1 1), (Z.eqb_spec s2 1); intros H; subst; try done.
  - symmetry in H. by apply suffixed_ne in H.
  - by apply suffixed_ne in H.
  - by apply suffixed_inj in H.
Qed.
End Candidates.

(* ===================================================================== *)
(** ** Rules for [spec] and [keeps]                                       *)
(* ===================================================================== *)

Section Rules.
Import OS Run Logic.

Lemma spec_bind {A B} (m : M A) (k : A -> M B) st
      (Q : B -> State -> Prop) (E : exn -> State -> Prop) :
  spec m st (fun a st' => spec (k a) st' Q E) E -> spec (bind m k) st Q E.
Proof. unfold spec, bind. by destruct (m st). Qed.

Lemma spec_weaken {A} (m : M A) st (Q Q' : A -> State -> Prop)
      (E E' : exn -> State -> Prop) :
  spec m st Q E ->
  (forall a st', Q a st' -> Q' a st') ->
  (forall e st', E e st' -> E' e st') ->
  spec m st Q' E'.
Proof. unfold spec. destruct (m st); auto. Qed.

Lemma spec_returns {A} (m : M A) st a st'
      (Q : A -> State -> Prop) (E : exn -> State -> Prop) :
  spec m st Q E -> m st = Return a st' -> Q a st'.
Proof. unfold spec. intros H Hm. by rewrite Hm in H. Qed.

Lemma spec_raises {A} (m : M A) st e st'
      (Q : A -> State -> Prop) (E : exn -> State -> Prop) :
  spec m st Q E -> m st = Raised e st' -> E e st'.
Proof. unfold spec. intros H Hm. by rewrite Hm in H. Qed.

Lemma spec_ends {A} (m : M A) st
      (Q : A -> State -> Prop) (E : exn -> State -> Prop) :
  spec m st Q E -> m st <> OutOfFuel.
Proof. unfold spec. by destruct (m st). Qed.

Context (R : State -> State -> Prop) `{!PreOrder R}.

Lemma keeps_ret {A} (a : A) : keeps R (ret a).
Proof. intros st. unfold spec, ret. reflexivity. Qed.

Lemma keeps_raise {A} (e : exn) : keeps R (@raise A e).
Proof. intros st. unfold spec, raise. reflexivity. Qed.

Lemma keeps_get_fs : keeps R get_fs.
Proof. intros st. unfold spec, get_fs. reflexivity. Qed.

Lemma keeps_get : keeps R get.
Proof. intros st. unfold spec, get. reflexivity. Qed.

Lemma keeps_bind {A B} (m : M A) (k : A -> M B) :
  keeps R m -> (forall a, keeps R (k a)) -> keeps R (bind m k).
Proof.
  intros Hm Hk st. specialize (Hm st). unfold spec, bind in *.
  destruct (m st) as [a st1|e st1|]; try done.
  specialize (Hk a st1). unfold spec in Hk.
  destruct (k a st1); try done; by etrans.
Qed.

Lemma keeps_modify (f : State -> State) :
  (forall st, R st (f st)) -> keeps R (modify f).
Proof. intros H st. unfold spec, modify. apply H. Qed.

Lemma keeps_logger l msg :
  (forall st, R st (add_log l msg st)) -> keeps R (logger l msg).
Proof. intros H. by apply keeps_modify. Qed.

Lemma keeps_os_call (op : FS -> Result FS) :
  (forall st f, op (fs st) = Ok f -> R st (with_fs st f)) ->
  keeps R (os_call op).
Proof.
  intros H st. unfold spec, os_call.
  destruct (op (fs st)) eqn:E; [by apply H | reflexivity].
Qed.

Lemma keeps_os_query {A} (op : FS -> Result A) : keeps R (os_query op).
Proof. intros st. unfold spec, os_query. by destruct (op (fs st)). Qed.

Lemma keeps_try_except {A} (m : M A) handles (h : exn -> M A) :
  keeps R m -> (forall e, keeps R (h e)) -> keeps R (try_except m handles h).
Proof.
  intros Hm Hh st. specialize (Hm st). unfold spec, try_except in *.
  destruct (m st) as [a st1|e st1|]; try done.
  destruct (handles e); [|done].
  specialize (Hh e st1). unfold spec in Hh.
  destruct (h e st1); try done; by etrans.
Qed.

Lemma keeps_when (b : bool) (m : M unit) :
  (b = true -> keeps R m) -> keeps R (when b m).
Proof. destruct b; simpl; [auto | intros _; apply keeps_ret]. Qed.

Lemma keeps_for_each {A} (xs : list A) (body : A -> M unit) :
  (forall x, x ∈ xs -> keeps R (body x)) -> keeps R (for_each xs body).
Proof.
  induction xs as [|x xs IH]; intros H; simpl; [apply keeps_ret|].
  apply keeps_bind; [apply H; left | intros _; apply IH].
  intros y Hy. apply H. by right.
Qed.

End Rules.

(** Splits a goal [keeps R m] along the structure of [m]. *)
Ltac keeps_rule lem :=
  apply lem;
  lazymatch goal with
  | |- PreOrder _ => apply _
  | |- _ => idtac
  end.

Ltac keeps_step :=
  lazymatch goal with
  | |- Logic.keeps _ (Run.bind _ _) => keeps_rule keeps_bind; [|intros ?]
  | |- Logic.keeps _ (Run.ret _) => keeps_rule keeps_ret
  | |- Logic.keeps _ (Run.raise _) => keeps_rule keeps_raise
  | |- Logic.keeps _ Run.get_fs => keeps_rule keeps_get_fs
  | |- Logic.keeps _ Run.get => keeps_rule keeps_get
  | |- Logic.keeps _ (Run.when _ _) => keeps_rule keeps_when; intros ?
  | |- Logic.keeps _ (Run.try_except _ _ _) =>
      keeps_rule keeps_try_except; [|intros ?]
  | |- Logic.keeps _ (Run.for_each _ _) =>
      keeps_rule keeps_for_each; intros ? ?
  | |- Logic.keeps _ (Run.logger _ _) => keeps_rule keeps_logger
  | |- Logic.keeps _ (Run.modify _) => keeps_rule keeps_modify
  | |- Logic.keeps _ (Run.os_query _) => keeps_rule keeps_os_query
  | |- Logic.keeps _ (Run.os_call _) => keeps_rule keeps_os_call
  | |- Logic.keeps _ (if ?b then _ else _) => destruct b eqn:?
  | |- Logic.keeps _ (match ?x with _ => _ end) => destruct x eqn:?
  end.

(* ===================================================================== *)
(** ** The loop of [process_file] ends                                     *)
(* ===================================================================== *)

Section LoopFacts.
Import PyStr OS Run Engine Logic.

Lemma isfile_true (f : FS) (p : string) :
  isfile f p = true <-> is_Some (files f !! p).
Proof. unfold isfile. by rewrite bool_decide_eq_true. Qed.

Lemma isfile_false (f : FS) (p : string) :
  isfile f p = false <-> files f !! p = None.
Proof.
  unfold isfile. rewrite bool_decide_eq_false. by rewrite eq_None_not_Some.
Qed.

Lemma candidate_one (p : string) : candidate p 1 = p.
Proof. reflexivity. Qed.

Lemma candidate_next (p : string) (s : Z) :
  1 <= s -> candidate p (s + 1) = suffixed p (s + 1).
Proof. intros H. unfold candidate. destruct (Z.eqb_spec (s + 1) 1); [lia|done]. Qed.

Lemma candidate_injective (p : string) (s1 s2 : Z) :
  candidate p s1 = candidate p s2 -> s1 = s2.
Proof. apply candidate_inj. Qed.

(** As many probed paths as regular files, at most. *)
Lemma occupied_bound (f : FS) (p : string) (k : nat) :
  (forall s, 1 <= s < 1 + Z.of_nat k -> isfile f (candidate p s) = true) ->
  (k <= size (files f))%nat.
Proof.
  intros H.
  set (l := candidate p <$> seqZ 1 (Z.of_nat k)).
  assert (NoDup l) as Hnd.
  { apply NoDup_fmap_2; [intros a b; apply candidate_injective | apply NoDup_seqZ]. }
  assert (l ⊆+ elements (dom (files f))) as Hsub.
  { apply NoDup_submseteq; [done|].
    intros x Hx. apply list_elem_of_fmap in Hx as (s & -> & Hs).
    apply elem_of_seqZ in Hs.
    apply elem_of_elements, elem_of_dom, isfile_true, H. lia. }
  apply submseteq_length in Hsub.
  unfold l in Hsub. rewrite length_fmap, length_seqZ in Hsub.
  rewrite <- size_dom. unfold size, set_size. simpl. lia.
Qed.

Context (self : Phockup).

Lemma date_window_next filename progress fd fd' st st' :
  date_window self filename progress fd st = Return (Next fd') st' ->
  st' = st.
Proof.
  unfold date_window, bind, ret, raise, logger, modify.
  intros H. repeat (case_match; simplify_eq); done.
Qed.

Lemma filters_next filename output name ty fd fd' st st' :
  filters self filename output name ty fd st = Return (Next fd') st' ->
  st' = st.
Proof.
  unfold filters, bind, ret, raise, logger, modify.
  intros H. repeat (case_match; simplify_eq); try done.
  by eapply date_window_next.
Qed.

Lemma probe_next filename name fd suffix output target fd' st st' :
  probe self filename name fd suffix output target st
  = Return (Next fd') st' ->
  st' = st /\ isfile (fs st) target = true /\ fd' = fd.
Proof.
  unfold probe, bind, ret, get_fs.
  destruct (isfile (fs st) target) eqn:Hf.
  - destruct (negb (bool_decide (filename = target))).
    + unfold os_query. destruct (cmp _ _ _ _) as [[]|]; try done.
      * destruct (duplicate _ _ _ _ _); done.
      * by intros [= -> ->].
    + by intros [= -> ->].
  - destruct (place _ _ _ _ _ _ _ _); done.
Qed.

Lemma loop_body_next filename output name ty fd suffix target fd' st st' :
  loop_body self filename output name ty fd suffix target st
  = Return (Next fd') st' ->
  st' = st /\ isfile (fs st) target = true.
Proof.
  unfold loop_body, bind.
  destruct (filters _ _ _ _ _ _ st) as [[|fd1] st1| |] eqn:Hf; try done.
  apply filters_next in Hf as ->.
  intros H. apply probe_next in H. tauto.
Qed.

End LoopFacts.

(* ===================================================================== *)
(** ** What every call of the engine keeps                                 *)
(* ===================================================================== *)

(** A relation [R] that admits the log records, the four outcome counters
    and, outside dry-run, any change of the filesystem, is kept by every
    method up to the end of the loop of [process_file].  Both "the
    processed counter is untouched" and "in dry-run the filesystem is
    untouched" are such relations. *)
Section EngineKeeps.
Import PyStr OS Run Engine Logic.

Context (Exif_data : string -> option File -> option (gmap string string)).
Context (Date_from_exif :
           string -> option File -> option (gmap string string) -> bool
           -> option string -> option string -> option DateDict).
Context (strftime : Z -> Z -> Z -> string -> option string).
Context (self : Phockup).
Context (R : State -> State -> Prop) `{!PreOrder R}.
Hypothesis R_log : forall l msg st, R st (add_log l msg st).
Hypothesis R_duplicates : forall st, R st (inc_duplicates st).
Hypothesis R_unknown : forall st, R st (inc_unknown st).
Hypothesis R_moved : forall st, R st (inc_moved st).
Hypothesis R_copied : forall st, R st (inc_copied st).
Hypothesis R_fs : dry_run self = false -> forall st f, R st (with_fs st f).
Hypothesis R_processed : forall st, R st (inc_processed st).
Hypothesis R_rmdir :
  forall st p f, rmdir (fs st) p = Ok f -> R st (with_fs st f).

Local Ltac leaf :=
  try done;
  try (intros; apply R_fs; destruct (dry_run self); [exfalso|reflexivity];
       repeat match goal with
              | H : _ && _ = true |- _ => apply andb_true_iff in H as [? ?]
              end;
       simpl in *; congruence).

Local Ltac known :=
  match goal with
  | H : context [keeps] |- keeps _ _ => simple apply H
  end.

Local Ltac keeps_auto := repeat (first [known | keeps_step]; leaf).

Lemma keeps_get_output_dir date :
  keeps R (get_output_dir strftime self date).
Proof. unfold get_output_dir. keeps_auto. Qed.

Lemma keeps_get_file_name original date :
  keeps R (get_file_name self original date).
Proof. unfold get_file_name. keeps_auto. Qed.

Lemma keeps_get_file_name_and_path filename :
  keeps R (get_file_name_and_path Exif_data Date_from_exif strftime self filename).
Proof.
  pose proof keeps_get_output_dir. pose proof keeps_get_file_name.
  unfold get_file_name_and_path. keeps_auto.
Qed.

Lemma keeps_place_sidecar output item :
  keeps R (place_sidecar self output item).
Proof. unfold place_sidecar. destruct item. keeps_auto. Qed.

Lemma keeps_process_sidecars original name suffix output :
  keeps R (process_sidecars self original name suffix output).
Proof.
  pose proof keeps_place_sidecar. unfold process_sidecars. keeps_auto.
Qed.

Lemma keeps_date_window filename progress fd :
  keeps R (date_window self filename progress fd).
Proof. unfold date_window. keeps_auto. Qed.

Lemma keeps_filters filename output name ty fd :
  keeps R (filters self filename output name ty fd).
Proof. pose proof keeps_date_window. unfold filters. keeps_auto. Qed.

Lemma keeps_duplicate filename progress target :
  keeps R (duplicate self filename progress target).
Proof. unfold duplicate. keeps_auto. Qed.

Lemma keeps_place filename progress name suffix output target :
  keeps R (place self filename progress name suffix output target).
Proof.
  pose proof keeps_process_sidecars. unfold place, missing_source. keeps_auto.
Qed.

Lemma keeps_probe filename name fd suffix output target :
  keeps R (probe self filename name fd suffix output target).
Proof.
  pose proof keeps_duplicate. pose proof keeps_place. unfold probe. keeps_auto.
Qed.

Lemma keeps_loop_body filename output name ty fd suffix target :
  keeps R (loop_body self filename output name ty fd suffix target).
Proof.
  pose proof keeps_filters. pose proof keeps_probe. unfold loop_body. keeps_auto.
Qed.

(** The loop: with [n] passes left at counter [suffix], and the paths of
    all smaller counters occupied, there are passes enough. *)
Lemma loop_keeps (n : nat) filename output name path ty fd (suffix : Z) st :
  1 <= suffix ->
  (forall s, 1 <= s < suffix -> isfile (fs st) (candidate path s) = true) ->
  Z.of_nat (size (files (fs st))) + 1 < Z.of_nat n + suffix ->
  spec (collision_loop n self filename output name path ty fd suffix
                       (candidate path suffix)) st
       (fun _ st' => R st st') (fun _ st' => R st st').
Proof.
  revert fd suffix. induction n as [|n IH]; intros fd suffix Hs Hocc Hn.
  - exfalso.
    assert (Z.to_nat (suffix - 1) <= size (files (fs st)))%nat as Hb.
    { apply (occupied_bound (fs st) path). intros s Hrange. apply Hocc. lia. }
    lia.
  - simpl. unfold spec, bind.
    pose proof (keeps_loop_body filename output name ty fd suffix
                                (candidate path suffix) st) as Hk.
    unfold spec in Hk.
    destruct (loop_body _ _ _ _ _ _ _ _ st) as [[|fd'] st1|e st1|] eqn:Hb;
      try done.
    apply loop_body_next in Hb as [-> Hfile].
    rewrite <- candidate_next by done.
    apply (IH fd' (suffix + 1)); [lia| |lia].
    intros s Hrange. destruct (decide (s = suffix)) as [->|]; [done|].
    apply Hocc. lia.
Qed.

Lemma keeps_collision_loop filename output name path ty fd st :
  spec (collision_loop (loop_bound (fs st)) self filename output name path ty
                       fd 1 path) st
       (fun _ st' => R st st') (fun _ st' => R st st').
Proof.
  apply (loop_keeps (loop_bound (fs st)) filename output name path ty fd 1 st);
    [lia | intros; lia | unfold loop_bound; lia].
Qed.

(** [process_file]: either the name is a sidecar's and nothing happens, or
    the call ends; if it returns, the last thing it did was to count the
    file as processed. *)
Lemma process_file_spec filename st :
  spec (process_file Exif_data Date_from_exif strftime self filename) st
       (fun _ st' =>
          if has_sidecar_ext filename then st' = st
          else exists st1, R st st1 /\ st' = inc_processed st1)
       (fun _ st' => has_sidecar_ext filename = false /\ R st st').
Proof.
  unfold process_file. fold (has_sidecar_ext filename).
  destruct (has_sidecar_ext filename); [done|].
  apply spec_bind.
  eapply spec_weaken; [apply keeps_get_file_name_and_path| |by auto].
  intros [[[[output name] path] ty] date] st1 H1. cbv beta iota.
  unfold spec, bind, get_fs.
  pose proof (keeps_collision_loop
                filename output name path ty (date_value date) st1) as Hl.
  unfold spec in Hl.
  destruct (collision_loop _ _ _ _ _ _ _ _ _ _ st1) as [[] st2|e st2|];
    try done.
  - unfold modify. simpl. exists st2. split; [by etrans|done].
  - split; [done | by etrans].
Qed.

(** With the processed counter admitted too, the whole run keeps [R]. *)
Lemma keeps_process_file filename :
  keeps R (process_file Exif_data Date_from_exif strftime self filename).
Proof.
  intros st. eapply spec_weaken; [apply process_file_spec| |].
  - intros u st'. simpl. destruct (has_sidecar_ext filename).
    + by intros ->.
    + intros (st1 & H1 & ->). etrans; [done|apply R_processed].
  - by intros e st' [_ H].
Qed.

Context (process_files : Phockup -> list string -> M unit).

(** With at most one worker the pool is not used. *)
Lemma one_worker (me : Phockup) :
  max_concurrency me <= 1 -> (1 <? max_concurrency me) = false.
Proof. intros H. by apply Z.ltb_ge. Qed.

Lemma keeps_walk_directory walk :
  max_concurrency self <= 1 ->
  keeps R (walk_directory Exif_data Date_from_exif strftime process_files
                          self walk).
Proof.
  intros Hone. pose proof keeps_process_file.
  unfold walk_directory. rewrite (one_worker self Hone). keeps_auto.
Qed.

Lemma keeps_rm_subdirs walk_up : keeps R (rm_subdirs self walk_up).
Proof.
  unfold rm_subdirs. keeps_auto. intros st f. apply R_rmdir.
Qed.

Lemma keeps_check_directories : keeps R (check_directories self).
Proof. unfold check_directories. keeps_auto. Qed.

Lemma keeps_print_action_report : keeps R (print_action_report self).
Proof. unfold print_action_report. keeps_auto. Qed.

Lemma keeps_run_body walk walk_up :
  max_concurrency self <= 1 ->
  keeps R (run_body Exif_data Date_from_exif strftime process_files
                    self walk walk_up).
Proof.
  intros Hone.
  pose proof keeps_check_directories.
  pose proof (fun walk => keeps_walk_directory walk Hone).
  pose proof keeps_rm_subdirs. pose proof keeps_print_action_report.
  unfold run_body. keeps_auto.
Qed.

End EngineKeeps.

(* ===================================================================== *)
(** ** The processed counter, and the filesystem in dry-run                *)
(* ===================================================================== *)

Section Relations.
Import PyStr OS Run Engine Logic.

Global Instance same_processed_preorder : PreOrder same_processed.
Proof.
  split; [by intros st|]. intros a b c. unfold same_processed. congruence.
Qed.

Global Instance same_counters_preorder : PreOrder same_counters.
Proof.
  split; [by intros st|]. intros a b c. unfold same_counters.
  intros (?&?&?&?&?) (?&?&?&?&?). repeat split; congruence.
Qed.

Global Instance same_files_preorder : PreOrder same_files.
Proof.
  split; [by intros st|]. intros a b c. unfold same_files. congruence.
Qed.

Global Instance same_fs_preorder : PreOrder same_fs.
Proof.
  split; [by intros st|]. intros a b c. unfold same_fs. congruence.
Qed.

Global Instance nothing_added_preorder : PreOrder nothing_added.
Proof.
  split; [by intros st|]. intros a b c. unfold nothing_added.
  intros [? ?] [? ?]. split; [congruence | set_solver].
Qed.

Lemma rmdir_nothing_added (f f' : FS) (p : string) :
  rmdir f p = Ok f' -> files f' = files f /\ dirs f' ⊆ dirs f.
Proof.
  unfold rmdir. destruct (isdir f p); [|by destruct (isfile f p)].
  destruct (has_entries f p); [done|].
  intros [= <-]. simpl. split; [done|].
  intros x Hx. by apply elem_of_difference in Hx as [Hx _].
Qed.

Context (Exif_data : string -> option File -> option (gmap string string)).
Context (Date_from_exif :
           string -> option File -> option (gmap string string) -> bool
           -> option string -> option string -> option DateDict).
Context (Date_strptime : string -> string -> Result datetime).
Context (strftime : Z -> Z -> Z -> string -> option string).

(** The processed counter moves once per call that returns, except for a
    name with a sidecar extension; a call that raises leaves it alone. *)
Lemma processed_counter (self : Phockup) (filename : string) (st : State) :
  spec (process_file Exif_data Date_from_exif strftime self filename) st
       (fun _ st' =>
          files_processed st'
          = files_processed st + (if has_sidecar_ext filename then 0 else 1))
       (fun _ st' =>
          has_sidecar_ext filename = false
          /\ files_processed st' = files_processed st).
Proof.
  eapply spec_weaken;
    [apply (process_file_spec Exif_data Date_from_exif strftime self
                              same_processed); done| |done].
  intros u st'. simpl. destruct (has_sidecar_ext filename).
  - intros ->. lia.
  - intros (st1 & H1 & ->). unfold same_processed in H1. simpl. lia.
Qed.

Context (process_files : Phockup -> list string -> M unit).

(** In dry-run no call adds or changes a file or adds a directory. *)
Lemma dry_run_body (self : Phockup) walk walk_up :
  dry_run self = true ->
  max_concurrency self <= 1 ->
  keeps nothing_added
        (run_body Exif_data Date_from_exif strftime process_files
                  self walk walk_up).
Proof.
  intros Hdry Hone. apply keeps_run_body; try done.
  - apply _.
  - congruence.
  - intros st p f H. apply rmdir_nothing_added in H. done.
Qed.

Lemma dry_run_init input_dir output_dir (args : Args) walk walk_up (f : FS) :
  a_dry_run args = true ->
  a_max_concurrency args <= 1 ->
  match init Exif_data Date_from_exif Date_strptime strftime process_files
             input_dir output_dir args walk walk_up f with
  | Return _ st' | Raised _ st' =>
      files (fs st') = files f /\ dirs (fs st') ⊆ dirs f
  | OutOfFuel => False
  end.
Proof.
  intros Hdry Hone. unfold init.
  destruct (parse_bound _ _ _) as [fr|e]; [|done].
  destruct (parse_bound _ _ _) as [to|e]; [|done].
  pose proof (dry_run_body (attributes input_dir output_dir args fr to)
                           walk walk_up Hdry Hone (initial_state f)) as H.
  unfold spec in H. by destruct (run_body _ _ _ _ _ _ _ _).
Qed.

(** In dry-run, up to the cleanup pass, the filesystem is untouched; the
    cleanup pass is not run without [--move]. *)
Lemma dry_run_check_directories (self : Phockup) :
  dry_run self = true -> keeps same_fs (check_directories self).
Proof.
  intros Hdry. apply keeps_check_directories; [apply _|done|congruence].
Qed.

Lemma dry_run_walk_directory (self : Phockup) walk :
  dry_run self = true ->
  max_concurrency self <= 1 ->
  keeps same_fs
        (walk_directory Exif_data Date_from_exif strftime process_files
                        self walk).
Proof.
  intros Hdry Hone.
  apply keeps_walk_directory; first [done | apply _ | congruence].
Qed.

Lemma dry_run_without_move_body (self : Phockup) walk walk_up :
  dry_run self = true ->
  move self = false ->
  max_concurrency self <= 1 ->
  keeps same_fs
        (run_body Exif_data Date_from_exif strftime process_files
                  self walk walk_up).
Proof.
  intros Hdry Hmv Hone. unfold run_body. rewrite Hmv. simpl andb.
  pose proof (dry_run_check_directories self Hdry).
  pose proof (dry_run_walk_directory self walk Hdry Hone).
  assert (keeps same_fs (print_action_report self))
    by (apply keeps_print_action_report; [apply _|done|congruence]).
  repeat (first [ match goal with
                  | H : context [keeps] |- keeps _ _ => simple apply H
                  end
                | keeps_step ]; try done).
Qed.

Lemma dry_run_without_move_init input_dir output_dir (args : Args)
      walk walk_up (f : FS) :
  a_dry_run args = true ->
  a_move args = false ->
  a_max_concurrency args <= 1 ->
  match init Exif_data Date_from_exif Date_strptime strftime process_files
             input_dir output_dir args walk walk_up f with
  | Return _ st' | Raised _ st' => fs st' = f
  | OutOfFuel => False
  end.
Proof.
  intros Hdry Hmv Hone. unfold init.
  destruct (parse_bound _ _ _) as [fr|e]; [|done].
  destruct (parse_bound _ _ _) as [to|e]; [|done].
  pose proof (dry_run_without_move_body
                (attributes input_dir output_dir args fr to)
                walk walk_up Hdry Hmv Hone (initial_state f)) as H.
  unfold spec in H. by destruct (run_body _ _ _ _ _ _ _ _).
Qed.

End Relations.

(* ===================================================================== *)
(** ** The collision resolver, slot by slot                                *)
(* ===================================================================== *)

Section Resolver.
Import PyStr OS Run Engine Logic.

Context (self : Phockup).

(** The filters do not read the state, and pass again what they passed. *)
Lemma date_window_pass filename progress fd fd1 st st' :
  date_window self filename progress fd st = Return (Next fd1) st ->
  date_window self filename progress fd1 st' = Return (Next fd1) st'
  /\ date_window self filename progress fd st' = Return (Next fd1) st'
  /\ (is_None fd1 = true \/ exists t, fd1 = FD_Datetime t).
Proof.
  unfold date_window, bind, ret, raise, logger, modify.
  destruct fd as [|[[t|] sub]|t]; simpl;
    destruct (from_date self) as [fr|], (to_date self) as [to|]; simpl;
    try (destruct (dt_lt t fr) eqn:E1; simpl);
    try (destruct (dt_lt to t) eqn:E2; simpl);
    intros; simplify_eq; simpl; rewrite ?E1, ?E2; simpl; eauto.
Qed.

Lemma filters_pass filename output name ty fd fd1 st st' :
  filters self filename output name ty fd st = Return (Next fd1) st ->
  filters self filename output name ty fd1 st' = Return (Next fd1) st'
  /\ filters self filename output name ty fd st' = Return (Next fd1) st'.
Proof.
  unfold filters.
  destruct (type_mismatch self ty); [done|].
  destruct (skip_unknown self && endswith output (no_date_dir self)); [done|].
  destruct (endswith output (no_date_dir self)) eqn:He.
  - rewrite !orb_true_r. simpl. unfold ret. by intros [= ->].
  - rewrite !orb_false_r.
    destruct (is_None fd) eqn:Hn; simpl.
    + unfold ret. intros [= <-]. by rewrite Hn.
    + intros H. eapply (date_window_pass _ _ _ _ _ st') in H as (H1 & H2 & H3).
      split; [|done].
      destruct H3 as [H3|[t ->]]; [by rewrite H3|]. simpl. done.
Qed.

Lemma probe_passed_over filename name fd suffix output target st :
  passed_over self st filename target ->
  probe self filename name fd suffix output target st = Return (Next fd) st.
Proof.
  intros [Hf Hc]. unfold probe, bind, get_fs, ret. rewrite Hf.
  destruct (decide (filename = target)) as [->|Hne].
  - by rewrite bool_decide_eq_true_2.
  - rewrite bool_decide_eq_false_2 by done. simpl.
    destruct Hc as [|Hc]; [done|]. unfold os_query. by rewrite Hc.
Qed.

Lemma probe_free filename name fd suffix output target st :
  isfile (fs st) target = false ->
  probe self filename name fd suffix output target st
  = (place self filename filename name suffix output target ;;; ret Break) st.
Proof. intros Hf. unfold probe at 1, bind at 1, get_fs. by rewrite Hf. Qed.

Lemma probe_identical filename name fd suffix output target st :
  isfile (fs st) target = true ->
  filename <> target ->
  cmp (fs st) filename target (use_shallow_cmp self) = Ok true ->
  probe self filename name fd suffix output target st
  = (duplicate self filename filename target ;;; ret Break) st.
Proof.
  intros Hf Hne Hc. unfold probe at 1, bind at 1, get_fs. rewrite Hf.
  rewrite bool_decide_eq_false_2 by done. simpl.
  unfold bind at 1, os_query. by rewrite Hc.
Qed.

(** [k] slots passed over take [k] passes and leave the state alone. *)
Lemma loop_advance (k n : nat) filename output name path ty fd fd1 suffix st :
  1 <= suffix ->
  filters self filename output name ty fd st = Return (Next fd1) st ->
  (forall s, suffix <= s < suffix + Z.of_nat k ->
             passed_over self st filename (candidate path s)) ->
  collision_loop (k + n) self filename output name path ty fd suffix
                 (candidate path suffix) st
  = collision_loop n self filename output name path ty
                   (if k is O then fd else fd1) (suffix + Z.of_nat k)
                   (candidate path (suffix + Z.of_nat k)) st.
Proof.
  revert fd suffix. induction k as [|k IH]; intros fd suffix Hs Hfil Hocc.
  - simpl. by rewrite Z.add_0_r.
  - change (S k + n)%nat with (S (k + n)). cbn [collision_loop].
    unfold bind at 1, loop_body, bind at 1. rewrite Hfil.
    rewrite probe_passed_over by (apply Hocc; lia).
    rewrite <- candidate_next by done.
    pose proof (filters_pass _ _ _ _ _ _ _ st Hfil) as [Hfil1 _].
    rewrite (IH fd1 (suffix + 1)); [|lia|done|intros; apply Hocc; lia].
    replace (suffix + 1 + Z.of_nat k) with (suffix + Z.of_nat (S k)) by lia.
    by destruct k.
Qed.

Lemma loop_land (n : nat) filename output name path ty fd fd1 suffix target st :
  filters self filename output name ty fd st = Return (Next fd1) st ->
  collision_loop (S n) self filename output name path ty fd suffix target st
  = (s <- probe self filename name fd1 suffix output target ;;
     match s with
     | Break => ret tt
     | Next file_date =>
         collision_loop n self filename output name path ty file_date
                        (suffix + 1) (suffixed path (suffix + 1))
     end) st.
Proof.
  intros Hfil. cbn [collision_loop].
  unfold bind at 1, loop_body, bind at 1. by rewrite Hfil.
Qed.

(** The loop as a whole: after [k] slots passed over, it places the file
    in a free slot, or counts a duplicate of an identical one, with the
    counter at [k + 1]. *)
Lemma resolver_free (k : nat) filename output name path ty fd fd1 st :
  filters self filename output name ty fd st = Return (Next fd1) st ->
  (forall s, 1 <= s <= Z.of_nat k -> passed_over self st filename (candidate path s)) ->
  isfile (fs st) (candidate path (Z.of_nat k + 1)) = false ->
  collision_loop (loop_bound (fs st)) self filename output name path ty fd 1
                 path st
  = place self filename filename name (Z.of_nat k + 1) output
          (candidate path (Z.of_nat k + 1)) st.
Proof.
  intros Hfil Hocc Hfree.
  assert (k <= size (files (fs st)))%nat as Hk.
  { apply (occupied_bound (fs st) path). intros s Hs. apply Hocc. lia. }
  unfold loop_bound.
  replace (S (size (files (fs st))))
    with (k + S (size (files (fs st)) - k))%nat by lia.
  rewrite <- (candidate_one path) at 2.
  rewrite (loop_advance k _ _ _ _ _ _ fd fd1 1);
    [|lia|done|intros; apply Hocc; lia].
  replace (1 + Z.of_nat k) with (Z.of_nat k + 1) by lia.
  erewrite loop_land; last first.
  { destruct k; [done|]. by apply (filters_pass _ _ _ _ _ _ st st) in Hfil as [? _]. }
  unfold bind at 1. rewrite probe_free by done.
  unfold bind. by destruct (place _ _ _ _ _ _ _ st) as [[] ?| |].
Qed.

Lemma resolver_identical (k : nat) filename output name path ty fd fd1 st :
  filters self filename output name ty fd st = Return (Next fd1) st ->
  (forall s, 1 <= s <= Z.of_nat k -> passed_over self st filename (candidate path s)) ->
  isfile (fs st) (candidate path (Z.of_nat k + 1)) = true ->
  filename <> candidate path (Z.of_nat k + 1) ->
  cmp (fs st) filename (candidate path (Z.of_nat k + 1)) (use_shallow_cmp self)
  = Ok true ->
  collision_loop (loop_bound (fs st)) self filename output name path ty fd 1
                 path st
  = duplicate self filename filename (candidate path (Z.of_nat k + 1)) st.
Proof.
  intros Hfil Hocc Hfile Hne Hcmp.
  assert (S k <= size (files (fs st)))%nat as Hk.
  { apply (occupied_bound (fs st) path). intros s Hs.
    destruct (decide (s = Z.of_nat k + 1)) as [->|]; [done|].
    apply Hocc. lia. }
  unfold loop_bound.
  replace (S (size (files (fs st))))
    with (k + S (size (files (fs st)) - k))%nat by lia.
  rewrite <- (candidate_one path) at 2.
  rewrite (loop_advance k _ _ _ _ _ _ fd fd1 1);
    [|lia|done|intros; apply Hocc; lia].
  replace (1 + Z.of_nat k) with (Z.of_nat k + 1) by lia.
  erewrite loop_land; last first.
  { destruct k; [done|]. by apply (filters_pass _ _ _ _ _ _ st st) in Hfil as [? _]. }
  unfold bind at 1. rewrite probe_identical by done.
  unfold bind. by destruct (duplicate _ _ _ _ st) as [[] ?| |].
Qed.

End Resolver.

(* ===================================================================== *)
(** ** Directory creation                                                  *)
(* ===================================================================== *)

Section Makedirs.
Import PyStr OS Logic.

Lemma str_length_take_drop (n : nat) (s : string) :
  (String.length (take n s) + String.length (drop n s) = String.length s)%nat.
Proof. rewrite <- str_length_app. by rewrite str_take_drop. Qed.

Lemma length_rstrip_slash (s : string) :
  (String.length (rstrip_slash s) <= String.length s)%nat.
Proof.
  induction s as [|c s IH]; simpl; [done|].
  destruct (bool_decide _ && _); simpl; lia.
Qed.

Lemma path_split_length (p : string) :
  (String.length (path_split p).1 + String.length (path_split p).2
   <= String.length p)%nat.
Proof.
  unfold path_split, upto, from. simpl.
  pose proof (str_length_take_drop (Z.to_nat (rfind "/" p + 1)) p) as H.
  destruct (_ && _); simpl; [|lia].
  pose proof (length_rstrip_slash (take (Z.to_nat (rfind "/" p + 1)) p)). lia.
Qed.

Lemma length_nonempty (s : string) :
  s <> EmptyString -> (0 < String.length s)%nat.
Proof. destruct s; [done | simpl; lia]. Qed.

Lemma mkdir_frame (f f' : FS) (name : string) :
  mkdir f name = Ok f' -> makedirs_frame name f f'.
Proof.
  unfold mkdir. destruct (exists_ f name); [done|]. intros [= <-].
  repeat split; simpl; [set_solver|]. intros d Hd.
  apply elem_of_union in Hd as [Hd|Hd]; [|by left].
  apply elem_of_singleton in Hd as ->. by right.
Qed.

Lemma makedirs_frame_refl name f : makedirs_frame name f f.
Proof. repeat split; [done|]. by left. Qed.

Lemma makedirs_frame_trans head name f f1 f2 :
  (String.length head <= String.length name)%nat ->
  makedirs_frame head f f1 -> makedirs_frame name f1 f2 ->
  makedirs_frame name f f2.
Proof.
  intros Hl (A1 & A2 & A3) (B1 & B2 & B3). repeat split.
  - congruence.
  - set_solver.
  - intros d Hd. destruct (B3 d Hd) as [Hd1|]; [|by right].
    destruct (A3 d Hd1); [by left | right; lia].
Qed.

Lemma second_split_length (name head tail hd tl : string) :
  path_split name = (head, tail) ->
  (if bool_decide (tail = EmptyString) then path_split head else (head, tail))
  = (hd, tl) ->
  (String.length hd + String.length tl <= String.length name)%nat.
Proof.
  intros Hs Hs2.
  pose proof (path_split_length name) as Hlen. rewrite Hs in Hlen. simpl in Hlen.
  destruct (bool_decide (tail = EmptyString)).
  - pose proof (path_split_length head) as Hlen2. rewrite Hs2 in Hlen2.
    simpl in Hlen2. lia.
  - injection Hs2 as <- <-. lia.
Qed.

Lemma last_step_frame (f f' : FS) (name : string) (ok : bool) :
  match mkdir f name with
  | Ok fs' => Ok fs'
  | Raise e => if negb ok || negb (isdir f name) then Raise e else Ok f
  end = Ok f' ->
  makedirs_frame name f f'.
Proof.
  destruct (mkdir f name) eqn:Hm.
  - intros [= <-]. by apply mkdir_frame.
  - destruct (_ || _); [done|]. intros [= <-]. apply makedirs_frame_refl.
Qed.

Lemma makedirs_rec_frame (n : nat) (f f' : FS) (name : string) (ok : bool) :
  makedirs_rec n f name ok = Ok f' -> makedirs_frame name f f'.
Proof.
  revert f f' name. induction n as [|n IH]; intros f f' name;
    cbn [makedirs_rec];
    destruct (path_split name) as [head tail] eqn:Hs;
    destruct (if bool_decide (tail = EmptyString) then path_split head
              else (head, tail)) as [hd tl] eqn:Hs2;
    pose proof (second_split_length _ _ _ _ _ Hs Hs2) as Hlen;
    destruct (_ && _); try done; try apply last_step_frame.
  destruct (makedirs_rec n f hd ok) as [fs1|e] eqn:Hr.
  - apply IH in Hr. destruct (bool_decide (tl = ".")).
    + intros [= <-]. eapply makedirs_frame_trans; [|done|].
      * lia.
      * apply makedirs_frame_refl.
    + intros H. apply last_step_frame in H.
      eapply makedirs_frame_trans; [|done..]. lia.
  - destruct e; try done. destruct (bool_decide (tl = ".")).
    + intros [= <-]. apply makedirs_frame_refl.
    + apply last_step_frame.
Qed.

Lemma makedirs_ok_frame (f f' : FS) (name : string) (ok : bool) :
  makedirs f name ok = Ok f' -> makedirs_frame name f f'.
Proof. apply makedirs_rec_frame. Qed.

End Makedirs.

(* ===================================================================== *)
(** ** The path builder, the sidecars and the placement, step by step      *)
(* ===================================================================== *)

Section Steps.
Import PyStr OS Run Engine Logic.

Context (Exif_data : string -> option File -> option (gmap string string)).
Context (Date_from_exif :
           string -> option File -> option (gmap string string) -> bool
           -> option string -> option string -> option DateDict).
Context (strftime : Z -> Z -> Z -> string -> option string).
Context (self : Phockup).

(** [get_output_dir] changes nothing but the directories. *)
Lemma get_output_dir_frame date output st st1 :
  get_output_dir strftime self date st = Return output st1 ->
  makedirs_frame output (fs st) (fs st1)
  /\ same_counters st st1 /\ log st1 = log st.
Proof.
  unfold get_output_dir, bind, ret, raise, get_fs, when, os_call.
  assert (forall segment,
             let fullpath :=
               normpath (join "/" (omap id [Some (output_dir self);
                                            output_prefix self; Some segment;
                                            output_suffix self])) in
             match
               (if negb (isdir (fs st) fullpath) && negb (dry_run self)
                then fun st0 => match makedirs (fs st0) fullpath true with
                                | Ok f => Return () (with_fs st0 f)
                                | Raise e => Raised e st0
                                end
                else fun st0 => Return () st0) st
             with
             | Return _ st' => Return fullpath st'
             | Raised e st' => Raised e st'
             | OutOfFuel => OutOfFuel
             end = Return output st1 ->
             makedirs_frame output (fs st) (fs st1)
             /\ same_counters st st1 /\ log st1 = log st) as Hcore.
  { intros segment fullpath. destruct (_ && _).
    - destruct (makedirs _ _ _) as [f|e] eqn:Hm; [|done].
      intros [= <- <-]. apply makedirs_ok_frame in Hm. simpl.
      split; [exact Hm|]. split; [by repeat split|done].
    - intros [= <- <-].
      split; [apply makedirs_frame_refl|]. split; [by repeat split|done]. }
  destruct date as [[[t|] sub]|]; simpl; try done.
  - destruct (strftime _ _ _ _); apply Hcore.
  - apply Hcore.
Qed.

Lemma get_file_name_frame original date name st st1 :
  get_file_name self original date st = Return name st1 -> st1 = st.
Proof.
  unfold get_file_name, ret, raise.
  repeat case_match; try done; by intros [= _ ->].
Qed.

(** [get_file_name_and_path]: the target path is the name under the
    output directory; files, counters and log are as before. *)
Lemma get_file_name_and_path_frame filename output name path ty date st st1 :
  get_file_name_and_path Exif_data Date_from_exif strftime self filename st
  = Return (output, name, path, ty, date) st1 ->
  path = output +:+ "/" +:+ name
  /\ makedirs_frame output (fs st) (fs st1)
  /\ same_counters st st1 /\ log st1 = log st.
Proof.
  unfold get_file_name_and_path, bind at 1, get_fs.
  destruct (bool_decide _).
  - unfold bind at 1.
    destruct (get_output_dir _ _ _ st) as [o st'| |] eqn:Ho; try done.
    apply get_output_dir_frame in Ho.
    unfold bind at 1.
    destruct (get_file_name _ _ _ st') as [n st''| |] eqn:Hn; try done.
    apply get_file_name_frame in Hn as ->.
    unfold ret. by intros [= <- <- <- <- <- <-].
  - unfold bind at 1.
    destruct (get_output_dir _ _ _ st) as [o st'| |] eqn:Ho; try done.
    apply get_output_dir_frame in Ho.
    unfold ret. by intros [= <- <- <- <- <- <-].
Qed.

Lemma process_file_resolved filename output name path ty date st st1 :
  has_sidecar_ext filename = false ->
  get_file_name_and_path Exif_data Date_from_exif strftime self filename st
  = Return (output, name, path, ty, date) st1 ->
  process_file Exif_data Date_from_exif strftime self filename st
  = (collision_loop (loop_bound (fs st1)) self filename output name path ty
                    (date_value date) 1 path ;;;
     modify inc_processed) st1.
Proof.
  intros Hs Hg. unfold process_file. fold (has_sidecar_ext filename).
  rewrite Hs. unfold bind at 1. rewrite Hg. done.
Qed.

(** Without sidecars on disk, [process_sidecars] does nothing. *)
Lemma sidecar_files_none (f : FS) filename name suffix ext :
  Forall (fun p => files f !! p = None) (sidecar_originals filename ext) ->
  sidecar_files f filename name suffix ext = [].
Proof.
  unfold sidecar_originals. rewrite !Forall_cons.
  intros (H1 & H2 & H3 & H4 & _). unfold sidecar_files.
  apply isfile_false in H1, H2, H3, H4. by rewrite H1, H2, H3, H4.
Qed.

Lemma process_sidecars_none filename name suffix output st :
  no_sidecars (fs st) filename ->
  process_sidecars self filename name suffix output st = Return tt st.
Proof.
  unfold no_sidecars, known_sidecar_extensions. rewrite !Forall_cons.
  intros (H1 & H2 & _). unfold process_sidecars, known_sidecar_extensions.
  cbn [for_each]. unfold bind, get_fs, ret. cbv beta iota.
  rewrite (sidecar_files_none _ _ _ _ _ H1). cbn [for_each]. unfold ret.
  cbv beta iota.
  rewrite (sidecar_files_none _ _ _ _ _ H2). done.
Qed.

Lemma exists_false (f : FS) (p : string) :
  exists_ f p = false <-> files f !! p = None /\ p ∉ dirs f.
Proof.
  unfold exists_, isdir. rewrite orb_false_iff, isfile_false.
  by rewrite bool_decide_eq_false.
Qed.

(** [place] with the source on disk, a free target, and no sidecars. *)
Lemma place_lands filename progress name suffix output target c st :
  dry_run self = false ->
  files (fs st) !! filename = Some c ->
  exists_ (fs st) target = false ->
  no_sidecars (set_files (fs st)
                         (landed_files self (files (fs st)) filename target c))
              filename ->
  place self filename progress name suffix output target st
  = Return tt (landed self st filename progress target c).
Proof.
  intros Hdry Hsrc Hfree Hside.
  pose proof Hfree as Hfree'. apply exists_false in Hfree' as [Hnf Hnd].
  assert (filename <> target) as Hne by congruence.
  assert (isdir (fs st) target = false) as Hnd'
      by (unfold isdir; by rewrite bool_decide_eq_false).
  unfold place, landed, counted, landed_files in *. rewrite Hdry in *.
  rewrite andb_true_r. simpl negb. cbn [when].
  destruct (move self) eqn:Hmv; [|destruct (link self) eqn:Hln].
  - unfold bind at 1, try_except, bind at 1, modify, bind at 1, os_call, OS.move.
    simpl. rewrite Hnd'. unfold rename. rewrite Hsrc. simpl.
    unfold bind, logger, modify. simpl.
    rewrite process_sidecars_none; [done|]. done.
  - unfold bind at 1, bind at 1, os_call, OS.link. rewrite Hsrc, Hfree. simpl.
    unfold bind, logger, modify. simpl.
    rewrite process_sidecars_none; [done|]. done.
  - unfold bind at 1, try_except, bind at 1, modify, bind at 1, os_call, copy2.
    simpl. rewrite Hnd', Hsrc. rewrite bool_decide_eq_false_2 by done.
    rewrite Hnd'. simpl.
    unfold bind, logger, modify. simpl.
    rewrite process_sidecars_none; [done|]. done.
Qed.

(** [place] with the source gone: the counter has moved, the exception is
    caught, a warning is logged and nothing else happens. *)
Lemma place_missing filename progress name suffix output target st :
  dry_run self = false ->
  move self = true \/ link self = false ->
  files (fs st) !! filename = None ->
  isdir (fs st) target = false ->
  place self filename progress name suffix output target st
  = Return tt (skipped_missing self st progress).
Proof.
  intros Hdry Hmode Hsrc Hnd. unfold place, skipped_missing. rewrite Hdry.
  simpl negb. cbn [when]. rewrite andb_true_r.
  destruct (move self) eqn:Hmv.
  - unfold bind at 1, try_except, bind at 1, modify, bind at 1, os_call, OS.move.
    simpl. rewrite Hnd. unfold rename. rewrite Hsrc. simpl.
    unfold missing_source, bind, logger, modify, ret. done.
  - destruct Hmode as [|Hln]; [done|]. rewrite Hln.
    unfold bind at 1, try_except, bind at 1, modify, bind at 1, os_call, copy2.
    simpl. rewrite Hnd, Hsrc. simpl.
    unfold missing_source, bind, logger, modify, ret. done.
Qed.

End Steps.

(* ===================================================================== *)
(** ** Duplicates and the [movedel] option (C1)                            *)
(* ===================================================================== *)

Section Duplicates.
Import PyStr OS Run Engine Logic.

(** Whatever [--movedel] was, the attribute [__init__] stores is true. *)
Lemma movedel_always_true input_dir output_dir args fr to :
  tuple_truth (movedel (attributes input_dir output_dir args fr to)) = true.
Proof. reflexivity. Qed.

Lemma rmdirs_always_true input_dir output_dir args fr to :
  tuple_truth (rmdirs (attributes input_dir output_dir args fr to)) = true.
Proof. reflexivity. Qed.

(** On a duplicate the source goes exactly when the run moves, skips
    unknown dates and is not a dry run; the duplicate counter moves once
    and no other file changes. *)
Lemma duplicate_effect (self : Phockup) filename progress target c st :
  tuple_truth (movedel self) = true ->
  files (fs st) !! filename = Some c ->
  exists st',
    duplicate self filename progress target st = Return tt st'
    /\ duplicates_found st' = duplicates_found st + 1
    /\ dirs (fs st') = dirs (fs st)
    /\ files (fs st')
       = (if move self && skip_unknown self && negb (dry_run self)
          then delete filename (files (fs st)) else files (fs st)).
Proof.
  intros Hm Hsrc. unfold duplicate. rewrite Hm. simpl.
  destruct (move self), (skip_unknown self), (dry_run self); simpl;
    unfold bind, when, os_call, remove, ret, modify, logger, isfile;
    rewrite ?bool_decide_eq_true_2 by (by rewrite Hsrc);
    simpl; eexists; (split; [reflexivity|]); simpl; done.
Qed.

End Duplicates.

Section ConcreteRuns.
Import PyStr OS Run Engine Doubles Scenarios Cases.

(** C1, at the failing input: [--move --skip-unknown] without
    [--movedel].  The source of the duplicate is deleted all the same;
    the target is not touched. *)
Theorem C1_source_deleted_without_movedel :
  a_movedel move_skip_unknown = false
  /\ match init catalogue "/in" "/out" move_skip_unknown
                (walk_in ["a.jpg"]) [] fs_duplicate with
     | Return _ st' =>
         files (fs st') !! "/in/a.jpg" = None
         /\ files (fs st') !! target = files fs_duplicate !! target
         /\ duplicates_found st' = 1
         /\ log st'
            = [(INFO, "/in/a.jpg => deleted, duplicated file " +:+ target);
               (INFO, "Found 1 duplicate files.")]
     | _ => False
     end.
Proof. vm_compute. repeat split. Qed.

(** C3, counterexample: a file with a sidecar extension is handed to
    [process_file] and the processed counter does not move. *)
Lemma C3_sidecar_is_not_counted :
  let st := initial_state fs_sidecar in
  process_file catalogue (self_of (with_mode false false false))
               "/in/IMG_0001.JPG.xmp" st = Return tt st
  /\ files_processed st <> files_processed st + 1.
Proof. vm_compute. split; [reflexivity | discriminate]. Qed.

(** C5, counterexample.  Two inputs with the same bytes: the real run
    copies one and finds the other a duplicate; the dry run, which places
    nothing, reports both as copied.  And a dry run with [--move] of a
    tree with an empty directory: the cleanup pass removes the
    directory, dry run or not. *)
Lemma C5_dry_run_mutates_and_miscounts :
  match init catalogue "/in" "/out" (with_mode false false false)
             (walk_in ["a.jpg"; "b.jpg"]) [] fs_twins,
        init catalogue "/in" "/out" (with_mode false false true)
             (walk_in ["a.jpg"; "b.jpg"]) [] fs_twins with
  | Return _ real, Return _ dry =>
      files_copied real = 1 /\ files_copied dry = 2
      /\ fs dry = fs_twins
      /\ files_copied dry <> files_copied real
  | _, _ => False
  end
  /\ bool_decide ("/in/empty" ∈ dirs fs_empty_dir) = true
  /\ match init catalogue "/in" "/out" (with_mode true false true)
                (walk_in ["a.jpg"])
                [("/in/empty", [], []); ("/in", ["empty"], [])]
                fs_empty_dir with
     | Return _ dry =>
         bool_decide ("/in/empty" ∈ dirs (fs dry)) = false
         /\ files (fs dry) !! "/in/a.jpg" = files fs_empty_dir !! "/in/a.jpg"
         /\ files_moved dry = 1
     | _ => False
     end.
Proof. vm_compute. repeat split; discriminate. Qed.

(** C10, counterexample.  The photograph sits at its own target path and
    the second slot holds the same bytes, as after an earlier run in
    place; the third slot is free.  The file is counted as a duplicate
    and no copy is placed. *)
Lemma C10_identical_second_slot_is_a_duplicate :
  files fs_in_place_again !! target = files fs_in_place_again !! target_2
  /\ exists_ fs_in_place_again (suffixed target 3) = false
  /\ match process_file in_place_catalogue
                        (attributes "/out" "/out"
                                    (with_mode false false false) None None)
                        target (initial_state fs_in_place_again) with
     | Return _ st' =>
         duplicates_found st' = 1
         /\ files_copied st' = 0
         /\ files (fs st') !! suffixed target 3 = None
         /\ size (files (fs st')) = 2%nat
         /\ log st'
            = [(INFO, target +:+ " => skipped, duplicated file " +:+ target_2)]
     | _ => False
     end.
Proof. vm_compute. repeat split. Qed.

(** C6, at the failing input: link mode, [a.jpg] gone before its turn.
    [os.link] raises [FileNotFoundError], nothing catches it, the run ends
    there and [b.jpg] is never processed. *)
Theorem C6_link_does_not_catch_missing_source :
  match init catalogue "/in" "/out" (with_mode false true false)
             (walk_in ["a.jpg"; "b.jpg"]) [] fs_vanished with
  | Raised e st' =>
      e = FileNotFoundError
      /\ files_processed st' = 0
      /\ fs st' = fs_vanished
      /\ log st' = []
  | _ => False
  end.
Proof. vm_compute. repeat split. Qed.

(** The same input in move mode and in copy mode: a warning, and the run
    goes on to [b.jpg]. *)
Lemma move_and_copy_catch_missing_source (move : bool) :
  match init catalogue "/in" "/out" (with_mode move false false)
             (walk_in ["a.jpg"; "b.jpg"]) [] fs_vanished with
  | Return _ st' =>
      files_processed st' = 2
      /\ files (fs st') !! target = files fs_vanished !! "/in/b.jpg"
      /\ head (log st')
         = Some (WARNING, "/in/a.jpg => skipped, no such file or directory")
  | _ => False
  end.
Proof. destruct move; vm_compute; repeat split. Qed.

(** C7, at the failing input: [--move] without [--rmdirs].  The cleanup
    pass runs all the same and removes the empty directory. *)
Theorem C7_cleanup_runs_without_rmdirs :
  a_rmdirs move_skip_unknown = false
  /\ bool_decide ("/in/empty" ∈ dirs fs_empty_dir) = true
  /\ match init catalogue "/in" "/out" move_skip_unknown
                (walk_in ["a.jpg"])
                [("/in/empty", [], []); ("/in", ["empty"], [])]
                fs_empty_dir with
     | Return _ st' =>
         bool_decide ("/in/empty" ∈ dirs (fs st')) = false
         /\ log st'
            = [(INFO, "/in/a.jpg => " +:+ target);
               (INFO, "Deleted empty directory: /in/empty");
               (INFO, "Moved 1 files.")]
     | _ => False
     end.
Proof. vm_compute. repeat split. Qed.

End ConcreteRuns.

(* ===================================================================== *)
(** ** From one state to the next                                          *)
(* ===================================================================== *)

Section Transfer.
Import PyStr OS Run Engine Logic.

Lemma cmp_regular (f : FS) (f1 f2 : string) (a b : File) (shallow : bool) :
  files f !! f1 = Some a -> files f !! f2 = Some b ->
  cmp f f1 f2 shallow = Ok (cmp_files shallow a b).
Proof. intros H1 H2. unfold cmp. by rewrite H1, H2. Qed.

Lemma passed_over_same_files self st st1 filename target c :
  files (fs st1) = files (fs st) ->
  files (fs st) !! filename = Some c ->
  passed_over self st filename target ->
  passed_over self st1 filename target.
Proof.
  intros Hf Hsrc [Hfile Hc]. split.
  - apply isfile_true. rewrite Hf. by apply isfile_true.
  - destruct Hc as [|Hc]; [by left | right].
    apply isfile_true in Hfile as [b Hb].
    rewrite (cmp_regular _ _ _ c b) in Hc by done.
    rewrite (cmp_regular _ _ _ c b) by (by rewrite Hf). done.
Qed.

Lemma length_candidate (path : string) (s : Z) :
  (String.length path <= String.length (candidate path s))%nat.
Proof.
  unfold candidate. destruct (s =? 1); [done|].
  pose proof (length_suffixed path s). lia.
Qed.

Lemma not_dir_after_makedirs output name path (s : Z) (f f1 : FS) :
  path = output +:+ "/" +:+ name ->
  makedirs_frame output f f1 ->
  candidate path s ∉ dirs f ->
  candidate path s ∉ dirs f1.
Proof.
  intros -> (_ & _ & Hdirs) Hnd Hd.
  apply Hdirs in Hd as [Hd|Hd]; [done|].
  pose proof (length_candidate (output +:+ "/" +:+ name) s) as Hl.
  rewrite !str_length_app in Hl. simpl in Hl. lia.
Qed.

Lemma free_after_makedirs output name path (s : Z) (f f1 : FS) :
  path = output +:+ "/" +:+ name ->
  makedirs_frame output f f1 ->
  exists_ f (candidate path s) = false ->
  exists_ f1 (candidate path s) = false.
Proof.
  intros Hp Hframe. rewrite !exists_false.
  intros [Hnf Hnd]. split.
  - destruct Hframe as (-> & _). done.
  - by eapply not_dir_after_makedirs.
Qed.

Lemma no_sidecars_same_files (f f' : FS) filename :
  files f' = files f -> no_sidecars f filename -> no_sidecars f' filename.
Proof. unfold no_sidecars. by intros ->. Qed.

(** Placing a file leaves another file without sidecars, unless the slot
    is one of the places where its sidecars are looked for. *)
Lemma no_sidecars_landed self (f : FS) source target c filename :
  no_sidecars f filename ->
  (forall ext, ext ∈ known_sidecar_extensions ->
               target ∉ sidecar_originals filename ext) ->
  no_sidecars (set_files f (landed_files self (files f) source target c))
              filename.
Proof.
  unfold no_sidecars. rewrite !Forall_forall. intros Hn Ht ext Hext.
  specialize (Hn ext Hext). specialize (Ht ext Hext).
  rewrite Forall_forall in *. intros p Hp. simpl.
  assert (p <> target) as Hne by (intros ->; done).
  unfold landed_files. destruct (move self).
  - rewrite lookup_insert_ne by done.
    destruct (decide (p = source)) as [->|];
      [apply lookup_delete_eq | rewrite lookup_delete_ne by done; auto].
  - rewrite lookup_insert_ne by done. auto.
Qed.

End Transfer.

(* ===================================================================== *)
(** ** A source that is gone (C9) and a source at its own target (C10)     *)
(* ===================================================================== *)

Section SingleFile.
Import PyStr OS Run Engine Logic.

Context (Exif_data : string -> option File -> option (gmap string string)).
Context (Date_from_exif :
           string -> option File -> option (gmap string string) -> bool
           -> option string -> option string -> option DateDict).
Context (strftime : Z -> Z -> Z -> string -> option string).

(** C9.  Move mode or copy mode, not a dry run.  The source is gone when
    its turn comes and the target is free, so the mutation is attempted.
    The call returns; the moved (copied) counter has gone up by one, taken
    before the attempt and never given back; no file has been placed: the
    regular files are those of before; the last log record is the
    warning.  The count reported at the end of the run is therefore one
    more than the files placed. *)
Theorem C9_counter_runs_ahead_of_placement
        (self : Phockup) (filename output name path : string)
        (ty : option string) (date : option DateDict) (fd : FileDate)
        (st st1 : State) :
  dry_run self = false ->
  move self = true \/ link self = false ->
  has_sidecar_ext filename = false ->
  files (fs st) !! filename = None ->
  get_file_name_and_path Exif_data Date_from_exif strftime self filename st
  = Return (output, name, path, ty, date) st1 ->
  filters self filename output name ty (date_value date) st
  = Return (Next fd) st ->
  exists_ (fs st) path = false ->
  exists st',
    process_file Exif_data Date_from_exif strftime self filename st
    = Return tt st'
    /\ files (fs st') = files (fs st)
    /\ files_moved st' = files_moved st + (if move self then 1 else 0)
    /\ files_copied st' = files_copied st + (if move self then 0 else 1)
    /\ files_processed st' = files_processed st + 1
    /\ last (log st')
       = Some (WARNING, filename +:+ " => skipped, no such file or directory").
Proof.
  intros Hdry Hmode Hext Hsrc Hg Hfil Hfree.
  pose proof (get_file_name_and_path_frame _ _ _ _ _ _ _ _ _ _ _ _ Hg)
    as (Hpath & Hframe & Hcnt & Hlog).
  pose proof Hframe as (Hfiles & _).
  assert (exists_ (fs st1) path = false) as Hfree1.
  { rewrite <- (candidate_one path).
    eapply free_after_makedirs; [done..|]. by rewrite candidate_one. }
  apply orb_false_iff in Hfree1 as [Hnf Hnd].
  exists (inc_processed (skipped_missing self st1 filename)).
  split.
  - rewrite (process_file_resolved _ _ _ _ _ _ _ _ _ _ _ _ Hext Hg).
    unfold bind.
    apply (filters_pass _ _ _ _ _ _ _ st st1) in Hfil as [_ Hfil1].
    rewrite (resolver_free self 0 _ _ _ _ _ _ _ _ Hfil1);
      [|intros; lia|done].
    simpl. rewrite place_missing; try done. by rewrite Hfiles.
  - destruct Hcnt as (Hp & _ & _ & Hm & Hc).
    unfold skipped_missing. destruct (move self); simpl;
      rewrite ?last_snoc; repeat split; try done; lia.
Qed.

(** The call that finds a duplicate in slot [k + 1]. *)
Lemma duplicate_call (self : Phockup)
        (k : nat) (filename output name path : string) (ty : option string)
        (date : option DateDict) (fd : FileDate) (c : File)
        (st st1 : State) :
  has_sidecar_ext filename = false ->
  files (fs st) !! filename = Some c ->
  get_file_name_and_path Exif_data Date_from_exif strftime self filename st
  = Return (output, name, path, ty, date) st1 ->
  filters self filename output name ty (date_value date) st
  = Return (Next fd) st ->
  (forall s, 1 <= s <= Z.of_nat k ->
             passed_over self st filename (candidate path s)) ->
  filename <> candidate path (Z.of_nat k + 1) ->
  cmp (fs st) filename (candidate path (Z.of_nat k + 1))
      (use_shallow_cmp self) = Ok true ->
  exists st',
    process_file Exif_data Date_from_exif strftime self filename st
    = Return tt st'
    /\ files (fs st')
       = (if tuple_truth (movedel self) && move self && skip_unknown self
             && negb (dry_run self)
          then delete filename (files (fs st)) else files (fs st))
    /\ files_processed st' = files_processed st + 1
    /\ duplicates_found st' = duplicates_found st + 1
    /\ unknown_found st' = unknown_found st
    /\ files_moved st' = files_moved st
    /\ files_copied st' = files_copied st
    /\ log st'
       = log st
         ++ [(INFO,
              filename
                +:+ (if tuple_truth (movedel self) && move self
                        && skip_unknown self
                     then " => deleted, duplicated file "
                     else " => skipped, duplicated file ")
                +:+ candidate path (Z.of_nat k + 1))].
Proof.
  intros Hext Hsrc Hg Hfil Hocc Hne Hcmp.
  pose proof (get_file_name_and_path_frame _ _ _ _ _ _ _ _ _ _ _ _ Hg)
    as (_ & (Hfiles & Hdirs & _) & Hcnt & Hlog).
  set (slot := candidate path (Z.of_nat k + 1)) in *.
  assert (exists b, files (fs st) !! slot = Some b
                    /\ cmp_files (use_shallow_cmp self) c b = true)
    as (b & Hb & Hcb).
  { unfold cmp in Hcmp. rewrite Hsrc in Hcmp.
    destruct (files (fs st) !! slot) as [b|] eqn:Hb.
    - exists b. split; [done|]. by injection Hcmp.
    - by destruct (isdir (fs st) slot). }
  rewrite (process_file_resolved _ _ _ _ _ _ _ _ _ _ _ _ Hext Hg).
  unfold bind.
  apply (filters_pass _ _ _ _ _ _ _ st st1) in Hfil as [_ Hfil1].
  rewrite (resolver_identical self k _ _ _ _ _ _ _ _ Hfil1); cycle 1.
  - intros s Hs.
    apply (passed_over_same_files self st st1 _ _ c); try done. by apply Hocc.
  - apply isfile_true. fold slot. rewrite Hfiles. by rewrite Hb.
  - done.
  - fold slot. rewrite (cmp_regular _ _ _ c b) by (by rewrite Hfiles).
    by rewrite Hcb.
  - fold slot. destruct Hcnt as (Hp & Hd & Hu & Hm & Hc).
    unfold duplicate.
    destruct (tuple_truth (movedel self) && move self && skip_unknown self)
      eqn:Hdel; simpl.
    + destruct (dry_run self); simpl.
      * unfold bind, when, ret, modify, logger. simpl.
        eexists. split; [reflexivity|]. simpl. rewrite Hlog.
        repeat split; try done; lia.
      * unfold bind, when, os_call, remove, isfile.
        rewrite bool_decide_eq_true_2 by (by rewrite Hfiles, Hsrc).
        unfold ret, modify, logger. simpl.
        eexists. split; [reflexivity|]. simpl. rewrite Hlog, Hfiles.
        repeat split; try done; lia.
    + unfold bind, ret, modify, logger. simpl.
      eexists. split; [reflexivity|]. simpl. rewrite Hlog.
      repeat split; try done; lia.
Qed.

(** C10, as amended.  The target path computed for the file is the path
    of the file itself.  The first probe finds a regular file there,
    makes no comparison and counts no duplicate of the file with itself;
    the counter goes to 2.  From there the suffixed slots are probed like
    those of any file.  With the slots 2 .. [k + 1] occupied by files
    that compare different:
    - when slot [k + 2] is free and the run is not a dry run, the file is
      placed there, [name-2.ext] when [k = 0], no duplicate is counted,
      and outside move mode the source stays;
    - when slot [k + 2] holds a file that compares identical, as after
      an earlier run in place, the file is counted as a duplicate and no
      copy is placed: no regular file is added or changed. *)
Theorem C10_own_path_is_not_a_duplicate
        (self : Phockup) (filename output name : string)
        (ty : option string) (date : option DateDict) (fd : FileDate)
        (k : nat) (c : File) (st st1 : State) :
  has_sidecar_ext filename = false ->
  files (fs st) !! filename = Some c ->
  get_file_name_and_path Exif_data Date_from_exif strftime self filename st
  = Return (output, name, filename, ty, date) st1 ->
  filters self filename output name ty (date_value date) st
  = Return (Next fd) st ->
  (forall s, 2 <= s <= Z.of_nat k + 1 ->
             passed_over self st filename (suffixed filename s)) ->
  (dry_run self = false ->
   exists_ (fs st) (suffixed filename (Z.of_nat k + 2)) = false ->
   no_sidecars (fs st) filename ->
   (forall ext, ext ∈ known_sidecar_extensions ->
                suffixed filename (Z.of_nat k + 2)
                ∉ sidecar_originals filename ext) ->
   exists st',
     process_file Exif_data Date_from_exif strftime self filename st
     = Return tt st'
     /\ duplicates_found st' = duplicates_found st
     /\ files (fs st') !! suffixed filename (Z.of_nat k + 2) = Some c
     /\ (move self = false -> files (fs st') !! filename = Some c)
     /\ files_processed st' = files_processed st + 1)
  /\ (cmp (fs st) filename (suffixed filename (Z.of_nat k + 2))
          (use_shallow_cmp self) = Ok true ->
      exists st',
        process_file Exif_data Date_from_exif strftime self filename st
        = Return tt st'
        /\ duplicates_found st' = duplicates_found st + 1
        /\ files_processed st' = files_processed st + 1
        /\ files_moved st' = files_moved st
        /\ files_copied st' = files_copied st
        /\ files (fs st') ⊆ files (fs st)
        /\ (forall p, p <> filename ->
                      files (fs st') !! p = files (fs st) !! p)).
Proof.
  intros Hext Hsrc Hg Hfil Hocc.
  pose proof (get_file_name_and_path_frame _ _ _ _ _ _ _ _ _ _ _ _ Hg)
    as (Hpath & Hframe & Hcnt & Hlog).
  pose proof Hframe as (Hfiles & _).
  set (slot := Z.of_nat k + 2) in *.
  assert (candidate filename slot = suffixed filename slot) as Hslot.
  { unfold candidate. destruct (Z.eqb_spec slot 1); [lia|done]. }
  assert (filename <> suffixed filename slot) as Hne.
  { intros Heq. symmetry in Heq. by apply suffixed_ne in Heq. }
  assert (forall s, 1 <= s <= Z.of_nat (S k) ->
                    passed_over self st filename (candidate filename s))
    as Hocc1.
  { intros s Hs. destruct (decide (s = 1)) as [->|].
    - rewrite candidate_one. split; [|by left].
      apply isfile_true. by rewrite Hsrc.
    - unfold candidate. destruct (Z.eqb_spec s 1); [done|].
      apply Hocc. lia. }
  split.
  - intros Hdry Hfree Hside Hnot.
    assert (exists_ (fs st1) (suffixed filename slot) = false) as Hfree1.
    { rewrite <- Hslot. eapply free_after_makedirs; [done..|].
      by rewrite Hslot. }
    exists (inc_processed
              (landed self st1 filename filename (suffixed filename slot) c)).
    split.
    + rewrite (process_file_resolved _ _ _ _ _ _ _ _ _ _ _ _ Hext Hg).
      unfold bind.
      apply (filters_pass _ _ _ _ _ _ _ st st1) in Hfil as [_ Hfil1].
      rewrite (resolver_free self (S k) _ _ _ _ _ _ _ _ Hfil1).
      * replace (Z.of_nat (S k) + 1) with slot by lia. rewrite Hslot.
        rewrite (place_lands self _ _ _ _ _ _ c); try done.
        -- by rewrite Hfiles.
        -- apply no_sidecars_landed; [|done].
           by apply (no_sidecars_same_files (fs st)).
      * intros s Hs.
        apply (passed_over_same_files self st st1 _ _ c); try done.
        by apply Hocc1.
      * replace (Z.of_nat (S k) + 1) with slot by lia. rewrite Hslot.
        by apply orb_false_iff in Hfree1 as [? _].
    + destruct Hcnt as (Hp & Hd & _).
      unfold landed, counted, landed_files. rewrite Hfiles.
      destruct (move self) eqn:Hmv; simpl.
      * repeat split; try done; try lia. apply lookup_insert_eq.
      * destruct (link self && negb (dry_run self)); simpl;
          (repeat split; try done; try lia;
           [apply lookup_insert_eq | intros _; by rewrite lookup_insert_ne]).
  - intros Hcmp.
    destruct (duplicate_call self (S k) filename output name filename ty
                             date fd c st st1 Hext Hsrc Hg Hfil Hocc1)
      as (st' & Hrun & Hf & Hp & Hd & _ & Hm & Hc & _).
    + replace (Z.of_nat (S k) + 1) with slot by lia. by rewrite Hslot.
    + replace (Z.of_nat (S k) + 1) with slot by lia. by rewrite Hslot.
    + exists st'. split; [done|]. split; [done|]. split; [done|].
      split; [done|]. split; [done|]. rewrite Hf.
      destruct (tuple_truth (movedel self) && move self && skip_unknown self
                && negb (dry_run self)).
      * split; [apply delete_subseteq|].
        intros p Hp'. by rewrite lookup_delete_ne.
      * done.
Qed.

End SingleFile.

(* ===================================================================== *)
(** ** Metadata of a primary file with an xmp sibling (C8)                 *)
(* ===================================================================== *)

Section XmpMetadata.
Import PyStr OS Run Engine Logic.

Lemma exif_source_without_ext (f : FS) (filename : string) :
  isfile f (xmp_original_without_ext filename) = true ->
  exif_source f filename = xmp_original_without_ext filename.
Proof. intros H. unfold exif_source, xmp_filename. by rewrite H. Qed.

Lemma exif_source_with_ext (f : FS) (filename : string) :
  isfile f (xmp_original_with_ext filename) = true ->
  isfile f (xmp_original_without_ext filename) = false ->
  exif_source f filename = xmp_original_with_ext filename.
Proof. intros H1 H2. unfold exif_source, xmp_filename. by rewrite H1, H2. Qed.

Lemma exif_source_media (f : FS) (filename : string) :
  isfile f (xmp_original_with_ext filename) = false ->
  isfile f (xmp_original_without_ext filename) = false ->
  exif_source f filename = filename.
Proof. intros H1 H2. unfold exif_source, xmp_filename. by rewrite H1, H2. Qed.

Context (Exif_data Exif_data' :
           string -> option File -> option (gmap string string)).
Context (Date_from_exif :
           string -> option File -> option (gmap string string) -> bool
           -> option string -> option string -> option DateDict).
Context (strftime : Z -> Z -> Z -> string -> option string).

(** C8.  [xmp] is the sibling the code settles on: [stem + '.xmp'] when
    that is a file, else [name + '.xmp'] when that is one.  Then
    - what [Exif] would say of any other file, the media file included,
      is immaterial: two metadata readers that agree on [xmp] give the
      same result, state and all;
    - the type returned is what [get_file_type] makes of the ['MIMEType']
      entry of the metadata read from [xmp], and [None] when the reader
      returns nothing or the entry is missing;
    - when that type is one of the three kinds, the date returned is
      what the date resolver makes of the metadata read from [xmp];
      otherwise there is no date. *)
Theorem C8_metadata_read_from_xmp_sidecar
        (self : Phockup) (filename xmp : string) (st : State) :
  (xmp = xmp_original_without_ext filename /\ isfile (fs st) xmp = true)
  \/ (xmp = xmp_original_with_ext filename /\ isfile (fs st) xmp = true
      /\ isfile (fs st) (xmp_original_without_ext filename) = false) ->
  Exif_data' xmp (files (fs st) !! xmp) = Exif_data xmp (files (fs st) !! xmp) ->
  get_file_name_and_path Exif_data' Date_from_exif strftime self filename st
  = get_file_name_and_path Exif_data Date_from_exif strftime self filename st
  /\ forall output name path ty date st1,
      get_file_name_and_path Exif_data Date_from_exif strftime self filename st
      = Return (output, name, path, ty, date) st1 ->
      let exif_data := Exif_data xmp (files (fs st) !! xmp) in
      ty = match exif_data with
           | Some e =>
               match e !! "MIMEType" with
               | Some mimetype => get_file_type mimetype
               | None => None
               end
           | None => None
           end
      /\ date = (if bool_decide (ty ∈ [Some "image"; Some "video"; Some "xmp"])
                 then Date_from_exif filename (files (fs st) !! filename)
                                     exif_data (timestamp self)
                                     (date_regex self) (date_field self)
                 else None).
Proof.
  intros Hxmp Hagree.
  assert (exif_source (fs st) filename = xmp) as Hsrc.
  { destruct Hxmp as [[-> H]|(-> & H1 & H2)].
    - by apply exif_source_without_ext.
    - by apply exif_source_with_ext. }
  split.
  - unfold get_file_name_and_path, bind at 1 5, get_fs.
    by rewrite Hsrc, Hagree.
  - intros output name path ty date st1.
    unfold get_file_name_and_path, bind at 1, get_fs. rewrite Hsrc.
    destruct (bool_decide (target_type_of _ ∈ _)) eqn:Hty.
    + unfold bind at 1.
      destruct (get_output_dir _ _ _ st) as [o st'| |]; try done.
      unfold bind at 1.
      destruct (get_file_name _ _ _ st') as [n st''| |]; try done.
      unfold ret. intros [= <- <- <- <- <- <-]. simpl. by rewrite Hty.
    + unfold bind at 1.
      destruct (get_output_dir _ _ _ st) as [o st'| |]; try done.
      unfold ret. intros [= <- <- <- <- <- <-]. simpl. by rewrite Hty.
Qed.

End XmpMetadata.

(* ===================================================================== *)
(** ** One file, with and without dry-run (C5)                             *)
(* ===================================================================== *)

Section DryAndReal.
Import PyStr OS Run Engine Logic.

Context (Exif_data : string -> option File -> option (gmap string string)).
Context (Date_from_exif :
           string -> option File -> option (gmap string string) -> bool
           -> option string -> option string -> option DateDict).
Context (strftime : Z -> Z -> Z -> string -> option string).
Context (self : Phockup).


Lemma alike_sym a b : alike a b -> alike b a.
Proof.
  intros [Hf (?&?&?&?&?)]. split; [done|]. by repeat split.
Qed.

Lemma alike_trans a b c : alike a b -> alike b c -> alike a c.
Proof.
  intros [Hf (?&?&?&?&?)] [Hf' (?&?&?&?&?)].
  split; [congruence|]. repeat split; congruence.
Qed.

Lemma alike_frame output st st1 :
  makedirs_frame output (fs st) (fs st1) -> same_counters st st1 ->
  alike st st1.
Proof.
  intros (Hf & _) (?&?&?&?&?). split; [done|]. by repeat split.
Qed.

(** The path builder gives both runs the same answer. *)
Lemma get_output_dir_same date o_d o_r st st_d st_r :
  get_output_dir strftime (with_dry_run true self) date st = Return o_d st_d ->
  get_output_dir strftime (with_dry_run false self) date st = Return o_r st_r ->
  o_d = o_r.
Proof.
  unfold get_output_dir, bind, ret, raise, get_fs, when, os_call. simpl.
  destruct date as [[[t|] sub]|]; simpl; try done;
    try destruct (strftime _ _ _ _); simpl;
    rewrite ?andb_false_r, ?andb_true_r;
    destruct (negb (isdir _ _)); simpl;
    try destruct (makedirs _ _ _); simpl; try done;
    intros [= <- _] [= <- _]; done.
Qed.

Lemma get_file_name_same original date n_d n_r st st' st_d st_r :
  get_file_name (with_dry_run true self) original date st = Return n_d st_d ->
  get_file_name (with_dry_run false self) original date st' = Return n_r st_r ->
  n_d = n_r.
Proof.
  unfold get_file_name, ret, raise. simpl.
  repeat case_match; try done; intros [= <- _] [= <- _]; done.
Qed.

Lemma get_file_name_and_path_same filename tup_d tup_r st st_d st_r :
  get_file_name_and_path Exif_data Date_from_exif strftime (with_dry_run true self) filename st
  = Return tup_d st_d ->
  get_file_name_and_path Exif_data Date_from_exif strftime (with_dry_run false self) filename st
  = Return tup_r st_r ->
  tup_d = tup_r /\ alike st_d st_r.
Proof.
  intros Hd Hr.
  assert (alike st_d st_r) as Hal.
  { destruct tup_d as [[[[o n] p] ty] dt], tup_r as [[[[o' n'] p'] ty'] dt'].
    apply get_file_name_and_path_frame in Hd as (_ & Hd1 & Hd2 & _).
    apply get_file_name_and_path_frame in Hr as (_ & Hr1 & Hr2 & _).
    eapply alike_trans; [apply alike_sym|]; by eapply alike_frame. }
  split; [|done]. revert Hd Hr.
  unfold get_file_name_and_path, bind at 1 5, get_fs. simpl.
  destruct (bool_decide _).
  - unfold bind at 1 3.
    destruct (get_output_dir _ (with_dry_run true self) _ st) as [o st1| |] eqn:Ho; try done.
    destruct (get_output_dir _ (with_dry_run false self) _ st) as [o' st1'| |] eqn:Ho'; try done.
    pose proof (get_output_dir_same _ _ _ _ _ _ Ho Ho') as <-.
    unfold bind at 1 2.
    destruct (get_file_name (with_dry_run true self) _ _ st1) as [n st2| |] eqn:Hn; try done.
    destruct (get_file_name (with_dry_run false self) _ _ st1') as [n' st2'| |] eqn:Hn'; try done.
    pose proof (get_file_name_same _ _ _ _ _ _ _ _ Hn Hn') as <-.
    unfold ret. simpl. by intros [= <- _] [= <- _].
  - unfold bind at 1 2.
    destruct (get_output_dir _ (with_dry_run true self) _ st) as [o st1| |] eqn:Ho; try done.
    destruct (get_output_dir _ (with_dry_run false self) _ st) as [o' st1'| |] eqn:Ho'; try done.
    pose proof (get_output_dir_same _ _ _ _ _ _ Ho Ho') as <-.
    unfold ret. by intros [= <- _] [= <- _].
Qed.

(** The filters do not look at the state. *)
Lemma date_window_alike filename progress fd s s' a a' b b' :
  alike a b ->
  date_window self filename progress fd a = Return s a' ->
  date_window self filename progress fd b = Return s' b' ->
  s = s' /\ alike a' b'.
Proof.
  intros Hal. unfold date_window, bind, ret, raise, logger, modify.
  destruct fd as [|[[t|] sub]|t]; simpl;
    destruct (from_date self) as [fr|], (to_date self) as [to|]; simpl;
    try (destruct (dt_lt t fr) eqn:E1; simpl);
    try (destruct (dt_lt to t) eqn:E2; simpl);
    try done; intros [= <- <-] [= <- <-]; done.
Qed.

Lemma filters_alike filename output name ty fd s s' a a' b b' :
  alike a b ->
  filters self filename output name ty fd a = Return s a' ->
  filters self filename output name ty fd b = Return s' b' ->
  s = s' /\ alike a' b'.
Proof.
  intros Hal. unfold filters.
  destruct (type_mismatch self ty).
  { unfold bind, logger, modify, ret. intros [= <- <-] [= <- <-]. done. }
  destruct (skip_unknown self && _).
  { unfold bind, logger, modify, ret. intros [= <- <-] [= <- <-].
    split; [done|]. destruct Hal as [Hf (?&?&?&?&?)].
    split; [done|]. repeat split; simpl; congruence. }
  destruct (negb _); [by apply date_window_alike|].
  unfold ret. by intros [= <- <-] [= <- <-].
Qed.

(** [place] counts before it acts, and nothing after changes the count. *)
Lemma place_counters (me : Phockup) filename progress name suffix output
      target st st' :
  place me filename progress name suffix output target st = Return tt st' ->
  same_counters (counted me st) st'.
Proof.
  assert (forall original nm sfx out,
             keeps same_counters (process_sidecars me original nm sfx out))
    as Hside.
  { intros. apply keeps_process_sidecars; try apply _; try done. }
  unfold place, counted.
  destruct (move me); [|destruct (link me && negb (dry_run me))].
  - unfold bind at 1, try_except, bind at 1, modify, bind at 1.
    destruct (when _ _ _) as [[] st1|e st1|] eqn:Hw.
    + assert (same_counters (inc_moved st) st1) as H1.
      { destruct (negb (dry_run me)); simpl in Hw.
        - unfold os_call in Hw. destruct (OS.move _ _ _); by simplify_eq.
        - unfold ret in Hw. by simplify_eq. }
      unfold ret. unfold bind at 1, logger, modify.
      pose proof (Hside filename name suffix output
                        (add_log INFO (progress +:+ " => " +:+ target) st1))
        as Hs.
      unfold spec in Hs. destruct (process_sidecars _ _ _ _ _ _); try done.
      intros [= _ <-]. etrans; [exact H1|]. etrans; [|exact Hs]. done.
    + destruct (is_FileNotFoundError e); [|done].
      assert (st1 = inc_moved st) as ->.
      { destruct (negb (dry_run me)); simpl in Hw; [|done].
        unfold os_call in Hw. destruct (OS.move _ _ _); by simplify_eq. }
      unfold missing_source, bind, logger, modify, ret.
      by intros [= <-].
    + destruct (negb (dry_run me)); simpl in Hw; [|done].
      unfold os_call in Hw. by destruct (OS.move _ _ _).
  - unfold bind at 1, bind at 1, os_call.
    destruct (OS.link _ _ _); [|done]. unfold ret, bind at 1, logger, modify.
    pose proof (Hside filename name suffix output
                      (add_log INFO (progress +:+ " => " +:+ target)
                               (with_fs st a))) as Hs.
    unfold spec in Hs. destruct (process_sidecars _ _ _ _ _ _); try done.
    intros [= _ <-]. etrans; [|exact Hs]. done.
  - unfold bind at 1, try_except, bind at 1, modify, bind at 1.
    destruct (when _ _ _) as [[] st1|e st1|] eqn:Hw.
    + assert (same_counters (inc_copied st) st1) as H1.
      { destruct (negb (dry_run me)); simpl in Hw.
        - unfold os_call in Hw. destruct (copy2 _ _ _); by simplify_eq.
        - unfold ret in Hw. by simplify_eq. }
      unfold ret. unfold bind at 1, logger, modify.
      pose proof (Hside filename name suffix output
                        (add_log INFO (progress +:+ " => " +:+ target) st1))
        as Hs.
      unfold spec in Hs. destruct (process_sidecars _ _ _ _ _ _); try done.
      intros [= _ <-]. etrans; [exact H1|]. etrans; [|exact Hs]. done.
    + destruct (is_FileNotFoundError e); [|done].
      assert (st1 = inc_copied st) as ->.
      { destruct (negb (dry_run me)); simpl in Hw; [|done].
        unfold os_call in Hw. destruct (copy2 _ _ _); by simplify_eq. }
      unfold missing_source, bind, logger, modify, ret.
      by intros [= <-].
    + destruct (negb (dry_run me)); simpl in Hw; [|done].
      unfold os_call in Hw. by destruct (copy2 _ _ _).
Qed.

Lemma duplicate_counters (me : Phockup) filename progress target st st' :
  duplicate me filename progress target st = Return tt st' ->
  same_counters (inc_duplicates st) st'.
Proof.
  unfold duplicate. destruct (_ && _).
  - unfold bind, when, os_call, ret, modify, logger.
    destruct (negb (dry_run me)); [destruct (remove _ _)|];
      try done; by intros [= <-].
  - unfold bind, ret, modify, logger. by intros [= <-].
Qed.

Lemma cmp_alike (f f' : FS) source target shallow x y :
  files f = files f' ->
  isfile f target = true ->
  cmp f source target shallow = Ok x ->
  cmp f' source target shallow = Ok y ->
  x = y.
Proof.
  intros Hf Ht. apply isfile_true in Ht as [b Hb].
  unfold cmp. rewrite <- Hf, Hb.
  destruct (files f !! source); [congruence|].
  destruct (_ && _), (_ && _); congruence.
Qed.

Lemma counted_dry_real a b :
  move self = true \/ link self = false ->
  alike a b ->
  same_counters (counted (with_dry_run false self) b) (counted (with_dry_run true self) a).
Proof.
  intros Hmode [_ (?&?&?&?&?)]. unfold counted. simpl.
  destruct (move self); [by repeat split; simpl; congruence|].
  destruct Hmode as [|Hl]; [done|]. rewrite Hl. simpl.
  repeat split; simpl; congruence.
Qed.

Lemma probe_alike filename name fd suffix output target s s' a a' b b' :
  move self = true \/ link self = false ->
  alike a b ->
  probe (with_dry_run true self) filename name fd suffix output target a = Return s a' ->
  probe (with_dry_run false self) filename name fd suffix output target b = Return s' b' ->
  s = s' /\ same_counters b' a'
  /\ (forall fd', s = Next fd' -> alike a' b').
Proof.
  intros Hmode Hal Ha Hb. pose proof Hal as [Hf Hc].
  unfold probe in Ha, Hb.
  unfold bind at 1 in Ha. unfold bind at 1 in Hb.
  unfold get_fs in Ha, Hb. cbv beta iota in Ha, Hb.
  assert (isfile (fs b) target = isfile (fs a) target) as Hsame
      by (unfold isfile; by rewrite Hf).
  rewrite Hsame in Hb.
  destruct (isfile (fs a) target) eqn:Hfile.
  - unfold bind at 1 in Ha. unfold bind at 1 in Hb.
    destruct (negb (bool_decide (filename = target))).
    + unfold os_query in Ha, Hb. simpl in Ha, Hb.
      destruct (cmp (fs a) _ _ _) as [x|] eqn:Hx; [|done].
      destruct (cmp (fs b) _ _ _) as [y|] eqn:Hy; [|done].
      pose proof (cmp_alike _ _ _ _ _ _ _ Hf Hfile Hx Hy) as <-.
      destruct x.
      * unfold bind in Ha, Hb.
        destruct (duplicate (with_dry_run true self) _ _ _ a) as [[] a1| |] eqn:Hd; try done.
        destruct (duplicate (with_dry_run false self) _ _ _ b) as [[] b1| |] eqn:Hr; try done.
        unfold ret in Ha, Hb. injection Ha as <- <-. injection Hb as <- <-.
        apply duplicate_counters in Hd, Hr.
        split; [done|]. split; [|done].
        destruct Hc as (?&?&?&?&?), Hd as (?&?&?&?&?), Hr as (?&?&?&?&?).
        simpl in *. repeat split; congruence.
      * unfold ret in Ha, Hb. injection Ha as <- <-. injection Hb as <- <-.
        done.
    + unfold ret in Ha, Hb. injection Ha as <- <-. injection Hb as <- <-.
      done.
  - unfold bind in Ha, Hb.
    destruct (place (with_dry_run true self) _ _ _ _ _ _ a) as [[] a1| |] eqn:Hd; try done.
    destruct (place (with_dry_run false self) _ _ _ _ _ _ b) as [[] b1| |] eqn:Hr; try done.
    unfold ret in Ha, Hb. injection Ha as <- <-. injection Hb as <- <-.
    apply place_counters in Hd, Hr.
    pose proof (counted_dry_real a b Hmode Hal) as Hcnt.
    split; [done|]. split; [|done].
    destruct Hcnt as (?&?&?&?&?), Hd as (?&?&?&?&?), Hr as (?&?&?&?&?).
    repeat split; congruence.
Qed.

Lemma loop_alike (n : nat) filename output name path ty fd suffix target
      a a' b b' :
  move self = true \/ link self = false ->
  alike a b ->
  collision_loop n (with_dry_run true self) filename output name path ty fd suffix target a
  = Return tt a' ->
  collision_loop n (with_dry_run false self) filename output name path ty fd suffix target b
  = Return tt b' ->
  same_counters b' a'.
Proof.
  intros Hmode. revert fd suffix target a b.
  induction n as [|n IH]; intros fd suffix target a b Hal Ha Hb; [done|].
  cbn [collision_loop] in Ha, Hb.
  unfold bind at 1 in Ha. unfold bind at 1 in Hb.
  unfold loop_body in Ha, Hb.
  unfold bind at 1 in Ha. unfold bind at 1 in Hb.
  change (filters (with_dry_run true self)) with (filters self) in Ha.
  change (filters (with_dry_run false self)) with (filters self) in Hb.
  destruct (filters self _ _ _ _ _ a) as [s1 a1| |] eqn:Hfa; try done.
  destruct (filters self _ _ _ _ _ b) as [s2 b1| |] eqn:Hfb; try done.
  pose proof (filters_alike _ _ _ _ _ _ _ _ _ _ _ Hal Hfa Hfb) as [<- Hal1].
  destruct s1 as [|fd1].
  - unfold ret in Ha, Hb. injection Ha as <-. injection Hb as <-.
    by destruct Hal1.
  - destruct (probe (with_dry_run true self) _ _ _ _ _ _ a1) as [s3 a2| |] eqn:Hpa; try done.
    destruct (probe (with_dry_run false self) _ _ _ _ _ _ b1) as [s4 b2| |] eqn:Hpb; try done.
    pose proof (probe_alike _ _ _ _ _ _ _ _ _ _ _ _ Hmode Hal1 Hpa Hpb)
      as (<- & Hcnt & Hnext).
    destruct s3 as [|fd2].
    + unfold ret in Ha, Hb. injection Ha as <-. by injection Hb as <-.
    + eapply IH; [by eapply Hnext|done..].
Qed.

(** One file, processed from the same state with dry-run on and with
    dry-run off, outside link mode: when both calls return, the five
    counters come out the same. *)
Lemma process_file_dry_real filename st st_d st_r :
  move self = true \/ link self = false ->
  process_file Exif_data Date_from_exif strftime (with_dry_run true self) filename st
  = Return tt st_d ->
  process_file Exif_data Date_from_exif strftime (with_dry_run false self) filename st
  = Return tt st_r ->
  same_counters st_r st_d.
Proof.
  intros Hmode Ha Hb. unfold process_file in Ha, Hb.
  destruct (existsb _ _).
  { unfold ret in Ha, Hb. injection Ha as <-. by injection Hb as <-. }
  unfold bind at 1 in Ha. unfold bind at 1 in Hb.
  destruct (get_file_name_and_path _ _ _ (with_dry_run true self) _ st) as [tup a| |] eqn:Hd;
    try done.
  destruct (get_file_name_and_path _ _ _ (with_dry_run false self) _ st) as [tup' b| |] eqn:Hr;
    try done.
  pose proof (get_file_name_and_path_same _ _ _ _ _ _ Hd Hr) as [<- Hal].
  destruct tup as [[[[output name] path] ty] date].
  unfold bind, get_fs in Ha, Hb.
  assert (loop_bound (fs b) = loop_bound (fs a)) as Hbound
      by (unfold loop_bound; by destruct Hal as [-> _]).
  rewrite Hbound in Hb.
  destruct (collision_loop _ (with_dry_run true self) _ _ _ _ _ _ _ _ a) as [[] a1| |] eqn:Hla;
    try done.
  destruct (collision_loop _ (with_dry_run false self) _ _ _ _ _ _ _ _ b) as [[] b1| |] eqn:Hlb;
    try done.
  pose proof (loop_alike _ _ _ _ _ _ _ _ _ _ _ _ _ Hmode Hal Hla Hlb)
    as (?&?&?&?&?).
  unfold modify in Ha, Hb. injection Ha as <-. injection Hb as <-.
  repeat split; simpl; congruence.
Qed.

End DryAndReal.

(* ===================================================================== *)
(** ** The path builder answers the same in a later state                  *)
(* ===================================================================== *)

Section Later.
Import PyStr OS Run Engine Logic.

Lemma last_step_ok (f : FS) (name : string) :
  isfile f name = false ->
  exists f', match mkdir f name with
             | Ok fs' => Ok fs'
             | Raise e => if negb true || negb (isdir f name) then Raise e
                          else Ok f
             end = Ok f'.
Proof.
  intros Hf. unfold mkdir, exists_. rewrite Hf. simpl.
  destruct (isdir f name); simpl; eauto.
Qed.

(** [makedirs(name, exist_ok=True)] succeeds unless [name] is a regular
    file. *)
Lemma makedirs_rec_ok (n : nat) (f : FS) (name : string) :
  (String.length name <= n)%nat ->
  isfile f name = false ->
  exists f', makedirs_rec n f name true = Ok f'.
Proof.
  revert f name. induction n as [|n IH]; intros f name Hn Hf;
    cbn [makedirs_rec];
    destruct (path_split name) as [head tail] eqn:Hs;
    destruct (if bool_decide (tail = EmptyString) then path_split head
              else (head, tail)) as [hd tl] eqn:Hs2;
    pose proof (second_split_length _ _ _ _ _ Hs Hs2) as Hlen;
    destruct (negb (bool_decide (hd = EmptyString))
              && negb (bool_decide (tl = EmptyString))
              && negb (exists_ f hd)) eqn:Hc;
    try (by apply last_step_ok).
  - exfalso. apply andb_true_iff in Hc as [Hc _].
    apply andb_true_iff in Hc as [Hc _].
    apply negb_true_iff, bool_decide_eq_false in Hc.
    apply length_nonempty in Hc. lia.
  - apply andb_true_iff in Hc as [Hc Hex].
    apply andb_true_iff in Hc as [Hhd Htl].
    apply negb_true_iff, bool_decide_eq_false, length_nonempty in Htl.
    apply negb_true_iff, orb_false_iff in Hex as [Hfh _].
    destruct (IH f hd) as [fs1 Hr]; [lia|done|].
    rewrite Hr. destruct (bool_decide (tl = ".")); [eauto|].
    apply last_step_ok.
    apply makedirs_rec_frame in Hr as (Hfiles & _).
    unfold isfile in *. by rewrite Hfiles.
Qed.

Lemma makedirs_ok (f : FS) (name : string) :
  isfile f name = false -> exists f', makedirs f name true = Ok f'.
Proof. intros. by apply makedirs_rec_ok. Qed.

Lemma exif_source_depends (f f' : FS) (filename : string) :
  files f' !! xmp_original_with_ext filename
  = files f !! xmp_original_with_ext filename ->
  files f' !! xmp_original_without_ext filename
  = files f !! xmp_original_without_ext filename ->
  exif_source f' filename = exif_source f filename.
Proof.
  intros H1 H2. unfold exif_source, xmp_filename, isfile. by rewrite H1, H2.
Qed.

Context (Exif_data : string -> option File -> option (gmap string string)).
Context (Date_from_exif :
           string -> option File -> option (gmap string string) -> bool
           -> option string -> option string -> option DateDict).
Context (strftime : Z -> Z -> Z -> string -> option string).
Context (self : Phockup).

Lemma get_output_dir_later date output st st1 st' :
  get_output_dir strftime self date st = Return output st1 ->
  isfile (fs st') output = false ->
  exists st1', get_output_dir strftime self date st' = Return output st1'.
Proof.
  unfold get_output_dir, bind, ret, raise, get_fs, when, os_call.
  assert (forall segment,
             let fullpath :=
               normpath (join "/" (omap id [Some (output_dir self);
                                            output_prefix self; Some segment;
                                            output_suffix self])) in
             match
               (if negb (isdir (fs st) fullpath) && negb (dry_run self)
                then fun st0 => match makedirs (fs st0) fullpath true with
                                | Ok f => Return () (with_fs st0 f)
                                | Raise e => Raised e st0
                                end
                else fun st0 => Return () st0) st
             with
             | Return _ s => Return fullpath s
             | Raised e s => Raised e s
             | OutOfFuel => OutOfFuel
             end = Return output st1 ->
             isfile (fs st') output = false ->
             exists st1',
               match
                 (if negb (isdir (fs st') fullpath) && negb (dry_run self)
                  then fun st0 => match makedirs (fs st0) fullpath true with
                                  | Ok f => Return () (with_fs st0 f)
                                  | Raise e => Raised e st0
                                  end
                  else fun st0 => Return () st0) st'
               with
               | Return _ s => Return fullpath s
               | Raised e s => Raised e s
               | OutOfFuel => OutOfFuel
               end = Return output st1') as Hcore.
  { intros segment fullpath H Hf.
    assert (fullpath = output) as Ho.
    { destruct (_ && _); [destruct (makedirs _ _ _)|]; by simplify_eq. }
    rewrite Ho in *. clear H.
    destruct (_ && _); [|eauto].
    destruct (makedirs_ok (fs st') output Hf) as [f' ->]. eauto. }
  destruct date as [[[t|] sub]|]; simpl; try done.
  - destruct (strftime _ _ _ _); apply Hcore.
  - apply Hcore.
Qed.

Lemma get_file_name_later original date name st st1 st' :
  get_file_name self original date st = Return name st1 ->
  get_file_name self original date st' = Return name st'.
Proof.
  unfold get_file_name, ret, raise.
  repeat case_match; try done; by intros [= <- _].
Qed.

(** A later state in which the file and its xmp siblings are as they
    were, and the output directory is not a regular file. *)
Lemma get_file_name_and_path_later filename output name path ty date
      st st1 st' :
  get_file_name_and_path Exif_data Date_from_exif strftime self filename st
  = Return (output, name, path, ty, date) st1 ->
  files (fs st') !! filename = files (fs st) !! filename ->
  files (fs st') !! xmp_original_with_ext filename
  = files (fs st) !! xmp_original_with_ext filename ->
  files (fs st') !! xmp_original_without_ext filename
  = files (fs st) !! xmp_original_without_ext filename ->
  isfile (fs st') output = false ->
  exists st1',
    get_file_name_and_path Exif_data Date_from_exif strftime self filename st'
    = Return (output, name, path, ty, date) st1'.
Proof.
  intros Hg Hfile Hx1 Hx2 Hout. revert Hg.
  unfold get_file_name_and_path, bind at 1 5, get_fs. cbv beta iota.
  rewrite (exif_source_depends _ _ _ Hx1 Hx2).
  assert (files (fs st') !! exif_source (fs st) filename
          = files (fs st) !! exif_source (fs st) filename) as ->.
  { unfold exif_source, xmp_filename.
    destruct (isfile (fs st) (xmp_original_without_ext filename));
      [done|destruct (isfile (fs st) (xmp_original_with_ext filename))];
      done. }
  rewrite Hfile.
  destruct (bool_decide _).
  - unfold bind at 1 3.
    destruct (get_output_dir _ _ _ st) as [o s1| |] eqn:Ho; try done.
    unfold bind at 1.
    destruct (get_file_name _ _ _ s1) as [n s2| |] eqn:Hn; try done.
    unfold ret. intros [= <- <- <- <- <- <-].
    destruct (get_output_dir_later _ _ _ _ st' Ho Hout) as [s1' ->].
    unfold bind.
    rewrite (get_file_name_later _ _ _ _ _ s1' Hn). eauto.
  - unfold bind at 1 2.
    destruct (get_output_dir _ _ _ st) as [o s1| |] eqn:Ho; try done.
    unfold ret. intros [= <- <- <- <- <- <-].
    destruct (get_output_dir_later _ _ _ _ st' Ho Hout) as [s1' ->].
    eauto.
Qed.

End Later.

(* ===================================================================== *)
(** ** N files for one target name (C2)                                    *)
(* ===================================================================== *)

Section SameTarget.
Import PyStr OS Run Engine Logic.

Lemma no_sidecars_xmp (f : FS) (filename : string) :
  no_sidecars f filename ->
  files f !! xmp_original_with_ext filename = None
  /\ files f !! xmp_original_without_ext filename = None.
Proof.
  unfold no_sidecars, known_sidecar_extensions, sidecar_originals.
  rewrite !Forall_cons. intros ((H1 & H2 & _) & _). done.
Qed.

Lemma landed_files_other self (m : gmap string File) source target c p :
  p <> target -> p <> source ->
  landed_files self m source target c !! p = m !! p.
Proof.
  intros H1 H2. unfold landed_files. destruct (move self).
  - by rewrite lookup_insert_ne, lookup_delete_ne.
  - by rewrite lookup_insert_ne.
Qed.

Lemma landed_files_none self (m : gmap string File) source target c p :
  p <> target -> m !! p = None ->
  landed_files self m source target c !! p = None.
Proof.
  intros H1 H2. unfold landed_files. destruct (move self).
  - rewrite lookup_insert_ne by done.
    destruct (decide (p = source)) as [->|];
      [apply lookup_delete_eq | by rewrite lookup_delete_ne].
  - by rewrite lookup_insert_ne.
Qed.

Lemma landed_files_some self (m : gmap string File) source target c p :
  is_Some (landed_files self m source target c !! p) ->
  p = target \/ is_Some (m !! p).
Proof.
  destruct (decide (p = target)) as [->|Hne]; [by left|]. right.
  revert H. unfold landed_files. destruct (move self).
  - rewrite lookup_insert_ne by done.
    destruct (decide (p = source)) as [->|];
      [by rewrite lookup_delete_eq; intros [? ?]
      | by rewrite lookup_delete_ne].
  - by rewrite lookup_insert_ne.
Qed.

Lemma fs_landed self st filename progress target c :
  fs (inc_processed (landed self st filename progress target c))
  = set_files (fs st) (landed_files self (files (fs st)) filename target c).
Proof. reflexivity. Qed.

Context (Exif_data : string -> option File -> option (gmap string string)).
Context (Date_from_exif :
           string -> option File -> option (gmap string string) -> bool
           -> option string -> option string -> option DateDict).
Context (strftime : Z -> Z -> Z -> string -> option string).
Context (self : Phockup) (st0 : State) (output name path : string).
Context (all : list string).

Hypothesis Hdry : dry_run self = false.
Hypothesis Hnodup : NoDup all.
Hypothesis Hin :
  forall f, f ∈ all ->
    has_sidecar_ext f = false
    /\ is_Some (files (fs st0) !! f)
    /\ no_sidecars (fs st0) f
    /\ exists ty date st1 fd,
        get_file_name_and_path Exif_data Date_from_exif strftime self f st0
        = Return (output, name, path, ty, date) st1
        /\ filters self f output name ty (date_value date) st0
           = Return (Next fd) st0.
Hypothesis Hdistinct :
  forall f g a b, f ∈ all -> g ∈ all -> f <> g ->
    files (fs st0) !! f = Some a -> files (fs st0) !! g = Some b ->
    cmp_files (use_shallow_cmp self) a b = false.
Hypothesis Hslots :
  forall s, 1 <= s <= Z.of_nat (length all) ->
    exists_ (fs st0) (candidate path s) = false
    /\ forall f ext, f ∈ all -> ext ∈ known_sidecar_extensions ->
                     candidate path s ∉ sidecar_originals f ext.

Lemma input_not_a_slot f s :
  f ∈ all -> 1 <= s <= Z.of_nat (length all) -> f <> candidate path s.
Proof.
  intros Hf Hs ->. destruct (Hin _ Hf) as (_ & [c Hc] & _).
  destruct (Hslots s Hs) as [Hfree _].
  apply exists_false in Hfree as [Hfree _]. congruence.
Qed.

Lemma one_more placed f rest st :
  placed ++ f :: rest = all ->
  slots_filled path output st0 st placed (f :: rest) ->
  exists st',
    process_file Exif_data Date_from_exif strftime self f st = Return tt st'
    /\ slots_filled path output st0 st' (placed ++ [f]) rest.
Proof.
  intros Hall (I1 & I2 & I3 & I4 & I6 & I7).
  assert (length all = length placed + S (length rest))%nat as Hlen
      by (by rewrite <- Hall, length_app).
  assert (forall g, g ∈ placed ++ f :: rest -> g ∈ all) as Hmem
      by (by rewrite Hall).
  assert (f ∈ all) as Hf by (apply Hmem, elem_of_app; right; left).
  destruct (Hin f Hf)
    as (Hext & [c Hc] & Hns0 & ty & date & st0' & fd & Hg0 & Hfil0).
  destruct (I4 f) as [Hfst Hns]; [by left|].
  pose proof (no_sidecars_xmp _ _ Hns0) as [Hx0 Hx0'].
  pose proof (no_sidecars_xmp _ _ Hns) as [Hx Hx'].
  destruct (get_file_name_and_path_later
              Exif_data Date_from_exif strftime self f output name path ty
              date st0 st0' st Hg0) as [st1 Hg];
    [done|congruence|congruence|done|].
  pose proof (get_file_name_and_path_frame _ _ _ _ _ _ _ _ _ _ _ _ Hg)
    as (Hpath & Hframe & Hcnt & Hlog).
  pose proof Hframe as (Hfiles & _).
  set (slot := Z.of_nat (length placed) + 1).
  assert (1 <= slot <= Z.of_nat (length all)) as Hslot by lia.
  assert (exists_ (fs st1) (candidate path slot) = false) as Hfree1.
  { eapply free_after_makedirs; [done..|].
    apply exists_false. split; [apply I2|apply I3];
      rewrite length_app; simpl; lia. }
  assert (files (fs st1) !! f = Some c) as Hc1 by congruence.
  exists (inc_processed
            (landed self st1 f f (candidate path slot) c)).
  split.
  - rewrite (process_file_resolved _ _ _ _ _ _ _ _ _ _ _ _ Hext Hg).
    unfold bind.
    apply (filters_pass _ _ _ _ _ _ _ st0 st1) in Hfil0 as [_ Hfil1].
    rewrite (resolver_free self (length placed) _ _ _ _ _ _ _ _ Hfil1).
    + fold slot. rewrite (place_lands self _ _ _ _ _ _ c); try done.
      apply no_sidecars_landed.
      * by apply (no_sidecars_same_files (fs st)).
      * intros ext Hext'. by apply (Hslots slot Hslot).
    + intros s Hs.
      destruct (lookup_lt_is_Some_2 placed (Z.to_nat (s - 1)))
        as [g Hg']; [lia|].
      assert (g ∈ all) as Hgall.
      { apply Hmem. apply elem_of_app. left. by eapply list_elem_of_lookup_2. }
      destruct (Hin g Hgall) as (_ & [b Hb] & _).
      pose proof (I1 _ _ Hg') as Hs1.
      replace (Z.of_nat (Z.to_nat (s - 1)) + 1) with s in Hs1 by lia.
      assert (f <> g) as Hfg.
      { intros <-. rewrite <- Hall in Hnodup.
        apply NoDup_app in Hnodup as (_ & Hdisj & _).
        apply (Hdisj f); [by eapply list_elem_of_lookup_2 | by left]. }
      split.
      * apply isfile_true. rewrite Hfiles, Hs1, Hb. done.
      * right. rewrite (cmp_regular _ _ _ c b); [|done|congruence].
        f_equal. by apply (Hdistinct f g c b).
    + fold slot. by apply orb_false_iff in Hfree1 as [? _].
  - unfold slots_filled. rewrite fs_landed. cbn [files dirs set_files].
    assert (forall s, 1 <= s <= Z.of_nat (length all) -> s <> slot ->
                      candidate path s <> candidate path slot) as Hinj.
    { intros s _ Hne Heq. by apply candidate_injective in Heq. }
    assert (forall g, g ∈ rest -> g ∈ all) as Hrest.
    { intros g Hg'. apply Hmem, elem_of_app. right. by right. }
    split; [|split; [|split; [|split; [|split]]]].
    + intros i g Hi.
      destruct (decide (i = length placed)) as [->|Hne].
      * rewrite lookup_app_r, Nat.sub_diag in Hi by lia.
        injection Hi as <-. fold slot.
        unfold landed_files. destruct (move self);
          rewrite lookup_insert_eq; congruence.
      * assert (i < length placed)%nat as Hlt.
        { apply lookup_lt_Some in Hi. rewrite length_app in Hi. simpl in Hi.
          lia. }
        rewrite lookup_app_l in Hi by done.
        rewrite landed_files_other; [rewrite Hfiles; by apply I1| |].
        -- apply Hinj; unfold slot; lia.
        -- intros Heq. symmetry in Heq. revert Heq.
           apply input_not_a_slot; [done|lia].
    + intros s Hs. rewrite !length_app in Hs. simpl in Hs.
      apply landed_files_none.
      * apply Hinj; unfold slot; lia.
      * rewrite Hfiles. apply I2. rewrite length_app. simpl. lia.
    + intros s Hs. rewrite <- app_assoc in Hs. simpl in Hs.
      eapply not_dir_after_makedirs; [done..|]. by apply I3.
    + intros g Hg'. split.
      * rewrite landed_files_other.
        -- rewrite Hfiles. apply I4. by right.
        -- apply input_not_a_slot; [by apply Hrest|done].
        -- intros ->. rewrite <- Hall in Hnodup.
           apply NoDup_app in Hnodup as (_ & _ & Hnd).
           apply NoDup_cons in Hnd as [Hnd _]. done.
      * apply no_sidecars_landed.
        -- apply (no_sidecars_same_files (fs st)); [done|].
           apply I4. by right.
        -- intros ext Hext'. apply (Hslots slot Hslot); [|done].
           by apply Hrest.
    + apply isfile_false. apply landed_files_none.
      * intros Heq.
        pose proof (length_candidate path slot) as Hl.
        rewrite <- Heq, Hpath, !str_length_app in Hl. simpl in Hl. lia.
      * rewrite Hfiles. by apply isfile_false.
    + intros p Hp. apply landed_files_some in Hp as [->|Hp].
      * right. exists slot. rewrite length_app. simpl. split; [lia|done].
      * rewrite Hfiles in Hp.
        apply I7 in Hp as [Hp|(s & Hs & ->)]; [by left|right].
        exists s. rewrite length_app. simpl. split; [lia|done].
Qed.

Lemma all_land rest placed st :
  placed ++ rest = all ->
  slots_filled path output st0 st placed rest ->
  exists st',
    for_each rest (process_file Exif_data Date_from_exif strftime self) st
    = Return tt st'
    /\ slots_filled path output st0 st' all [].
Proof.
  revert placed st. induction rest as [|f rest IH]; intros placed st Hall Hinv.
  - rewrite app_nil_r in Hall. subst placed. by exists st.
  - destruct (one_more placed f rest st Hall Hinv) as (st1 & Hp & Hinv1).
    destruct (IH (placed ++ [f]) st1) as (st' & Hrun & Hinv');
      [by rewrite <- app_assoc|done|].
    exists st'. split; [|done].
    cbn [for_each]. unfold bind. by rewrite Hp.
Qed.

Hypothesis Hout : isfile (fs st0) output = false.

Lemma nothing_placed_yet : slots_filled path output st0 st0 [] all.
Proof.
  split; [|split; [|split; [|split; [|split]]]].
  - intros i f Hi. by rewrite lookup_nil in Hi.
  - intros s Hs. simpl in Hs.
    destruct (Hslots s) as [Hfree _]; [lia|].
    by apply exists_false in Hfree as [? _].
  - intros s Hs. simpl in Hs.
    destruct (Hslots s) as [Hfree _]; [lia|].
    by apply exists_false in Hfree as [_ ?].
  - intros f Hf. split; [done|]. by destruct (Hin f Hf) as (_ & _ & ? & _).
  - done.
  - intros p Hp. by left.
Qed.

Lemma slots_are_the_new_files st' :
  slots_filled path output st0 st' all [] ->
  dom (files (fs st')) ∖ dom (files (fs st0))
  = list_to_set (candidate path <$> seqZ 1 (Z.of_nat (length all))).
Proof.
  intros (I1 & _ & _ & _ & _ & I7).
  apply set_eq. intros p.
  rewrite elem_of_difference, !elem_of_dom, elem_of_list_to_set,
    list_elem_of_fmap.
  split.
  - intros [Hp Hnp]. apply I7 in Hp as [Hp|(s & Hs & ->)]; [done|].
    exists s. split; [done|]. apply elem_of_seqZ. lia.
  - intros (s & -> & Hs). apply elem_of_seqZ in Hs.
    destruct (lookup_lt_is_Some_2 all (Z.to_nat (s - 1))) as [f Hf]; [lia|].
    pose proof (I1 _ _ Hf) as Hs1.
    replace (Z.of_nat (Z.to_nat (s - 1)) + 1) with s in Hs1 by lia.
    destruct (Hin f) as (_ & Hsome & _); [by eapply list_elem_of_lookup_2|].
    split; [by rewrite Hs1|].
    destruct (Hslots s) as [Hfree _]; [lia|].
    apply exists_false in Hfree as [Hfree _]. rewrite Hfree.
    by intros [? ?].
Qed.

End SameTarget.

Section SuffixSequence.
Import PyStr OS Run Engine Logic.

Context (Exif_data : string -> option File -> option (gmap string string)).
Context (Date_from_exif :
           string -> option File -> option (gmap string string) -> bool
           -> option string -> option string -> option DateDict).
Context (strftime : Z -> Z -> Z -> string -> option string).

(** C2.  The resolver: with the slots 1 .. [k] of a target path passed
    over (each holds a file that compares different from the source, or is
    the source itself), the loop acts on slot [k + 1] with the counter at
    [k + 1]: it places the file there when the slot is free, and counts a
    duplicate when the slot compares identical.  Slot 1 is the target path
    and slot [s > 1] is [name-s.ext], the suffix just before the
    extension.

    Hence, for [N] inputs with one target path: they are existing files
    without sidecars, not named like sidecars, the filters pass them, any
    two compare different, the run is not a dry run, the [N] slots are
    free at the start and are not places where a sidecar of an input is
    looked for.  Processed one after the other in any order, the [i]-th
    file processed lands in slot [i]; the files that the run adds are
    exactly the [N] slots, which are pairwise distinct. *)
Theorem C2_suffix_sequence
        (self : Phockup) (st0 : State) (output name path : string)
        (inputs order : list string) :
  dry_run self = false ->
  order ≡ₚ inputs ->
  NoDup inputs ->
  (forall f, f ∈ inputs ->
     has_sidecar_ext f = false
     /\ is_Some (files (fs st0) !! f)
     /\ no_sidecars (fs st0) f
     /\ exists ty date st1 fd,
         get_file_name_and_path Exif_data Date_from_exif strftime self f st0
         = Return (output, name, path, ty, date) st1
         /\ filters self f output name ty (date_value date) st0
            = Return (Next fd) st0) ->
  (forall f g a b, f ∈ inputs -> g ∈ inputs -> f <> g ->
     files (fs st0) !! f = Some a -> files (fs st0) !! g = Some b ->
     cmp_files (use_shallow_cmp self) a b = false) ->
  (forall s, 1 <= s <= Z.of_nat (length inputs) ->
     exists_ (fs st0) (candidate path s) = false
     /\ forall f ext, f ∈ inputs -> ext ∈ known_sidecar_extensions ->
                      candidate path s ∉ sidecar_originals f ext) ->
  isfile (fs st0) output = false ->
  (exists st',
      for_each order (process_file Exif_data Date_from_exif strftime self) st0
      = Return tt st'
      /\ (forall (i : nat) f,
             order !! i = Some f ->
             files (fs st') !! candidate path (Z.of_nat i + 1)
             = files (fs st0) !! f)
      /\ dom (files (fs st')) ∖ dom (files (fs st0))
         = list_to_set
             (candidate path <$> seqZ 1 (Z.of_nat (length inputs))))
  /\ NoDup (candidate path <$> seqZ 1 (Z.of_nat (length inputs)))
  /\ candidate path 1 = path
  /\ (forall s, s <> 1 ->
         candidate path s
         = (splitext path).1 +:+ "-" +:+ pretty s +:+ (splitext path).2)
  /\ (forall filename ty fd fd1 st (k : nat),
         filters self filename output name ty fd st = Return (Next fd1) st ->
         (forall s, 1 <= s <= Z.of_nat k ->
                    passed_over self st filename (candidate path s)) ->
         (isfile (fs st) (candidate path (Z.of_nat k + 1)) = false ->
          collision_loop (loop_bound (fs st)) self filename output name path
                         ty fd 1 path st
          = place self filename filename name (Z.of_nat k + 1) output
                  (candidate path (Z.of_nat k + 1)) st)
         /\ (isfile (fs st) (candidate path (Z.of_nat k + 1)) = true ->
             filename <> candidate path (Z.of_nat k + 1) ->
             cmp (fs st) filename (candidate path (Z.of_nat k + 1))
                 (use_shallow_cmp self) = Ok true ->
             collision_loop (loop_bound (fs st)) self filename output name
                            path ty fd 1 path st
             = duplicate self filename filename
                         (candidate path (Z.of_nat k + 1)) st)).
Proof.
  intros Hdry Hperm Hnodup Hin Hdistinct Hslots Hout.
  assert (forall f, f ∈ order <-> f ∈ inputs) as Hmem
      by (intros f; by rewrite Hperm).
  assert (length order = length inputs) as Hlen by (by rewrite Hperm).
  assert (NoDup order) as Hnodup' by (by rewrite Hperm).
  assert (forall f, f ∈ order ->
            has_sidecar_ext f = false
            /\ is_Some (files (fs st0) !! f)
            /\ no_sidecars (fs st0) f
            /\ exists ty date st1 fd,
                get_file_name_and_path Exif_data Date_from_exif strftime
                                       self f st0
                = Return (output, name, path, ty, date) st1
                /\ filters self f output name ty (date_value date) st0
                   = Return (Next fd) st0) as Hin'.
  { intros f Hf. apply Hin. by apply Hmem. }
  assert (forall f g a b, f ∈ order -> g ∈ order -> f <> g ->
            files (fs st0) !! f = Some a -> files (fs st0) !! g = Some b ->
            cmp_files (use_shallow_cmp self) a b = false) as Hdistinct'.
  { intros f g a b Hf Hg. apply Hdistinct; by apply Hmem. }
  assert (forall s, 1 <= s <= Z.of_nat (length order) ->
            exists_ (fs st0) (candidate path s) = false
            /\ forall f ext, f ∈ order -> ext ∈ known_sidecar_extensions ->
                             candidate path s ∉ sidecar_originals f ext)
    as Hslots'.
  { intros s Hs. rewrite Hlen in Hs. destruct (Hslots s Hs) as [H1 H2].
    split; [done|]. intros f ext Hf. apply H2. by apply Hmem. }
  split; [|split; [|split; [|split]]].
  - destruct (all_land Exif_data Date_from_exif strftime self st0 output name
                       path order Hdry Hnodup' Hin' Hdistinct' Hslots'
                       order [] st0 eq_refl) as (st' & Hrun & Hinv).
    { by apply (nothing_placed_yet Exif_data Date_from_exif strftime self
                                   st0 output name path order). }
    exists st'. split; [done|]. split.
    + by destruct Hinv as (I1 & _).
    + rewrite <- Hlen.
      by apply (slots_are_the_new_files Exif_data Date_from_exif strftime
                                        self st0 output name path order).
  - apply NoDup_fmap_2; [intros a b; apply candidate_injective|].
    apply NoDup_seqZ.
  - reflexivity.
  - intros s Hs. unfold candidate. by destruct (Z.eqb_spec s 1).
  - intros filename ty fd fd1 st k Hfil Hocc. split.
    + intros Hfree. by apply (resolver_free self k _ _ _ _ _ fd fd1).
    + intros Hfile Hne Hcmp.
      by apply (resolver_identical self k _ _ _ _ _ fd fd1).
Qed.

End SuffixSequence.

(* ===================================================================== *)
(** ** The processed counter (C3) and dry-run (C5)                         *)
(* ===================================================================== *)

Section CountersAndDryRun.
Import PyStr OS Run Engine Logic.

Context (Exif_data : string -> option File -> option (gmap string string)).
Context (Date_from_exif :
           string -> option File -> option (gmap string string) -> bool
           -> option string -> option string -> option DateDict).
Context (Date_strptime : string -> string -> Result datetime).
Context (strftime : Z -> Z -> Z -> string -> option string).

(** C3, as amended.  Every call of [process_file] ends.  For a name that
    does not end in a sidecar extension, a call that returns (the file was
    placed, found a duplicate, or skipped for any reason) has added
    exactly one to the processed counter.  For a name that ends in [.xmp]
    or [.aae] the call returns at once and the counter, like the rest of
    the state, is as before.  A call that raises leaves the counter as it
    was. *)
Theorem C3_processed_once_unless_sidecar
        (self : Phockup) (filename : string) (st : State) :
  match process_file Exif_data Date_from_exif strftime self filename st with
  | Return _ st' =>
      if has_sidecar_ext filename then st' = st
      else files_processed st' = files_processed st + 1
  | Raised _ st' =>
      has_sidecar_ext filename = false
      /\ files_processed st' = files_processed st
  | OutOfFuel => False
  end.
Proof.
  assert (spec (process_file Exif_data Date_from_exif strftime self filename)
               st
               (fun _ st' =>
                  if has_sidecar_ext filename then st' = st
                  else exists st1,
                      same_processed st st1 /\ st' = inc_processed st1)
               (fun _ st' =>
                  has_sidecar_ext filename = false
                  /\ same_processed st st')) as H
      by (by apply process_file_spec; try apply _).
  unfold spec in H.
  destruct (process_file _ _ _ _ _ _) as [[] st'|e st'|]; [|done..].
  destruct (has_sidecar_ext filename); [done|].
  destruct H as (st1 & H1 & ->). unfold same_processed in H1. simpl. lia.
Qed.

Context (process_files : Phockup -> list string -> M unit).

(** C5, as amended.  With dry-run on and at most one worker, a run adds,
    changes or removes no regular file and adds no directory, however it
    ends; without [--move] it leaves the filesystem exactly as it was.
    (What the cleanup pass of a run with [--move] does to empty
    directories is not part of this statement.)  And for any one file
    processed from one and the same state with dry-run on and with
    dry-run off, outside link mode ([move] set, or [link] not set): when
    both calls return, the dry-run call has left the filesystem as it
    was and the two calls have left the moved and the copied counter,
    and the other three, at the same values. *)
Theorem C5_dry_run_places_nothing_and_counts_each_file
        (input_dir output_dir : string) (args : Args)
        (walk walk_up : list (string * list string * list string)) (f : FS)
        (self : Phockup) (filename : string) (st st_d st_r : State) :
  a_dry_run args = true ->
  a_max_concurrency args <= 1 ->
  move self = true \/ link self = false ->
  process_file Exif_data Date_from_exif strftime (with_dry_run true self)
               filename st = Return tt st_d ->
  process_file Exif_data Date_from_exif strftime (with_dry_run false self)
               filename st = Return tt st_r ->
  match init Exif_data Date_from_exif Date_strptime strftime process_files
             input_dir output_dir args walk walk_up f with
  | Return _ st' | Raised _ st' =>
      files (fs st') = files f
      /\ dirs (fs st') ⊆ dirs f
      /\ (a_move args = false -> fs st' = f)
  | OutOfFuel => False
  end
  /\ fs st_d = fs st
  /\ files_moved st_d = files_moved st_r
  /\ files_copied st_d = files_copied st_r
  /\ files_processed st_d = files_processed st_r
  /\ duplicates_found st_d = duplicates_found st_r
  /\ unknown_found st_d = unknown_found st_r.
Proof.
  intros Hdry Hone Hmode Hd Hr. split; [|split].
  - pose proof (dry_run_init Exif_data Date_from_exif Date_strptime strftime
                             process_files input_dir output_dir args
                             walk walk_up f Hdry Hone) as H1.
    destruct (a_move args) eqn:Hmv.
    + destruct (init _ _ _ _ _ _ _ _ _ _ _) as [[] st'|e st'|];
        [| |done]; destruct H1; by repeat split.
    + pose proof (dry_run_without_move_init
                    Exif_data Date_from_exif Date_strptime strftime
                    process_files input_dir output_dir args
                    walk walk_up f Hdry Hmv Hone) as H2.
      destruct (init _ _ _ _ _ _ _ _ _ _ _) as [[] st'|e st'|];
        [| |done]; destruct H1; by repeat split.
  - assert (keeps same_fs
                  (process_file Exif_data Date_from_exif strftime
                                (with_dry_run true self) filename)) as H
        by (apply keeps_process_file; first [done | apply _]).
    specialize (H st). unfold spec in H. by rewrite Hd in H.
  - pose proof (process_file_dry_real Exif_data Date_from_exif strftime self
                                      filename st st_d st_r Hmode Hd Hr)
      as (?&?&?&?&?).
    by repeat split.
Qed.

End CountersAndDryRun.

(* ===================================================================== *)
(** ** Names of the sidecars (C4)                                          *)
(* ===================================================================== *)

Section SidecarNames.
Import PyStr OS Run Engine Logic Doubles Scenarios.

Lemma elem_of_dict_set (k v : string) (d : list (string * string)) o t :
  (o, t) ∈ dict_set k v d -> (o = k /\ t = v) \/ (o, t) ∈ d.
Proof.
  unfold dict_set. destruct (bool_decide (k ∈ d.*1)).
  - intros H. apply list_elem_of_fmap in H as ([o' t'] & Heq & Hin).
    simpl in Heq. destruct (bool_decide (o' = k)); simplify_eq; auto.
  - intros H. apply elem_of_app in H as [H|H]; [by right|].
    apply list_elem_of_singleton in H. simplify_eq. by left.
Qed.

Lemma dict_set_keys (k v : string) (d : list (string * string)) o :
  o ∈ (dict_set k v d).*1 <-> o = k \/ o ∈ d.*1.
Proof.
  unfold dict_set. destruct (bool_decide (k ∈ d.*1)) eqn:Hk.
  - apply bool_decide_eq_true in Hk.
    rewrite <- list_fmap_compose.
    assert (((fst ∘ (fun kv : string * string =>
                       if bool_decide (kv.1 = k) then (k, v) else kv)) <$> d)
            = d.*1) as ->.
    { apply list_fmap_ext. intros i [o' t'] _. simpl.
      destruct (bool_decide (o' = k)) eqn:E; [|done].
      by apply bool_decide_eq_true in E. }
    split; [by right|]. by intros [->|].
  - rewrite fmap_app, elem_of_app. simpl. rewrite list_elem_of_singleton.
    tauto.
Qed.



End SidecarNames.

(* ===================================================================== *)
(** ** The theorems at concrete inputs                                     *)
(* ===================================================================== *)

Section Witnesses.
Import PyStr OS Run Engine Logic Doubles Scenarios Cases.

(** C9 at a concrete input: move mode, [a.jpg] gone before its turn. *)
Lemma C9_witness :
  files (fs (initial_state fs_vanished)) !! "/in/a.jpg" = None
  /\ exists st',
      process_file catalogue (self_of (with_mode true false false))
                   "/in/a.jpg" (initial_state fs_vanished)
      = Return tt st'
      /\ files (fs st') = files fs_vanished
      /\ files_moved st' = 0 + 1
      /\ files_copied st' = 0 + 0
      /\ files_processed st' = 0 + 1
      /\ last (log st')
         = Some (WARNING,
                 "/in/a.jpg" +:+ " => skipped, no such file or directory").
Proof.
  split; [vm_compute; reflexivity|].
  apply (C9_counter_runs_ahead_of_placement
           (Exif_data catalogue) (Date_from_exif catalogue) strftime
           (self_of (with_mode true false false)) "/in/a.jpg"
           "/out/unknown" "a.jpg" "/out/unknown/a.jpg" None None FD_None
           (initial_state fs_vanished) (initial_state fs_vanished)).
  - reflexivity.
  - left. reflexivity.
  - vm_compute. reflexivity.
  - vm_compute. reflexivity.
  - vm_compute. reflexivity.
  - vm_compute. reflexivity.
  - vm_compute. reflexivity.
Defined.

(** C10 at two concrete inputs, copy mode: a photograph that sits at its
    own target path with [-2] free, and the same photograph after that
    run, with its copy at [-2]. *)
Lemma C10_witness :
  (exists st',
      process_file in_place_catalogue
                   (attributes "/out" "/out" (with_mode false false false)
                               None None)
                   target (initial_state fs_in_place)
      = Return tt st'
      /\ duplicates_found st' = 0
      /\ files (fs st') !! suffixed target 2 = Some (file [Byte.x01] 5)
      /\ (false = false -> files (fs st') !! target = Some (file [Byte.x01] 5))
      /\ files_processed st' = 0 + 1)
  /\ (exists st',
         process_file in_place_catalogue
                      (attributes "/out" "/out" (with_mode false false false)
                                  None None)
                      target (initial_state fs_in_place_again)
         = Return tt st'
         /\ duplicates_found st' = 0 + 1
         /\ files_processed st' = 0 + 1
         /\ files_moved st' = 0
         /\ files_copied st' = 0
         /\ files (fs st') ⊆ files fs_in_place_again
         /\ (forall p, p <> target ->
                       files (fs st') !! p = files fs_in_place_again !! p)).
Proof.
  split.
  - pose proof (C10_own_path_is_not_a_duplicate
                  (Exif_data in_place_catalogue)
                  (Date_from_exif in_place_catalogue) strftime
                  (attributes "/out" "/out" (with_mode false false false)
                              None None)
                  target "/out/2023/03/04" "20230304-101530.jpg"
                  (Some "image") (Some t_2023_03_04)
                  (FD_Datetime (mkDT 2023 3 4 10 15 30 0)) 0
                  (file [Byte.x01] 5)
                  (initial_state fs_in_place) (initial_state fs_in_place))
      as H.
    destruct H as [H _].
    + vm_compute. reflexivity.
    + vm_compute. reflexivity.
    + vm_compute. reflexivity.
    + vm_compute. reflexivity.
    + intros s Hs. lia.
    + apply H.
      * reflexivity.
      * vm_compute. reflexivity.
      * apply (bool_decide_unpack _). vm_compute. exact I.
      * assert (Forall (fun ext => suffixed target (Z.of_nat 0 + 2)
                                     ∉ sidecar_originals target ext)
                       known_sidecar_extensions) as HF
            by (apply (bool_decide_unpack _); vm_compute; exact I).
        rewrite Forall_forall in HF. exact HF.
  - pose proof (C10_own_path_is_not_a_duplicate
                  (Exif_data in_place_catalogue)
                  (Date_from_exif in_place_catalogue) strftime
                  (attributes "/out" "/out" (with_mode false false false)
                              None None)
                  target "/out/2023/03/04" "20230304-101530.jpg"
                  (Some "image") (Some t_2023_03_04)
                  (FD_Datetime (mkDT 2023 3 4 10 15 30 0)) 0
                  (file [Byte.x01] 5)
                  (initial_state fs_in_place_again)
                  (initial_state fs_in_place_again))
      as H.
    destruct H as [_ H].
    + vm_compute. reflexivity.
    + vm_compute. reflexivity.
    + vm_compute. reflexivity.
    + vm_compute. reflexivity.
    + intros s Hs. lia.
    + apply H. vm_compute. reflexivity.
Defined.

(** C8 at a concrete input: [IMG_0001.JPG] with [IMG_0001.JPG.xmp].  The
    reader says of the photograph that it is a JPEG image of 1999, a
    date the resolver does not know, and of the sidecar that it is an
    XMP file of 2023: the type returned is ['xmp'] and the date is the
    one of 2023.  A second reader, which disagrees about the photograph
    only, gives the same result. *)
Lemma C8_witness :
  bool_decide
    (Exif_data other_catalogue "/in/IMG_0001.JPG"
               (files fs_sidecar !! "/in/IMG_0001.JPG")
     = Exif_data catalogue "/in/IMG_0001.JPG"
                 (files fs_sidecar !! "/in/IMG_0001.JPG")) = false
  /\ get_file_name_and_path (Exif_data catalogue)
                            (Date_from_exif other_catalogue) strftime
                            (self_of (with_mode false false false))
                            "/in/IMG_0001.JPG" (initial_state fs_sidecar)
     = get_file_name_and_path (Exif_data other_catalogue)
                              (Date_from_exif other_catalogue) strftime
                              (self_of (with_mode false false false))
                              "/in/IMG_0001.JPG" (initial_state fs_sidecar)
  /\ exists output name path st1,
      get_file_name_and_path (Exif_data other_catalogue)
                             (Date_from_exif other_catalogue) strftime
                             (self_of (with_mode false false false))
                             "/in/IMG_0001.JPG" (initial_state fs_sidecar)
      = Return (output, name, path, Some "xmp", Some t_2023_03_04) st1.
Proof.
  split; [vm_compute; reflexivity|].
  pose proof (C8_metadata_read_from_xmp_sidecar
                (Exif_data other_catalogue) (Exif_data catalogue)
                (Date_from_exif other_catalogue) strftime
                (self_of (with_mode false false false))
                "/in/IMG_0001.JPG" "/in/IMG_0001.JPG.xmp"
                (initial_state fs_sidecar)) as H.
  destruct H as [Hsame Hfrom].
  - right. split; [reflexivity|]. split; vm_compute; reflexivity.
  - vm_compute. reflexivity.
  - split; [exact Hsame|].
    destruct (get_file_name_and_path (Exif_data other_catalogue) _ _ _ _ _)
      as [[[[[output name] path] ty] date] st1|e st1|] eqn:Hrun.
    + destruct (Hfrom output name path ty date st1 eq_refl) as [Hty Hdate].
      exists output, name, path, st1.
      assert (ty = Some "xmp") as -> by (rewrite Hty; vm_compute; reflexivity).
      assert (date = Some t_2023_03_04) as ->
          by (rewrite Hdate; vm_compute; reflexivity).
      reflexivity.
    + vm_compute in Hrun. discriminate Hrun.
    + vm_compute in Hrun. discriminate Hrun.
Defined.

(** C5 at a concrete input: the twins in copy mode, the whole run and
    [a.jpg] alone. *)
Lemma C5_witness :
  match init catalogue "/in" "/out" (with_mode false false true)
             (walk_in ["a.jpg"; "b.jpg"]) [] fs_twins with
  | Return _ st' | Raised _ st' =>
      files (fs st') = files fs_twins
      /\ dirs (fs st') ⊆ dirs fs_twins
      /\ (a_move (with_mode false false true) = false -> fs st' = fs_twins)
  | OutOfFuel => False
  end
  /\ fs (state_of (process_file catalogue
                                (with_dry_run true
                                   (self_of (with_mode false false false)))
                                "/in/a.jpg" (initial_state fs_twins)))
     = fs_twins
  /\ files_copied
       (state_of (process_file catalogue
                               (with_dry_run true
                                  (self_of (with_mode false false false)))
                               "/in/a.jpg" (initial_state fs_twins)))
     = files_copied
         (state_of (process_file catalogue
                                 (with_dry_run false
                                    (self_of (with_mode false false false)))
                                 "/in/a.jpg" (initial_state fs_twins))).
Proof.
  pose proof (C5_dry_run_places_nothing_and_counts_each_file
                (Exif_data catalogue) (Date_from_exif catalogue)
                Date_strptime strftime (process_files catalogue)
                "/in" "/out" (with_mode false false true)
                (walk_in ["a.jpg"; "b.jpg"]) [] fs_twins
                (self_of (with_mode false false false)) "/in/a.jpg"
                (initial_state fs_twins)
                (state_of (process_file catalogue
                             (with_dry_run true
                                (self_of (with_mode false false false)))
                             "/in/a.jpg" (initial_state fs_twins)))
                (state_of (process_file catalogue
                             (with_dry_run false
                                (self_of (with_mode false false false)))
                             "/in/a.jpg" (initial_state fs_twins)))) as H.
  destruct H as (Hrun & Hfs & _ & Hcopied & _).
  - reflexivity.
  - vm_compute. discriminate.
  - right. reflexivity.
  - vm_compute. reflexivity.
  - vm_compute. reflexivity.
  - split; [exact Hrun|]. split; [exact Hfs | exact Hcopied].
Defined.

(** C2 at a concrete input: [a.jpg] and [b.jpg], different bytes, same
    second, processed [b.jpg] first. *)
Lemma C2_witness :
  exists st',
    for_each ["/in/b.jpg"; "/in/a.jpg"]
             (process_file catalogue (self_of (with_mode false false false)))
             (initial_state fs_pair)
    = Return tt st'
    /\ files (fs st') !! target = files fs_pair !! "/in/b.jpg"
    /\ files (fs st') !! target_2 = files fs_pair !! "/in/a.jpg"
    /\ dom (files (fs st')) ∖ dom (files fs_pair)
       = list_to_set [target; target_2].
Proof.
  destruct (C2_suffix_sequence
              (Exif_data catalogue) (Date_from_exif catalogue) strftime
              (self_of (with_mode false false false))
              (initial_state fs_pair)
              "/out/2023/03/04" "20230304-101530.jpg" target
              ["/in/a.jpg"; "/in/b.jpg"] ["/in/b.jpg"; "/in/a.jpg"])
    as ((st' & Hrun & Hland & Hnew) & _).
  - reflexivity.
  - apply perm_swap.
  - apply (bool_decide_unpack _). vm_compute. exact I.
  - apply Forall_forall.
    apply Forall_cons; split;
      [|apply Forall_cons; split; [|apply Forall_nil; exact I]].
    + split; [vm_compute; reflexivity|].
      split; [exists (file [Byte.x01] 5); vm_compute; reflexivity|].
      split; [apply (bool_decide_unpack _); vm_compute; exact I|].
      exists (Some "image"), (Some t_2023_03_04),
        (state_of (get_file_name_and_path
                     (Exif_data catalogue) (Date_from_exif catalogue) strftime
                     (self_of (with_mode false false false)) "/in/a.jpg"
                     (initial_state fs_pair))),
        (FD_Datetime (mkDT 2023 3 4 10 15 30 0)).
      split; vm_compute; reflexivity.
    + split; [vm_compute; reflexivity|].
      split; [exists (file [Byte.x02] 5); vm_compute; reflexivity|].
      split; [apply (bool_decide_unpack _); vm_compute; exact I|].
      exists (Some "image"), (Some t_2023_03_04),
        (state_of (get_file_name_and_path
                     (Exif_data catalogue) (Date_from_exif catalogue) strftime
                     (self_of (with_mode false false false)) "/in/b.jpg"
                     (initial_state fs_pair))),
        (FD_Datetime (mkDT 2023 3 4 10 15 30 0)).
      split; vm_compute; reflexivity.
  - intros f g a b Hf Hg Hne Ha Hb.
    apply elem_of_cons in Hf as [->|Hf];
      [|apply elem_of_cons in Hf as [->|Hf];
        [|apply elem_of_nil in Hf; destruct Hf]];
      (apply elem_of_cons in Hg as [->|Hg];
       [|apply elem_of_cons in Hg as [->|Hg];
         [|apply elem_of_nil in Hg; destruct Hg]]);
      try (exfalso; apply Hne; reflexivity);
      vm_compute in Ha; vm_compute in Hb;
      injection Ha as <-; injection Hb as <-; vm_compute; reflexivity.
  - intros s Hs.
    assert (Forall (fun s =>
                      exists_ (fs (initial_state fs_pair)) (candidate target s)
                      = false
                      /\ Forall (fun f =>
                                   Forall (fun ext =>
                                             candidate target s
                                             ∉ sidecar_originals f ext)
                                          known_sidecar_extensions)
                                ["/in/a.jpg"; "/in/b.jpg"])
                   [1; 2]) as HF
        by (apply (bool_decide_unpack _); vm_compute; exact I).
    rewrite Forall_forall in HF.
    destruct (HF s) as [H1 H2].
    { change (Z.of_nat (length ["/in/a.jpg"; "/in/b.jpg"])) with 2 in Hs.
      assert (s = 1 \/ s = 2) as [->| ->] by lia;
        [by left | right; by left]. }
    split; [exact H1|]. intros f ext Hf Hext.
    rewrite Forall_forall in H2. specialize (H2 f Hf).
    rewrite Forall_forall in H2. exact (H2 ext Hext).
  - vm_compute. reflexivity.
  - exists st'. split; [exact Hrun|].
    split; [exact (Hland 0%nat "/in/b.jpg" eq_refl)|].
    split; [exact (Hland 1%nat "/in/a.jpg" eq_refl)|].
    exact Hnew.
Defined.

End Witnesses.

(* ===================================================================== *)
(** ** Files the filters turn away                                         *)
(* ===================================================================== *)

Section Skips.
Import PyStr OS Run Engine Logic Effects.

Context (Exif_data : string -> option File -> option (gmap string string)).
Context (Date_from_exif :
           string -> option File -> option (gmap string string) -> bool
           -> option string -> option string -> option DateDict).
Context (strftime : Z -> Z -> Z -> string -> option string).
Context (self : Phockup).

Lemma loop_break (n : nat) filename output name path ty fd suffix target
      st st' :
  filters self filename output name ty fd st = Return Break st' ->
  collision_loop (S n) self filename output name path ty fd suffix target st
  = Return tt st'.
Proof.
  intros H. cbn [collision_loop]. unfold bind at 1, loop_body, bind at 1.
  by rewrite H.
Qed.

(** A file the filters stop is counted as processed and nothing else
    happens after the filters. *)
Lemma skipped_call filename output name path ty date st st1 st2 :
  has_sidecar_ext filename = false ->
  get_file_name_and_path Exif_data Date_from_exif strftime self filename st
  = Return (output, name, path, ty, date) st1 ->
  filters self filename output name ty (date_value date) st1
  = Return Break st2 ->
  process_file Exif_data Date_from_exif strftime self filename st
  = Return tt (inc_processed st2).
Proof.
  intros Hext Hg Hf.
  rewrite (process_file_resolved _ _ _ _ _ _ _ _ _ _ _ _ Hext Hg).
  unfold bind, loop_bound. by rewrite (loop_break _ _ _ _ _ _ _ _ _ _ _ Hf).
Qed.

(** X1.  With [--file-type] set, a file of another type, or of no
    recognised type, is not placed: the call returns, the regular files
    are those of before, only the processed counter moves, and one record
    is logged.  The output directory computed for the file may have been
    created. *)
Theorem other_file_type_is_skipped
        (filename output name path ft : string) (ty : option string)
        (date : option DateDict) (st st1 : State) :
  has_sidecar_ext filename = false ->
  file_type self = Some ft ->
  ty <> Some ft ->
  get_file_name_and_path Exif_data Date_from_exif strftime self filename st
  = Return (output, name, path, ty, date) st1 ->
  exists st',
    process_file Exif_data Date_from_exif strftime self filename st
    = Return tt st'
    /\ files (fs st') = files (fs st)
    /\ dirs (fs st) ⊆ dirs (fs st')
    /\ files_processed st' = files_processed st + 1
    /\ outcomes_unchanged st st'
    /\ log st'
       = log st ++ [(INFO, filename +:+ " => skipped, file is '"
                             +:+ opt_str ty +:+ "' but looking for '"
                             +:+ ft +:+ "'")].
Proof.
  intros Hext Hft Hty Hg.
  pose proof (get_file_name_and_path_frame _ _ _ _ _ _ _ _ _ _ _ _ Hg)
    as (_ & (Hfiles & Hdirs & _) & Hcnt & Hlog).
  eexists. split.
  - eapply skipped_call; [exact Hext | exact Hg |].
    unfold filters, type_mismatch. rewrite Hft.
    rewrite bool_decide_eq_false_2 by congruence. simpl.
    unfold bind, logger, modify, ret. reflexivity.
  - destruct Hcnt as (Hp & Hd & Hu & Hm & Hc). simpl.
    unfold outcomes_unchanged. simpl. rewrite Hlog.
    repeat split; try done; lia.
Qed.

(** X2.  With [--skip-unknown], a file whose output directory ends in the
    name of the no-date directory is not placed: the unknown counter and
    the processed counter move by one, the regular files are those of
    before, and one record is logged. *)
Theorem unknown_date_is_skipped
        (filename output name path : string) (ty : option string)
        (date : option DateDict) (st st1 : State) :
  has_sidecar_ext filename = false ->
  skip_unknown self = true ->
  type_mismatch self ty = false ->
  get_file_name_and_path Exif_data Date_from_exif strftime self filename st
  = Return (output, name, path, ty, date) st1 ->
  endswith output (no_date_dir self) = true ->
  exists st',
    process_file Exif_data Date_from_exif strftime self filename st
    = Return tt st'
    /\ files (fs st') = files (fs st)
    /\ dirs (fs st) ⊆ dirs (fs st')
    /\ files_processed st' = files_processed st + 1
    /\ unknown_found st' = unknown_found st + 1
    /\ duplicates_found st' = duplicates_found st
    /\ files_moved st' = files_moved st
    /\ files_copied st' = files_copied st
    /\ log st'
       = log st
         ++ [(INFO, filename
                      +:+ " => skipped, unknown date EXIF information for '"
                      +:+ name +:+ "'")].
Proof.
  intros Hext Hskip Hty Hg Hend.
  pose proof (get_file_name_and_path_frame _ _ _ _ _ _ _ _ _ _ _ _ Hg)
    as (_ & (Hfiles & Hdirs & _) & Hcnt & Hlog).
  eexists. split.
  - eapply skipped_call; [exact Hext | exact Hg |].
    unfold filters. rewrite Hty, Hskip, Hend. simpl.
    unfold bind, logger, modify, ret. reflexivity.
  - destruct Hcnt as (Hp & Hd & Hu & Hm & Hc). simpl. rewrite Hlog.
    repeat split; try done; lia.
Qed.


(** X4.  A duplicate.  The slots before slot [k + 1] hold files that
    compare different, slot [k + 1] holds a file that compares identical
    to the source.  The call returns; the duplicate counter and the
    processed counter move by one; no file is written, the slot included,
    and no sidecar is placed: the only change among the regular files is
    the removal of the source, in move mode with [--skip-unknown] outside
    dry-run (the [movedel] attribute being truthy). *)
Theorem duplicate_is_counted_not_placed
        (k : nat) (filename output name path : string) (ty : option string)
        (date : option DateDict) (fd : FileDate) (c : File)
        (st st1 : State) :
  has_sidecar_ext filename = false ->
  files (fs st) !! filename = Some c ->
  get_file_name_and_path Exif_data Date_from_exif strftime self filename st
  = Return (output, name, path, ty, date) st1 ->
  filters self filename output name ty (date_value date) st
  = Return (Next fd) st ->
  (forall s, 1 <= s <= Z.of_nat k ->
             passed_over self st filename (candidate path s)) ->
  filename <> candidate path (Z.of_nat k + 1) ->
  cmp (fs st) filename (candidate path (Z.of_nat k + 1))
      (use_shallow_cmp self) = Ok true ->
  exists st',
    process_file Exif_data Date_from_exif strftime self filename st
    = Return tt st'
    /\ files (fs st')
       = (if tuple_truth (movedel self) && move self && skip_unknown self
             && negb (dry_run self)
          then delete filename (files (fs st)) else files (fs st))
    /\ files_processed st' = files_processed st + 1
    /\ duplicates_found st' = duplicates_found st + 1
    /\ unknown_found st' = unknown_found st
    /\ files_moved st' = files_moved st
    /\ files_copied st' = files_copied st
    /\ log st'
       = log st
         ++ [(INFO,
              filename
                +:+ (if tuple_truth (movedel self) && move self
                        && skip_unknown self
                     then " => deleted, duplicated file "
                     else " => skipped, duplicated file ")
                +:+ candidate path (Z.of_nat k + 1))].
Proof.
  intros Hext Hsrc Hg Hfil Hocc Hne Hcmp.
  pose proof (get_file_name_and_path_frame _ _ _ _ _ _ _ _ _ _ _ _ Hg)
    as (_ & (Hfiles & Hdirs & _) & Hcnt & Hlog).
  set (slot := candidate path (Z.of_nat k + 1)) in *.
  assert (exists b, files (fs st) !! slot = Some b
                    /\ cmp_files (use_shallow_cmp self) c b = true)
    as (b & Hb & Hcb).
  { unfold cmp in Hcmp. rewrite Hsrc in Hcmp.
    destruct (files (fs st) !! slot) as [b|] eqn:Hb.
    - exists b. split; [done|]. by injection Hcmp.
    - by destruct (isdir (fs st) slot). }
  rewrite (process_file_resolved _ _ _ _ _ _ _ _ _ _ _ _ Hext Hg).
  unfold bind.
  apply (filters_pass _ _ _ _ _ _ _ st st1) in Hfil as [_ Hfil1].
  rewrite (resolver_identical self k _ _ _ _ _ _ _ _ Hfil1); cycle 1.
  - intros s Hs.
    apply (passed_over_same_files self st st1 _ _ c); try done. by apply Hocc.
  - apply isfile_true. fold slot. rewrite Hfiles. by rewrite Hb.
  - done.
  - fold slot. rewrite (cmp_regular _ _ _ c b) by (by rewrite Hfiles).
    by rewrite Hcb.
  - fold slot. destruct Hcnt as (Hp & Hd & Hu & Hm & Hc).
    unfold duplicate.
    destruct (tuple_truth (movedel self) && move self && skip_unknown self)
      eqn:Hdel; simpl.
    + destruct (dry_run self); simpl.
      * unfold bind, when, ret, modify, logger. simpl.
        eexists. split; [reflexivity|]. simpl. rewrite Hlog.
        repeat split; try done; lia.
      * unfold bind, when, os_call, remove, isfile.
        rewrite bool_decide_eq_true_2 by (by rewrite Hfiles, Hsrc).
        unfold ret, modify, logger. simpl.
        eexists. split; [reflexivity|]. simpl. rewrite Hlog, Hfiles.
        repeat split; try done; lia.
    + unfold bind, ret, modify, logger. simpl.
      eexists. split; [reflexivity|]. simpl. rewrite Hlog.
      repeat split; try done; lia.
Qed.

End Skips.

Section SkipsAtInputs.
Import PyStr OS Run Engine Logic Effects Doubles Scenarios Cases.

(** A photograph, with [--file-type video]. *)
Lemma other_file_type_witness :
  exists st',
    process_file catalogue
                 (attributes "/in" "/out" (with_filters false (Some "video"))
                             None None)
                 "/in/a.jpg" (initial_state fs_pair)
    = Return tt st'
    /\ files (fs st') = files fs_pair
    /\ files_processed st' = 0 + 1
    /\ log st'
       = [(INFO, "/in/a.jpg => skipped, file is 'image' but looking for 'video'")].
Proof.
  destruct (other_file_type_is_skipped
              (Exif_data catalogue) (Date_from_exif catalogue) strftime
              (attributes "/in" "/out" (with_filters false (Some "video"))
                          None None)
              "/in/a.jpg" "/out/2023/03/04" "20230304-101530.jpg" target
              "video" (Some "image") (Some t_2023_03_04)
              (initial_state fs_pair)
              (state_of (get_file_name_and_path
                           (Exif_data catalogue) (Date_from_exif catalogue)
                           strftime
                           (attributes "/in" "/out"
                                       (with_filters false (Some "video"))
                                       None None)
                           "/in/a.jpg" (initial_state fs_pair))))
    as (st' & Hrun & Hfiles & _ & Hp & _ & Hlog).
  - vm_compute. reflexivity.
  - reflexivity.
  - discriminate.
  - vm_compute. reflexivity.
  - exists st'. repeat split; assumption.
Defined.

(** A text file the metadata reader knows nothing of, with
    [--skip-unknown]. *)
Lemma unknown_date_witness :
  exists st',
    process_file catalogue
                 (attributes "/in" "/out" (with_filters true None) None None)
                 "/in/notes.txt" (initial_state fs_notes)
    = Return tt st'
    /\ files (fs st') = files fs_notes
    /\ files_processed st' = 0 + 1
    /\ unknown_found st' = 0 + 1.
Proof.
  destruct (unknown_date_is_skipped
              (Exif_data catalogue) (Date_from_exif catalogue) strftime
              (attributes "/in" "/out" (with_filters true None) None None)
              "/in/notes.txt" "/out/unknown" "notes.txt"
              "/out/unknown/notes.txt" None None
              (initial_state fs_notes)
              (state_of (get_file_name_and_path
                           (Exif_data catalogue) (Date_from_exif catalogue)
                           strftime
                           (attributes "/in" "/out" (with_filters true None)
                                       None None)
                           "/in/notes.txt" (initial_state fs_notes))))
    as (st' & Hrun & Hfiles & _ & Hp & Hu & _).
  - vm_compute. reflexivity.
  - reflexivity.
  - reflexivity.
  - vm_compute. reflexivity.
  - vm_compute. reflexivity.
  - exists st'. repeat split; assumption.
Defined.


(** [a.jpg], whose bytes are already at the target, in
    [--move --skip-unknown]. *)
Lemma duplicate_witness :
  exists st',
    process_file catalogue (self_of move_skip_unknown) "/in/a.jpg"
                 (initial_state fs_duplicate)
    = Return tt st'
    /\ files (fs st') = delete "/in/a.jpg" (files fs_duplicate)
    /\ duplicates_found st' = 0 + 1
    /\ files_moved st' = 0.
Proof.
  destruct (duplicate_is_counted_not_placed
              (Exif_data catalogue) (Date_from_exif catalogue) strftime
              (self_of move_skip_unknown) 0
              "/in/a.jpg" "/out/2023/03/04" "20230304-101530.jpg" target
              (Some "image") (Some t_2023_03_04)
              (FD_Datetime (mkDT 2023 3 4 10 15 30 0))
              (file [Byte.x01] 5)
              (initial_state fs_duplicate)
              (state_of (get_file_name_and_path
                           (Exif_data catalogue) (Date_from_exif catalogue)
                           strftime (self_of move_skip_unknown)
                           "/in/a.jpg" (initial_state fs_duplicate))))
    as (st' & Hrun & Hfiles & _ & Hd & _ & Hm & _).
  - vm_compute. reflexivity.
  - vm_compute. reflexivity.
  - vm_compute. reflexivity.
  - vm_compute. reflexivity.
  - intros s Hs. lia.
  - vm_compute. discriminate.
  - vm_compute. reflexivity.
  - exists st'. repeat split; assumption.
Defined.

End SkipsAtInputs.

(* ===================================================================== *)
(** ** The cleanup pass                                                     *)
(* ===================================================================== *)

Section Cleanup.
Import PyStr OS Run Engine Logic Effects.

(** A loop whose body always returns, returns. *)
Lemma for_each_returns {A} (R : State -> State -> Prop) `{!PreOrder R}
      (xs : list A) (body : A -> M unit) :
  (forall x st, x ∈ xs -> exists st', body x st = Return tt st' /\ R st st') ->
  forall st, exists st', for_each xs body st = Return tt st' /\ R st st'.
Proof.
  induction xs as [|x xs IH]; intros H st; simpl.
  - exists st. done.
  - destruct (H x st) as (st1 & Hx & H1); [left|].
    destruct (IH (fun y st Hy => H y st (list_elem_of_further _ _ _ Hy)) st1)
      as (st2 & Hxs & H2).
    exists st2. unfold bind. rewrite Hx. split; [done | by etrans].
Qed.

Context (self : Phockup) (listed : list string).

Global Instance cleaned_preorder : PreOrder (cleaned self listed).
Proof.
  split.
  - intros st. unfold cleaned, same_counters. repeat split; done.
  - intros a b c (Hf1 & Hd1 & Hc1 & Hr1) (Hf2 & Hd2 & Hc2 & Hr2).
    split; [congruence|]. split; [etrans; [exact Hd2 | exact Hd1]|]. split.
    { unfold same_counters in *.
      destruct Hc1 as (?&?&?&?&?), Hc2 as (?&?&?&?&?).
      repeat split; congruence. }
    intros d Hd Hnd. destruct (decide (d ∈ dirs (fs b))) as [Hb|Hb].
    + destruct (Hr2 d Hb Hnd) as (? & ? & Hn). repeat split; try done.
      intros q Hq. apply Hn. by rewrite Hf1.
    + exact (Hr1 d Hd Hb).
Qed.

Lemma has_entries_file (f : FS) (d q : string) :
  is_Some (files f !! q) -> entry_of d q -> has_entries f d = true.
Proof.
  intros Hq He. unfold has_entries. apply bool_decide_eq_true.
  exists q. split; [|done]. apply elem_of_union. left. by apply elem_of_dom.
Qed.

(** One directory of the bottom-up walk. *)
Lemma rm_one (dir_path : string) (st : State) :
  dir_path ∈ listed ->
  get_depth self dir_path <= stop_depth self ->
  exists st',
    try_except
      (os_call (fun f => rmdir f dir_path) ;;;
       logger INFO ("Deleted empty directory: " +:+ dir_path))
      is_OSError
      (fun e => logger INFO (strerror e +:+ " - " +:+ dir_path
                               +:+ " not deleted.")) st
    = Return tt st'
    /\ cleaned self listed st st'.
Proof.
  intros Hl Hdepth. unfold try_except, bind, os_call, rmdir.
  destruct (isdir (fs st) dir_path) eqn:Hd.
  - destruct (has_entries (fs st) dir_path) eqn:He; simpl.
    + eexists. split; [reflexivity|]. by unfold cleaned, same_counters.
    + eexists. split; [reflexivity|]. unfold cleaned, same_counters. simpl.
      split; [done|]. split.
      { intros x Hx. by apply elem_of_difference in Hx as [Hx _]. }
      split; [done|]. intros d Hin Hout.
      assert (d = dir_path) as ->.
      { apply dec_stable. intros Hne. apply Hout.
        apply elem_of_difference. split; [done|].
        by rewrite elem_of_singleton. }
      repeat split; try done. intros q Hq Hent.
      by rewrite (has_entries_file _ _ _ Hq Hent) in He.
  - destruct (isfile (fs st) dir_path); simpl;
      (eexists; split; [reflexivity|]; by unfold cleaned, same_counters).
Qed.

End Cleanup.

Section CleanupPass.
Import PyStr OS Run Engine Logic Effects.

(** X5.  [rm_subdirs] cannot fail and cannot lose a file: it returns,
    whatever the walk lists and whatever is on disk; the regular files
    and the counters are as before; no directory appears; a directory
    that is gone was listed by the walk, lies within the depth limit and
    held no regular file. *)
Theorem rm_subdirs_is_safe
        (self : Phockup)
        (walk_up : list (string * list string * list string)) (st : State) :
  exists st',
    rm_subdirs self walk_up st = Return tt st'
    /\ files (fs st') = files (fs st)
    /\ dirs (fs st') ⊆ dirs (fs st)
    /\ same_counters st st'
    /\ (forall d, d ∈ dirs (fs st) -> d ∉ dirs (fs st') ->
                  d ∈ listed_dirs walk_up
                  /\ get_depth self d <= stop_depth self
                  /\ forall q, is_Some (files (fs st) !! q) ->
                               ~ entry_of d q).
Proof.
  change (exists st', rm_subdirs self walk_up st = Return tt st'
                      /\ cleaned self (listed_dirs walk_up) st st').
  unfold rm_subdirs.
  apply (for_each_returns (cleaned self (listed_dirs walk_up))).
  intros [[root ds] fls] st1 Ht.
  destruct (stop_depth self <? get_depth self root) eqn:Hroot.
  { exists st1. split; [done | reflexivity]. }
  apply (for_each_returns (cleaned self (listed_dirs walk_up))).
  intros name st2 Hname.
  destruct (Z.ltb_spec (stop_depth self) (get_depth self (path_join root name)))
    as [Hdeep|Hok].
  { exists st2. split; [done | reflexivity]. }
  apply rm_one; [|done].
  unfold listed_dirs. apply list_elem_of_In, in_flat_map.
  exists (root, ds, fls). split; [by apply list_elem_of_In|].
  apply list_elem_of_In, list_elem_of_fmap. by exists name.
Qed.

End CleanupPass.

(* ===================================================================== *)
(** ** The walk over the input tree                                        *)
(* ===================================================================== *)

Section Walk.
Import PyStr OS Run Engine Logic Effects Progress.

Context (Exif_data : string -> option File -> option (gmap string string)).
Context (Date_from_exif :
           string -> option File -> option (gmap string string) -> bool
           -> option string -> option string -> option DateDict).
Context (Date_strptime : string -> string -> Result datetime).
Context (strftime : Z -> Z -> Z -> string -> option string).
Context (process_files : Phockup -> list string -> M unit).

(** X6.  An input path that is not a directory (nothing there, or a
    regular file) ends the run before any file is looked at: the run
    raises, the filesystem is untouched and every counter is zero.  Unless
    a date bound was rejected first, the exception is the [RuntimeError]
    of [check_directories], and its text tells the two cases apart. *)
Theorem input_must_be_a_directory
        (input_dir output_dir : string) (args : Args)
        (walk walk_up : list (string * list string * list string)) (f : FS) :
  isdir f (strip_sep input_dir) = false ->
  match init Exif_data Date_from_exif Date_strptime strftime process_files
             input_dir output_dir args walk walk_up f with
  | Raised e st' =>
      fs st' = f
      /\ files_processed st' = 0
      /\ outcomes st' = 0
      /\ (forall fr to,
             parse_bound Date_strptime (a_from_date args) "00:00:00" = Ok fr ->
             parse_bound Date_strptime (a_to_date args) "23:59:59" = Ok to ->
             e = RuntimeError
                   ("Input directory '" +:+ strip_sep input_dir
                      +:+ (if isfile f (strip_sep input_dir)
                           then "' is not a directory"
                           else "' does not exist")))
  | _ => False
  end.
Proof.
  intros Hd. unfold init.
  destruct (parse_bound _ (a_from_date args) _) as [fr|e]; [|done].
  destruct (parse_bound _ (a_to_date args) _) as [to|e]; [|done].
  unfold run_body, check_directories, bind, when, logger, modify, ret,
    get_fs, raise, exists_.
  cbn [Engine.input_dir attributes max_concurrency dry_run].
  destruct (1 <? a_max_concurrency args), (a_dry_run args);
    cbn [fs add_log initial_state]; rewrite Hd, orb_false_r;
    destruct (isfile f (strip_sep input_dir)); cbn;
    (repeat split; try done; by intros ? ? [= <-] [= <-]).
Qed.

Lemma sort_names_permutation (l1 l2 : list string) :
  l1 ≡ₚ l2 -> sort_names l1 = sort_names l2.
Proof.
  intros H. unfold sort_names.
  apply (Sorted_unique String.le); try apply _.
  - apply Sorted_merge_sort, _.
  - apply Sorted_merge_sort, _.
  - by rewrite !merge_sort_Permutation.
Qed.

(** X7.  With at most one worker, the order in which [os.walk] lists the
    files of a directory is immaterial: each list is sorted before it is
    used, so two listings that differ only in that order (and in the
    sub-directory names, which [walk_directory] does not read) give the
    same run. *)
Theorem listing_order_is_immaterial
        (self : Phockup)
        (walk1 walk2 : list (string * list string * list string))
        (st : State) :
  max_concurrency self <= 1 ->
  same_listing walk1 walk2 ->
  walk_directory Exif_data Date_from_exif strftime process_files
                 self walk1 st
  = walk_directory Exif_data Date_from_exif strftime process_files
                   self walk2 st.
Proof.
  intros Hone H. unfold walk_directory. rewrite (one_worker self Hone).
  set (body := fun triple : string * list string * list string => _).
  revert st.
  induction H as [|[[r1 d1] f1] [[r2 d2] f2] w1 w2 [Hr Hf] _ IH]; [done|].
  intros st. simpl in Hr, Hf. subst r2. cbn [for_each]. unfold bind.
  assert (body (r1, d1, f1) = body (r1, d2, f2)) as ->.
  { unfold body, file_paths_to_process, skipped_extension_messages.
    by rewrite (sort_names_permutation f1 f2 Hf). }
  destruct (body (r1, d2, f2) st); [apply IH|done..].
Qed.







End Walk.

Section WalkAtInputs.
Import PyStr OS Run Engine Logic Effects Doubles Scenarios.

(** An input path that is not on disk. *)
Lemma input_must_be_a_directory_witness :
  isdir fs_pair (strip_sep "/nowhere/") = false
  /\ match init catalogue "/nowhere/" "/out" (with_mode false false false)
                (walk_in ["a.jpg"]) [] fs_pair with
     | Raised e st' =>
         fs st' = fs_pair
         /\ files_processed st' = 0
         /\ e = RuntimeError "Input directory '/nowhere' does not exist"
     | _ => False
     end.
Proof.
  split; [vm_compute; reflexivity|].
  pose proof (input_must_be_a_directory
                (Exif_data catalogue) (Date_from_exif catalogue)
                Date_strptime strftime (process_files catalogue)
                "/nowhere/" "/out" (with_mode false false false)
                (walk_in ["a.jpg"]) [] fs_pair) as H.
  unfold init.
  destruct (Engine.init _ _ _ _ _ _ _ _ _ _ _) as [|e st'|];
    [by apply H|
     destruct H as (H1 & H2 & _ & H4); [vm_compute; reflexivity|]
    |by apply H].
  split; [exact H1|]. split; [exact H2|].
  exact (H4 None None eq_refl eq_refl).
Defined.

(** [b.jpg] listed before [a.jpg]. *)
Lemma listing_order_witness :
  walk_directory (Exif_data catalogue) (Date_from_exif catalogue) strftime
                 (process_files catalogue)
                 (self_of (with_mode false false false))
                 [("/in", ["sub"], ["b.jpg"; "a.jpg"])]
                 (initial_state fs_pair)
  = walk_directory (Exif_data catalogue) (Date_from_exif catalogue) strftime
                   (process_files catalogue)
                   (self_of (with_mode false false false))
                   (walk_in ["a.jpg"; "b.jpg"]) (initial_state fs_pair).
Proof.
  apply listing_order_is_immaterial.
  - vm_compute. discriminate.
  - constructor; [|constructor]. split; [reflexivity | apply perm_swap].
Defined.


End WalkAtInputs.

(* ===================================================================== *)
(** ** The counters of the action report                                   *)
(* ===================================================================== *)

Section Report.
Import PyStr OS Run Engine Logic Effects.

Context (Exif_data : string -> option File -> option (gmap string string)).
Context (Date_from_exif :
           string -> option File -> option (gmap string string) -> bool
           -> option string -> option string -> option DateDict).
Context (Date_strptime : string -> string -> Result datetime).
Context (strftime : Z -> Z -> Z -> string -> option string).
Context (self : Phockup).

Lemma same_counters_outcomes (st st' : State) :
  same_counters st st' -> outcomes st' = outcomes st.
Proof. intros (?&?&?&?&?). unfold outcomes. lia. Qed.

Lemma once_refl (st : State) : once st st.
Proof. unfold once. lia. Qed.

Lemma once_then_same (a b c : State) :
  once a b -> same_counters b c -> once a c.
Proof.
  intros [Hp Ho] Hc. pose proof (same_counters_outcomes _ _ Hc).
  destruct Hc as (? & _). unfold once in *. lia.
Qed.

Lemma same_then_once (a b c : State) :
  same_counters a b -> once b c -> once a c.
Proof.
  intros Hc [Hp Ho]. pose proof (same_counters_outcomes _ _ Hc).
  destruct Hc as (? & _). unfold once in *. lia.
Qed.

(** The filters: on [Next] the state is as before. *)
Lemma filters_once filename output name ty fd st :
  spec (filters self filename output name ty fd) st
       (fun s st' => match s with Break => once st st' | Next _ => st' = st end)
       (fun _ st' => once st st').
Proof.
  unfold spec.
  destruct (filters self filename output name ty fd st) as [[|fd'] st'|e st'|]
    eqn:H.
  - revert H. unfold filters, date_window, bind, ret, raise, logger, modify.
    intros H. repeat (case_match; simplify_eq); unfold once, outcomes; simpl; lia.
  - by apply filters_next in H.
  - revert H. unfold filters, date_window, bind, ret, raise, logger, modify.
    intros H. repeat (case_match; simplify_eq); unfold once, outcomes; simpl; lia.
  - assert (PreOrder (fun _ _ : State => True)) as Hpre by (by split).
    pose proof (@keeps_filters self (fun _ _ => True) Hpre
                               (fun _ _ _ => I) (fun _ => I)
                               filename output name ty fd st) as Hk.
    unfold spec in Hk. by rewrite H in Hk.
Qed.

Lemma same_counters_log l msg st : same_counters st (add_log l msg st).
Proof. by unfold same_counters. Qed.

Lemma same_counters_fs st f : same_counters st (with_fs st f).
Proof. by unfold same_counters. Qed.

Lemma duplicate_once filename progress target st :
  spec (duplicate self filename progress target) st
       (fun _ st' => once st st') (fun _ st' => once st st').
Proof.
  unfold spec, duplicate, bind, when, os_call, ret, modify, logger.
  destruct (tuple_truth (movedel self) && move self && skip_unknown self);
    [destruct (negb (dry_run self)); [destruct (remove (fs st) filename)|]|];
    unfold once, outcomes; simpl; lia.
Qed.

Lemma place_once filename progress name suffix output target st :
  spec (place self filename progress name suffix output target) st
       (fun _ st' => once st st') (fun _ st' => once st st').
Proof.
  unfold place. apply spec_bind.
  eapply (spec_weaken _ _ (fun _ st1 => once st st1)
                      _ (fun _ st1 => once st st1)).
  - unfold spec, try_except, bind, modify, when, os_call, ret,
      missing_source, logger.
    destruct (move self); [|destruct (link self && negb (dry_run self))];
      [destruct (negb (dry_run self));
       [destruct (OS.move _ _ _) as [f|[]]|]
      |destruct (OS.link _ _ _)
      |destruct (negb (dry_run self));
       [destruct (copy2 _ _ _) as [f|[]]|]];
      unfold once, outcomes; simpl; lia.
  - intros [|] st1 H1; [by unfold spec, ret|].
    assert (keeps same_counters
                  (logger INFO (progress +:+ " => " +:+ target) ;;;
                   process_sidecars self filename name suffix output)) as Hk.
    { keeps_rule keeps_bind; [|intros _].
      - keeps_rule keeps_logger. apply same_counters_log.
      - apply keeps_process_sidecars; try apply _.
        + apply same_counters_log.
        + intros _. apply same_counters_fs. }
    specialize (Hk st1). unfold spec in *.
    destruct (bind _ _ st1); try done; by eapply once_then_same.
  - done.
Qed.

Lemma probe_once filename name fd suffix output target st :
  spec (probe self filename name fd suffix output target) st
       (fun s st' => match s with Break => once st st' | Next _ => st' = st end)
       (fun _ st' => once st st').
Proof.
  unfold spec, probe, bind, get_fs, os_query, ret.
  destruct (isfile (fs st) target).
  - destruct (negb (bool_decide (filename = target)));
      [destruct (cmp _ _ _ _) as [[|]|e]|]; try done; try apply once_refl.
    pose proof (duplicate_once filename filename target st) as Hd.
    unfold spec in Hd. by destruct (duplicate _ _ _ _ st).
  - pose proof (place_once filename filename name suffix output target st)
      as Hp.
    unfold spec in Hp. by destruct (place _ _ _ _ _ _ _ st).
Qed.

Lemma loop_body_once filename output name ty fd suffix target st :
  spec (loop_body self filename output name ty fd suffix target) st
       (fun s st' => match s with Break => once st st' | Next _ => st' = st end)
       (fun _ st' => once st st').
Proof.
  unfold loop_body. apply spec_bind.
  eapply spec_weaken; [apply filters_once| |done].
  intros [|fd1] st1 H1; [by unfold spec, ret|]. subst st1.
  apply probe_once.
Qed.

Lemma loop_once (n : nat) filename output name path ty fd (suffix : Z) st :
  1 <= suffix ->
  (forall s, 1 <= s < suffix -> isfile (fs st) (candidate path s) = true) ->
  Z.of_nat (size (files (fs st))) + 1 < Z.of_nat n + suffix ->
  spec (collision_loop n self filename output name path ty fd suffix
                       (candidate path suffix)) st
       (fun _ st' => once st st') (fun _ st' => once st st').
Proof.
  revert fd suffix. induction n as [|n IH]; intros fd suffix Hs Hocc Hn.
  - exfalso.
    assert (Z.to_nat (suffix - 1) <= size (files (fs st)))%nat as Hb.
    { apply (occupied_bound (fs st) path). intros s Hrange. apply Hocc. lia. }
    lia.
  - simpl. unfold spec, bind.
    pose proof (loop_body_once filename output name ty fd suffix
                               (candidate path suffix) st) as Hk.
    unfold spec in Hk.
    destruct (loop_body _ _ _ _ _ _ _ _ st) as [[|fd'] st1|e st1|] eqn:Hb;
      try done.
    apply loop_body_next in Hb as [-> Hfile].
    rewrite <- candidate_next by done.
    apply (IH fd' (suffix + 1)); [lia| |lia].
    intros s Hrange. destruct (decide (s = suffix)) as [->|]; [done|].
    apply Hocc. lia.
Qed.

(** One call: a step of one of the four counters at most, and none
    without a step of the processed counter unless the call raises. *)
Lemma process_file_accounted filename st :
  spec (process_file Exif_data Date_from_exif strftime self filename) st
       (fun _ st' => accounted 0 st st') (fun _ st' => accounted 1 st st').
Proof.
  unfold process_file.
  destruct (existsb _ _).
  { unfold spec, ret, accounted. lia. }
  unfold spec, bind at 1.
  pose proof (keeps_get_file_name_and_path
                Exif_data Date_from_exif strftime self same_counters
                (fun _ st f => same_counters_fs st f) filename st) as Hg.
  unfold spec in Hg.
  destruct (get_file_name_and_path _ _ _ _ _ st)
    as [[[[[output name] path] ty] date] st1|e st1|]; [| |done].
  - unfold bind, get_fs.
    pose proof (loop_once (loop_bound (fs st1)) filename output name path ty
                          (date_value date) 1 st1) as Hl.
    rewrite candidate_one in Hl. unfold spec in Hl.
    pose proof (same_counters_outcomes _ _ Hg) as Ho.
    destruct Hg as (Hp & _).
    destruct (collision_loop _ _ _ _ _ _ _ _ _ _ st1) as [[] st2|e st2|].
    + destruct Hl as [Hp2 Ho2]; [lia|intros; lia|unfold loop_bound; lia|].
      unfold modify, accounted, outcomes in *. simpl. lia.
    + destruct Hl as [Hp2 Ho2]; [lia|intros; lia|unfold loop_bound; lia|].
      unfold accounted. lia.
    + apply Hl; [lia|intros; lia|unfold loop_bound; lia].
  - pose proof (same_counters_outcomes _ _ Hg) as Ho.
    destruct Hg as (Hp & _). unfold accounted. lia.
Qed.

Lemma accounted_trans (slack : Z) (a b c : State) :
  accounted 0 a b -> accounted slack b c -> accounted slack a c.
Proof. unfold accounted. lia. Qed.

Lemma counts_well_bind {A B} (m : M A) (k : A -> M B) :
  counts_well m -> (forall a, counts_well (k a)) -> counts_well (bind m k).
Proof.
  intros Hm Hk st. specialize (Hm st). unfold spec, bind in *.
  destruct (m st) as [a st1|e st1|]; try done.
  specialize (Hk a st1). unfold spec in Hk.
  destruct (k a st1); try done; by eapply accounted_trans.
Qed.

Lemma counts_well_keeps {A} (m : M A) :
  keeps same_counters m -> counts_well m.
Proof.
  intros Hm st. specialize (Hm st). unfold spec in *.
  destruct (m st) as [a st1|e st1|]; try done;
    pose proof (same_counters_outcomes _ _ Hm); destruct Hm as (? & _);
    unfold accounted; lia.
Qed.

Lemma counts_well_for_each {A} (xs : list A) (body : A -> M unit) :
  (forall x, counts_well (body x)) -> counts_well (for_each xs body).
Proof.
  intros H. induction xs as [|x xs IH]; simpl.
  - intros st. unfold spec, ret, accounted. lia.
  - by apply counts_well_bind.
Qed.

Lemma counts_well_when (b : bool) (m : M unit) :
  counts_well m -> counts_well (when b m).
Proof.
  destruct b; [done|]. intros _ st. unfold spec, when, ret, accounted. lia.
Qed.

Lemma counts_well_logger l msg : counts_well (logger l msg).
Proof.
  apply counts_well_keeps. keeps_rule keeps_logger. apply same_counters_log.
Qed.

Lemma counts_well_run_body
      (process_files : Phockup -> list string -> M unit) walk walk_up :
  max_concurrency self <= 1 ->
  counts_well (run_body Exif_data Date_from_exif strftime process_files
                        self walk walk_up).
Proof.
  intros Hone. unfold run_body.
  apply counts_well_bind; [apply counts_well_when, counts_well_logger|].
  intros _.
  apply counts_well_bind; [apply counts_well_when, counts_well_logger|].
  intros _. apply counts_well_bind.
  { apply counts_well_keeps, keeps_check_directories; try apply _.
    - apply same_counters_log.
    - intros _. apply same_counters_fs. }
  intros _. apply counts_well_bind.
  { unfold walk_directory. rewrite (one_worker self Hone).
    apply counts_well_for_each.
    intros [[root ds] fls]. apply counts_well_bind.
    - apply counts_well_for_each. intros msg. apply counts_well_logger.
    - intros _. apply counts_well_for_each. intros p st.
      apply process_file_accounted. }
  intros _. apply counts_well_bind.
  { apply counts_well_when, counts_well_keeps, keeps_rm_subdirs;
      try apply _.
    - apply same_counters_log.
    - intros st p f _. apply same_counters_fs. }
  intros _. apply counts_well_bind.
  { apply counts_well_keeps. keeps_rule keeps_get. }
  intros st1. apply counts_well_when, counts_well_keeps.
  apply keeps_print_action_report; try apply _;
    [apply same_counters_log | intros _; apply same_counters_fs].
Qed.

End Report.

Section ReportOfARun.
Import PyStr OS Run Engine Logic Effects.

Context (Exif_data : string -> option File -> option (gmap string string)).
Context (Date_from_exif :
           string -> option File -> option (gmap string string) -> bool
           -> option string -> option string -> option DateDict).
Context (Date_strptime : string -> string -> Result datetime).
Context (strftime : Z -> Z -> Z -> string -> option string).
Context (process_files : Phockup -> list string -> M unit).

(** X9.  No file is counted twice in the action report.  A call of
    [process_file] moves at most one of the counters for duplicates,
    unknown dates, moved and copied files, and only a call that ends in an
    exception moves one of them without moving the processed counter.  So
    at the end of a run with at most one worker that returns, the four
    add up to no more than the processed counter, and of one that raises
    to at most one more. *)
Theorem report_counts_each_file_at_most_once
        (input_dir output_dir : string) (args : Args)
        (walk walk_up : list (string * list string * list string)) (f : FS) :
  (forall self filename st,
      match process_file Exif_data Date_from_exif strftime self filename st
      with
      | Return _ st' =>
          files_processed st <= files_processed st'
          /\ outcomes st <= outcomes st'
             <= outcomes st + (files_processed st' - files_processed st)
      | Raised _ st' =>
          files_processed st' = files_processed st
          /\ outcomes st <= outcomes st' <= outcomes st + 1
      | OutOfFuel => False
      end)
  /\ (a_max_concurrency args <= 1 ->
      match init Exif_data Date_from_exif Date_strptime strftime
                 process_files input_dir output_dir args walk walk_up f with
      | Return _ st' => 0 <= outcomes st' <= files_processed st'
      | Raised _ st' => 0 <= outcomes st' <= files_processed st' + 1
      | OutOfFuel => False
      end).
Proof.
  split.
  - intros self filename st.
    pose proof (process_file_accounted Exif_data Date_from_exif strftime
                                       self filename st) as H.
    pose proof (processed_counter Exif_data Date_from_exif strftime
                                  self filename st) as Hp.
    unfold spec, accounted in *.
    destruct (process_file _ _ _ _ _ st); try done; lia.
  - intros Hone. unfold init.
    destruct (parse_bound _ (a_from_date args) _) as [fr|e];
      [|unfold outcomes; simpl; lia].
    destruct (parse_bound _ (a_to_date args) _) as [to|e];
      [|unfold outcomes; simpl; lia].
    pose proof (counts_well_run_body
                  Exif_data Date_from_exif strftime
                  (attributes input_dir output_dir args fr to)
                  process_files walk walk_up Hone
                  (initial_state f)) as H.
    unfold spec, accounted, outcomes in *. simpl in H.
    destruct (run_body _ _ _ _ _ _ _ _); try done; lia.
Qed.

End ReportOfARun.

Section ReportAtInputs.
Import PyStr OS Run Engine Logic Effects Doubles Scenarios.

(** The twins in copy mode: one is copied, the other is a duplicate. *)
Lemma report_counts_witness :
  match init catalogue "/in" "/out" (with_mode false false false)
             (walk_in ["a.jpg"; "b.jpg"]) [] fs_twins with
  | Return _ st' => 0 <= outcomes st' <= files_processed st'
  | Raised _ st' => 0 <= outcomes st' <= files_processed st' + 1
  | OutOfFuel => False
  end.
Proof.
  destruct (report_counts_each_file_at_most_once
              (Exif_data catalogue) (Date_from_exif catalogue)
              Date_strptime strftime (process_files catalogue)
              "/in" "/out" (with_mode false false false)
              (walk_in ["a.jpg"; "b.jpg"]) [] fs_twins) as [_ H].
  apply H. vm_compute. discriminate.
Defined.

End ReportAtInputs.

(* ===================================================================== *)
(** ** What a call writes, call site by call site                          *)
(* ===================================================================== *)

Section Suffixes.
Import PyStr OS Run Engine Logic Effects.

Lemma chars_app (a b : string) : chars (a +:+ b) = chars a ++ chars b.
Proof.
  induction a as [|c a IH]; [by rewrite str_app_nil_l|].
  rewrite str_app_cons. simpl. by rewrite IH.
Qed.

Lemma endswith_app (a b : string) : endswith (a +:+ b) b = true.
Proof.
  unfold endswith. apply bool_decide_eq_true. rewrite chars_app.
  by apply suffix_app_r.
Qed.

Lemma endswith_app_l (a b suf : string) :
  endswith b suf = true -> endswith (a +:+ b) suf = true.
Proof.
  unfold endswith. rewrite !bool_decide_eq_true, chars_app.
  intros H. by apply suffix_app_r.
Qed.

Lemma has_sidecar_ext_ends (p ext : string) :
  ext ∈ known_sidecar_extensions -> endswith p ext = true ->
  has_sidecar_ext p = true.
Proof.
  intros Hext Hend. unfold has_sidecar_ext. apply existsb_exists.
  exists ext. split; [by apply list_elem_of_In|done].
Qed.

(** The entries of the sidecar table, as call sites. *)
Lemma sidecar_files_site (f : FS) filename name suffix ext output o t :
  ext ∈ known_sidecar_extensions ->
  (o, t) ∈ sidecar_files f filename name suffix ext ->
  sidecar_site filename o (join "/" [output; t]).
Proof.
  intros Hext. unfold sidecar_files.
  destruct (isfile f (sidecar_original_with_ext _ _));
    destruct (isfile f (sidecar_original_without_ext _ _));
    destruct (isfile f (sidecar_original_leading_o _ _));
    destruct (isfile f (sidecar_original_trailing_o _ _));
    intros H;
    repeat (apply elem_of_dict_set in H as [[-> ->]|H]);
    try (by apply elem_of_nil in H);
    (exists ext; split; [done|]; split;
     [unfold sidecar_originals; rewrite !elem_of_cons; auto 6
     |cbn [join]; rewrite <- ?str_app_assoc; apply endswith_app]).
Qed.

End Suffixes.

(** A relation [R] kept by the filesystem calls [process_file] makes for
    [filename], each taken with the mode in which it is made and with the
    paths it is made on, is kept by [process_file]. *)
Section CallSites.
Import PyStr OS Run Engine Logic Effects.

Context (Exif_data : string -> option File -> option (gmap string string)).
Context (Date_from_exif :
           string -> option File -> option (gmap string string) -> bool
           -> option string -> option string -> option DateDict).
Context (strftime : Z -> Z -> Z -> string -> option string).
Context (self : Phockup) (filename : string).
Context (R : State -> State -> Prop) `{!PreOrder R}.
Hypothesis R_log : forall l msg st, R st (add_log l msg st).
Hypothesis R_duplicates : forall st, R st (inc_duplicates st).
Hypothesis R_unknown : forall st, R st (inc_unknown st).
Hypothesis R_processed : forall st, R st (inc_processed st).
Hypothesis R_moved : move self = true -> forall st, R st (inc_moved st).
Hypothesis R_copied :
  move self = false -> link self && negb (dry_run self) = false ->
  forall st, R st (inc_copied st).
Hypothesis R_makedirs :
  dry_run self = false ->
  forall st name ok f,
    makedirs (fs st) name ok = Ok f -> R st (with_fs st f).
Hypothesis R_remove :
  dry_run self = false -> move self = true ->
  forall st f, remove (fs st) filename = Ok f -> R st (with_fs st f).
Hypothesis R_move :
  dry_run self = false -> move self = true ->
  forall st dst f,
    OS.move (fs st) filename dst = Ok f -> R st (with_fs st f).
Hypothesis R_link :
  dry_run self = false -> move self = false -> link self = true ->
  forall st dst f,
    OS.link (fs st) filename dst = Ok f -> R st (with_fs st f).
Hypothesis R_copy :
  dry_run self = false -> move self = false -> link self = false ->
  forall st dst f,
    copy2 (fs st) filename dst = Ok f -> R st (with_fs st f).
Hypothesis R_move_sidecar :
  dry_run self = false -> move self = true ->
  forall st src dst f,
    sidecar_site filename src dst ->
    OS.move (fs st) src dst = Ok f -> R st (with_fs st f).
Hypothesis R_link_sidecar :
  dry_run self = false -> move self = false -> link self = true ->
  forall st src dst f,
    sidecar_site filename src dst ->
    OS.link (fs st) src dst = Ok f -> R st (with_fs st f).
Hypothesis R_copy_sidecar :
  dry_run self = false -> move self = false -> link self = false ->
  forall st src dst f,
    sidecar_site filename src dst ->
    copy2 (fs st) src dst = Ok f -> R st (with_fs st f).

Lemma site_get_output_dir date :
  keeps R (get_output_dir strftime self date).
Proof.
  unfold get_output_dir. repeat (keeps_step; try done).
  apply andb_true_iff in H as [_ Hdry]. apply negb_true_iff in Hdry.
  intros st f. by apply (R_makedirs Hdry st _ true).
Qed.

Lemma site_get_file_name_and_path :
  keeps R (get_file_name_and_path Exif_data Date_from_exif strftime self
                                  filename).
Proof.
  pose proof site_get_output_dir.
  assert (forall original date, keeps R (get_file_name self original date))
    by (intros; unfold get_file_name; repeat (keeps_step; try done)).
  unfold get_file_name_and_path.
  repeat (first [ match goal with
                  | H : context [keeps] |- keeps _ _ => simple apply H
                  end
                | keeps_step ]; try done).
Qed.

Lemma site_place_sidecar output original target :
  sidecar_site filename original (join "/" [output; target]) ->
  keeps R (place_sidecar self output (original, target)).
Proof.
  intros Hsite. unfold place_sidecar.
  keeps_rule keeps_bind; [by keeps_rule keeps_logger|intros _].
  keeps_rule keeps_when. intros Hdry. apply negb_true_iff in Hdry.
  destruct (move self) eqn:Hmv; [|destruct (link self) eqn:Hln];
    keeps_rule keeps_os_call; intros st f; cbv beta; eauto.
Qed.

Lemma site_process_sidecars name suffix output :
  keeps R (process_sidecars self filename name suffix output).
Proof.
  unfold process_sidecars.
  keeps_rule keeps_for_each. intros ext Hext.
  keeps_rule keeps_bind; [keeps_rule keeps_get_fs|intros f].
  keeps_rule keeps_for_each. intros [o t] Hin.
  apply site_place_sidecar. by eapply sidecar_files_site.
Qed.

Lemma site_duplicate progress target :
  keeps R (duplicate self filename progress target).
Proof.
  unfold duplicate.
  keeps_rule keeps_bind; [|intros p].
  - destruct (tuple_truth (movedel self) && move self && skip_unknown self)
      eqn:Hc; [|keeps_rule keeps_ret].
    apply andb_true_iff in Hc as [Hc _]. apply andb_true_iff in Hc as [_ Hmv].
    keeps_rule keeps_bind; [|intros _; keeps_rule keeps_ret].
    keeps_rule keeps_when. intros Hdry. apply negb_true_iff in Hdry.
    keeps_rule keeps_os_call. intros st f; cbv beta. eauto.
  - keeps_rule keeps_bind; [by keeps_rule keeps_modify|intros _].
    by keeps_rule keeps_logger.
Qed.

Lemma site_place progress name suffix output target :
  keeps R (place self filename progress name suffix output target).
Proof.
  unfold place.
  keeps_rule keeps_bind; [|intros [|]].
  - destruct (move self) eqn:Hmv;
      [|destruct (link self && negb (dry_run self)) eqn:Hln].
    + keeps_rule keeps_try_except.
      * keeps_rule keeps_bind; [keeps_rule keeps_modify; auto|intros _].
        keeps_rule keeps_bind; [|intros _; keeps_rule keeps_ret].
        keeps_rule keeps_when. intros Hdry. apply negb_true_iff in Hdry.
        keeps_rule keeps_os_call. intros st f; cbv beta. eauto.
      * intros e. unfold missing_source.
        keeps_rule keeps_bind; [by keeps_rule keeps_logger|intros _].
        keeps_rule keeps_ret.
    + apply andb_true_iff in Hln as [Hln Hdry]. apply negb_true_iff in Hdry.
      keeps_rule keeps_bind; [|intros _; keeps_rule keeps_ret].
      keeps_rule keeps_os_call. intros st f; cbv beta. eauto.
    + keeps_rule keeps_try_except.
      * keeps_rule keeps_bind; [keeps_rule keeps_modify; auto|intros _].
        keeps_rule keeps_bind; [|intros _; keeps_rule keeps_ret].
        keeps_rule keeps_when. intros Hdry. apply negb_true_iff in Hdry.
        rewrite Hdry, andb_true_r in Hln.
        keeps_rule keeps_os_call. intros st f; cbv beta. eauto.
      * intros e. unfold missing_source.
        keeps_rule keeps_bind; [by keeps_rule keeps_logger|intros _].
        keeps_rule keeps_ret.
  - keeps_rule keeps_ret.
  - keeps_rule keeps_bind; [by keeps_rule keeps_logger|intros _].
    apply site_process_sidecars.
Qed.

Lemma site_probe name fd suffix output target :
  keeps R (probe self filename name fd suffix output target).
Proof.
  pose proof site_duplicate. pose proof site_place. unfold probe.
  repeat (first [ match goal with
                  | H : context [keeps] |- keeps _ _ => simple apply H
                  end
                | keeps_step ]; try done).
Qed.

Lemma site_loop_body output name ty fd suffix target :
  keeps R (loop_body self filename output name ty fd suffix target).
Proof.
  unfold loop_body.
  keeps_rule keeps_bind; [by apply keeps_filters|intros [|fd1]].
  - keeps_rule keeps_ret.
  - apply site_probe.
Qed.

Lemma site_loop (n : nat) output name path ty fd (suffix : Z) st :
  1 <= suffix ->
  (forall s, 1 <= s < suffix -> isfile (fs st) (candidate path s) = true) ->
  Z.of_nat (size (files (fs st))) + 1 < Z.of_nat n + suffix ->
  spec (collision_loop n self filename output name path ty fd suffix
                       (candidate path suffix)) st
       (fun _ st' => R st st') (fun _ st' => R st st').
Proof.
  revert fd suffix. induction n as [|n IH]; intros fd suffix Hs Hocc Hn.
  - exfalso.
    assert (Z.to_nat (suffix - 1) <= size (files (fs st)))%nat as Hb.
    { apply (occupied_bound (fs st) path). intros s Hrange. apply Hocc. lia. }
    lia.
  - simpl. unfold spec, bind.
    pose proof (site_loop_body output name ty fd suffix
                               (candidate path suffix) st) as Hk.
    unfold spec in Hk.
    destruct (loop_body _ _ _ _ _ _ _ _ st) as [[|fd'] st1|e st1|] eqn:Hb;
      try done.
    apply loop_body_next in Hb as [-> Hfile].
    rewrite <- candidate_next by done.
    apply (IH fd' (suffix + 1)); [lia| |lia].
    intros s Hrange. destruct (decide (s = suffix)) as [->|]; [done|].
    apply Hocc. lia.
Qed.

Lemma site_process_file :
  keeps R (process_file Exif_data Date_from_exif strftime self filename).
Proof.
  intros st. unfold process_file.
  destruct (existsb _ _); [unfold spec, ret; reflexivity|].
  unfold spec, bind at 1.
  pose proof (site_get_file_name_and_path st) as Hg. unfold spec in Hg.
  destruct (get_file_name_and_path _ _ _ _ _ st)
    as [[[[[output name] path] ty] date] st1|e st1|]; [|done..].
  unfold bind, get_fs.
  pose proof (site_loop (loop_bound (fs st1)) output name path ty
                        (date_value date) 1 st1) as Hl.
  rewrite candidate_one in Hl. unfold spec in Hl.
  destruct (collision_loop _ _ _ _ _ _ _ _ _ _ st1) as [[] st2|e st2|].
  - unfold modify. etrans; [exact Hg|]. etrans; [|apply R_processed].
    apply Hl; [lia|intros; lia|unfold loop_bound; lia].
  - etrans; [exact Hg|].
    apply Hl; [lia|intros; lia|unfold loop_bound; lia].
  - apply Hl; [lia|intros; lia|unfold loop_bound; lia].
Qed.

End CallSites.

(* ===================================================================== *)
(** ** What the filesystem calls leave behind                              *)
(* ===================================================================== *)

Section Calls.
Import PyStr OS Run Engine Logic Effects.

Lemma count_nonneg (c : ascii) (s : string) : 0 <= count c s.
Proof.
  induction s as [|a s IH]; simpl; [lia|]. destruct (Ascii.eqb a c); lia.
Qed.

Lemma rfind_from_absent (c : ascii) (i : Z) (s : string) :
  count c s = 0 -> rfind_from c i s = -1.
Proof.
  revert i. induction s as [|a s IH]; intros i; simpl; [done|].
  pose proof (count_nonneg c s). destruct (Ascii.eqb a c); [lia|].
  intros H0. rewrite IH by lia. done.
Qed.

Lemma rfind_from_app (c : ascii) (i : Z) (x e : string) :
  count c e = 0 -> rfind_from c i (x +:+ e) = rfind_from c i x.
Proof.
  intros He. revert i. induction x as [|a x IH]; intros i.
  - rewrite str_app_nil_l. by rewrite rfind_from_absent.
  - rewrite str_app_cons. simpl. by rewrite IH.
Qed.

Lemma rfind_from_range (c : ascii) (i : Z) (s : string) :
  rfind_from c i s = -1
  \/ i <= rfind_from c i s < i + Z.of_nat (String.length s).
Proof.
  revert i. induction s as [|a s IH]; intros i; simpl; [by left|].
  destruct (IH (i + 1)) as [->|Hr].
  - simpl. destruct (Ascii.eqb a c); [right; lia | by left].
  - destruct (Z.leb_spec 0 (rfind_from c (i + 1) s)); [right; lia|].
    destruct (Ascii.eqb a c); [right; lia | by left].
Qed.

Lemma drop_app (n : nat) (x e : string) :
  (n <= String.length x)%nat -> drop n (x +:+ e) = drop n x +:+ e.
Proof.
  revert x. induction n as [|n IH]; intros x Hn.
  - by destruct x.
  - destruct x as [|a x]; simpl in Hn; [lia|].
    rewrite str_app_cons. simpl. apply IH. lia.
Qed.

(** The base name of a path keeps an extension without a slash. *)
Lemma basename_app (x e : string) :
  count "/" e = 0 -> basename (x +:+ e) = basename x +:+ e.
Proof.
  intros He. unfold basename, rfind, from. rewrite rfind_from_app by done.
  apply drop_app. destruct (rfind_from_range "/" 0 x) as [->|Hr]; simpl; lia.
Qed.

(** The four places where a sidecar is looked for end in the sidecar
    extension. *)
Lemma sidecar_original_shape (filename ext src : string) :
  src ∈ sidecar_originals filename ext -> exists x, src = x +:+ ext.
Proof.
  unfold sidecar_originals. rewrite !elem_of_cons.
  intros [->|[->|[->|[->|H]]]]; [..|by apply elem_of_nil in H].
  - by eexists.
  - by eexists.
  - by eexists.
  - unfold sidecar_original_trailing_o. rewrite <- str_app_assoc.
    by eexists.
Qed.

Lemma link_ok (f f' : FS) (src dst : string) :
  OS.link f src dst = Ok f' ->
  exists c, files f !! src = Some c /\ files f !! dst = None
            /\ files f' = <[dst := c]> (files f).
Proof.
  unfold OS.link. destruct (files f !! src) as [c|] eqn:Hs; [|done].
  destruct (exists_ f dst) eqn:He; [done|]. intros [= <-].
  apply exists_false in He as [Hn _]. by exists c.
Qed.

Lemma copy2_ok (f f' : FS) (src dst : string) :
  copy2 f src dst = Ok f' ->
  exists c d,
    files f !! src = Some c /\ d <> src
    /\ d = (if isdir f dst then path_join dst (basename src) else dst)
    /\ files f' = <[d := c]> (files f).
Proof.
  unfold copy2.
  set (d := if isdir f dst then path_join dst (basename src) else dst).
  destruct (files f !! src) as [c|]; [|done].
  destruct (bool_decide (src = d)) eqn:Hsd; [done|].
  destruct (isdir f d); [done|]. intros [= <-].
  apply bool_decide_eq_false in Hsd. exists c, d. by repeat split.
Qed.

Lemma move_ok (f f' : FS) (src dst : string) :
  OS.move f src dst = Ok f' ->
  exists c d, files f !! src = Some c
              /\ files f' = <[d := c]> (delete src (files f)).
Proof.
  unfold OS.move, rename.
  destruct (isdir f dst); [destruct (exists_ f _); [done|]|];
    (destruct (files f !! src) as [c|]; [|done]); intros [= <-]; eauto.
Qed.

Lemma remove_ok (f f' : FS) (p : string) :
  remove f p = Ok f' -> files f' = delete p (files f).
Proof.
  unfold remove. destruct (isfile f p); [by intros [= <-]|].
  by destruct (isdir f p).
Qed.

End Calls.

(* ===================================================================== *)
(** ** Relations on the regular files                                      *)
(* ===================================================================== *)

(** A relation [F] between the regular files before and after, kept by
    each write [process_file] can make for [filename], is kept by
    [process_file]. *)
Section OnFiles.
Import PyStr OS Run Engine Logic Effects.

Context (Exif_data : string -> option File -> option (gmap string string)).
Context (Date_from_exif :
           string -> option File -> option (gmap string string) -> bool
           -> option string -> option string -> option DateDict).
Context (strftime : Z -> Z -> Z -> string -> option string).
Context (self : Phockup) (filename : string).
Context (F : gmap string File -> gmap string File -> Prop) `{!PreOrder F}.
Hypothesis F_remove :
  dry_run self = false -> move self = true ->
  forall m, is_Some (m !! filename) -> F m (delete filename m).
Hypothesis F_move :
  dry_run self = false -> move self = true ->
  forall m c d, m !! filename = Some c -> F m (<[d := c]> (delete filename m)).
Hypothesis F_link :
  dry_run self = false -> move self = false -> link self = true ->
  forall m c d,
    m !! filename = Some c -> m !! d = None -> F m (<[d := c]> m).
Hypothesis F_copy :
  dry_run self = false -> move self = false -> link self = false ->
  forall m c d,
    m !! filename = Some c -> d <> filename -> F m (<[d := c]> m).
Hypothesis F_move_sidecar :
  dry_run self = false -> move self = true ->
  forall m src c d ext,
    ext ∈ known_sidecar_extensions ->
    src ∈ sidecar_originals filename ext ->
    m !! src = Some c -> F m (<[d := c]> (delete src m)).
Hypothesis F_link_sidecar :
  dry_run self = false -> move self = false -> link self = true ->
  forall m src c d ext,
    ext ∈ known_sidecar_extensions ->
    m !! src = Some c -> m !! d = None -> endswith d ext = true ->
    F m (<[d := c]> m).
Hypothesis F_copy_sidecar :
  dry_run self = false -> move self = false -> link self = false ->
  forall m src c d ext,
    ext ∈ known_sidecar_extensions ->
    m !! src = Some c -> d <> src -> endswith d ext = true ->
    F m (<[d := c]> m).

Global Instance on_files_preorder : PreOrder (on_files F).
Proof.
  split.
  - intros st. unfold on_files. reflexivity.
  - intros a b c. unfold on_files. intros. by etrans.
Qed.

Lemma on_files_same (st st' : State) :
  files (fs st') = files (fs st) -> on_files F st st'.
Proof. unfold on_files. intros ->. reflexivity. Qed.

Lemma known_extension_no_slash (ext : string) :
  ext ∈ known_sidecar_extensions -> count "/" ext = 0.
Proof.
  unfold known_sidecar_extensions. rewrite !elem_of_cons.
  intros [->|[->|H]]; [done..|by apply elem_of_nil in H].
Qed.

(** Where [copy2] writes for a sidecar ends in the sidecar extension. *)
Lemma copy2_sidecar_destination (f : FS) (src dst : string) :
  sidecar_site filename src dst ->
  exists ext,
    ext ∈ known_sidecar_extensions
    /\ endswith (if isdir f dst then path_join dst (basename src) else dst)
                ext = true.
Proof.
  intros (ext & Hext & Hsrc & Hdst). exists ext. split; [done|].
  destruct (isdir f dst); [|done].
  apply sidecar_original_shape in Hsrc as [x ->].
  rewrite basename_app by (by apply known_extension_no_slash).
  unfold path_join. destruct (_ || _).
  - rewrite <- str_app_assoc. apply endswith_app.
  - rewrite <- !str_app_assoc. apply endswith_app.
Qed.

Lemma files_process_file :
  keeps (on_files F)
        (process_file Exif_data Date_from_exif strftime self filename).
Proof.
  apply site_process_file; try apply _.
  - intros l msg st. by apply on_files_same.
  - intros st. by apply on_files_same.
  - intros st. by apply on_files_same.
  - intros st. by apply on_files_same.
  - intros _ st. by apply on_files_same.
  - intros _ _ st. by apply on_files_same.
  - intros _ st name ok f Hm. apply on_files_same.
    by apply makedirs_ok_frame in Hm as (? & _).
  - intros Hdry Hmv st f Hr. unfold on_files. simpl.
    pose proof Hr as Hr'. apply remove_ok in Hr' as ->.
    apply F_remove; try done.
    unfold remove in Hr. destruct (isfile (fs st) filename) eqn:Hf.
    + by apply isfile_true.
    + by destruct (isdir (fs st) filename).
  - intros Hdry Hmv st dst f Hm. unfold on_files. simpl.
    apply move_ok in Hm as (c & d & Hs & ->). by apply F_move.
  - intros Hdry Hmv Hln st dst f Hl. unfold on_files. simpl.
    apply link_ok in Hl as (c & Hs & Hd & ->). by apply F_link.
  - intros Hdry Hmv Hln st dst f Hc. unfold on_files. simpl.
    apply copy2_ok in Hc as (c & d & Hs & Hne & _ & ->). by apply F_copy.
  - intros Hdry Hmv st src dst f (ext & Hext & Hsrc & _) Hm.
    unfold on_files. simpl.
    apply move_ok in Hm as (c & d & Hs & ->).
    by apply (F_move_sidecar Hdry Hmv _ _ _ _ ext).
  - intros Hdry Hmv Hln st src dst f (ext & Hext & Hsrc & Hdst) Hl.
    unfold on_files. simpl.
    apply link_ok in Hl as (c & Hs & Hd & ->).
    by apply (F_link_sidecar Hdry Hmv Hln _ src _ _ ext).
  - intros Hdry Hmv Hln st src dst f Hsite Hc. unfold on_files. simpl.
    destruct (copy2_sidecar_destination (fs st) src dst Hsite)
      as (ext & Hext & Hend).
    apply copy2_ok in Hc as (c & d & Hs & Hne & -> & ->).
    by apply (F_copy_sidecar Hdry Hmv Hln _ src _ _ ext).
Qed.

End OnFiles.

(* ===================================================================== *)
(** ** What one call can do to the files that are there                    *)
(* ===================================================================== *)

Section OneCall.
Import PyStr OS Run Engine Logic Effects.

Global Instance none_gone_preorder : PreOrder none_gone.
Proof.
  split; [by intros m p|]. intros a b c H1 H2 p Hp. by apply H2, H1.
Qed.

Global Instance kept_at_preorder filename : PreOrder (kept_at filename).
Proof.
  split.
  - intros m. split; [reflexivity|done].
  - intros a b c [H1 E1] [H2 E2]. split; [by etrans|congruence].
Qed.

Global Instance only_own_gone_preorder filename :
  PreOrder (only_own_gone filename).
Proof.
  split.
  - intros m p Hp. by left.
  - intros a b c H1 H2 p Hp.
    destruct (H1 p Hp) as [Hb|Hown]; [|by right]. by apply H2.
Qed.

Global Instance not_reported_preorder : PreOrder not_reported.
Proof.
  split; [by intros st|]. intros a b c [? ?] [? ?]. split; congruence.
Qed.

Lemma none_gone_insert (m : gmap string File) (d : string) (c : File) :
  none_gone m (<[d := c]> m).
Proof.
  intros p Hp. destruct (decide (p = d)) as [->|Hne].
  - rewrite lookup_insert_eq. by eexists.
  - by rewrite lookup_insert_ne.
Qed.

Lemma kept_at_insert filename (m : gmap string File) (d : string) (c : File) :
  d <> filename -> kept_at filename m (<[d := c]> m).
Proof.
  intros Hne. split; [apply none_gone_insert|]. by rewrite lookup_insert_ne.
Qed.

Lemma only_own_gone_moved filename (m : gmap string File) src d (c : File) :
  (src = filename
   \/ exists ext, ext ∈ known_sidecar_extensions
                  /\ src ∈ sidecar_originals filename ext) ->
  only_own_gone filename m (<[d := c]> (delete src m)).
Proof.
  intros Hsrc p Hp. destruct (decide (p = d)) as [->|Hd].
  - left. rewrite lookup_insert_eq. by eexists.
  - rewrite lookup_insert_ne by done.
    destruct (decide (p = src)) as [->|Hs]; [by right|].
    left. by rewrite lookup_delete_ne.
Qed.

Lemma sidecar_destination_differs filename d ext :
  has_sidecar_ext filename = false ->
  ext ∈ known_sidecar_extensions -> endswith d ext = true ->
  d <> filename.
Proof.
  intros Hno Hext Hend ->.
  by rewrite (has_sidecar_ext_ends _ _ Hext Hend) in Hno.
Qed.

Context (Exif_data : string -> option File -> option (gmap string string)).
Context (Date_from_exif :
           string -> option File -> option (gmap string string) -> bool
           -> option string -> option string -> option DateDict).
Context (strftime : Z -> Z -> Z -> string -> option string).

Lemma process_file_only_own_gone (self : Phockup) (filename : string) :
  keeps (on_files (only_own_gone filename))
        (process_file Exif_data Date_from_exif strftime self filename).
Proof.
  apply files_process_file; try apply _.
  - intros _ _ m Hf p Hp. destruct (decide (p = filename)) as [->|Hne].
    + right. by left.
    + left. by rewrite lookup_delete_ne.
  - intros _ _ m c d _. apply only_own_gone_moved. by left.
  - intros _ _ _ m c d _ _ p Hp. left. by apply none_gone_insert.
  - intros _ _ _ m c d _ _ p Hp. left. by apply none_gone_insert.
  - intros _ _ m src c d ext Hext Hsrc _. apply only_own_gone_moved.
    right. by exists ext.
  - intros _ _ _ m src c d ext _ _ _ _ p Hp. left. by apply none_gone_insert.
  - intros _ _ _ m src c d ext _ _ _ _ p Hp. left. by apply none_gone_insert.
Qed.

Lemma process_file_kept_at (self : Phockup) (filename : string) :
  move self = false ->
  keeps (on_files (kept_at filename))
        (process_file Exif_data Date_from_exif strftime self filename).
Proof.
  intros Hmv.
  destruct (has_sidecar_ext filename) eqn:Hext.
  { intros st. unfold process_file. fold (has_sidecar_ext filename).
    rewrite Hext. unfold spec, ret. reflexivity. }
  apply files_process_file; try apply _; try congruence.
  - intros _ _ _ m c d Hs Hd. apply kept_at_insert. congruence.
  - intros _ _ _ m c d _ Hne. by apply kept_at_insert.
  - intros _ _ _ m src c d ext He _ _ Hend. apply kept_at_insert.
    by eapply sidecar_destination_differs.
  - intros _ _ _ m src c d ext He _ _ Hend. apply kept_at_insert.
    by eapply sidecar_destination_differs.
Qed.

Lemma process_file_link_mode (self : Phockup) (filename : string) :
  move self = false -> link self = true ->
  keeps (on_files (⊆))
        (process_file Exif_data Date_from_exif strftime self filename).
Proof.
  intros Hmv Hln.
  apply files_process_file; try apply _; try congruence.
  - intros _ _ _ m c d _ Hd. by apply insert_subseteq.
  - intros _ _ _ m src c d ext _ _ Hd _. by apply insert_subseteq.
Qed.

Lemma process_file_not_reported (self : Phockup) (filename : string) :
  move self = false -> link self = true -> dry_run self = false ->
  keeps not_reported
        (process_file Exif_data Date_from_exif strftime self filename).
Proof.
  intros Hmv Hln Hdry.
  apply site_process_file; try apply _; try done; try congruence.
  by rewrite Hln, Hdry.
Qed.

(** X10.  Whatever the mode and whatever is on disk, the only regular
    files a call of [process_file] can make disappear are its input and
    files at the places where the sidecars of its input are looked for. *)
Theorem only_the_input_and_its_sidecars_can_go
        (self : Phockup) (filename : string) (st : State) :
  match process_file Exif_data Date_from_exif strftime self filename st with
  | Return _ st' | Raised _ st' =>
      forall p, is_Some (files (fs st) !! p) ->
                is_Some (files (fs st') !! p)
                \/ p = filename
                \/ exists ext, ext ∈ known_sidecar_extensions
                               /\ p ∈ sidecar_originals filename ext
  | OutOfFuel => False
  end.
Proof.
  pose proof (process_file_only_own_gone self filename st) as H.
  unfold spec in H. by destruct (process_file _ _ _ _ _ st).
Qed.

(** X11.  Outside move mode a call of [process_file] makes no regular file
    disappear and leaves its input as it is: the path holds the same
    bytes and time after the call as before, whether the call returns or
    raises. *)
Theorem without_move_the_input_is_kept
        (self : Phockup) (filename : string) (st : State) :
  move self = false ->
  match process_file Exif_data Date_from_exif strftime self filename st with
  | Return _ st' | Raised _ st' =>
      (forall p, is_Some (files (fs st) !! p) ->
                 is_Some (files (fs st') !! p))
      /\ files (fs st') !! filename = files (fs st) !! filename
  | OutOfFuel => False
  end.
Proof.
  intros Hmv.
  pose proof (process_file_kept_at self filename Hmv st) as H.
  unfold spec in H. by destruct (process_file _ _ _ _ _ st).
Qed.

End OneCall.

(* ===================================================================== *)
(** ** From one call to the whole run                                      *)
(* ===================================================================== *)

(** A relation kept by [process_file] for every file, by the creation of
    directories and, in move mode, by the removal of directories, is kept
    by the run. *)
Section WholeRun.
Import PyStr OS Run Engine Logic Effects.

Context (Exif_data : string -> option File -> option (gmap string string)).
Context (Date_from_exif :
           string -> option File -> option (gmap string string) -> bool
           -> option string -> option string -> option DateDict).
Context (strftime : Z -> Z -> Z -> string -> option string).
Context (process_files : Phockup -> list string -> M unit).
Context (self : Phockup).
Context (R : State -> State -> Prop) `{!PreOrder R}.
Hypothesis R_log : forall l msg st, R st (add_log l msg st).
Hypothesis R_makedirs :
  dry_run self = false ->
  forall st name ok f,
    makedirs (fs st) name ok = Ok f -> R st (with_fs st f).
Hypothesis R_rmdir :
  move self = true ->
  forall st p f, rmdir (fs st) p = Ok f -> R st (with_fs st f).
Hypothesis R_file :
  forall filename,
    keeps R (process_file Exif_data Date_from_exif strftime self filename).
Hypothesis one_at_a_time : max_concurrency self <= 1.

Lemma run_check_directories : keeps R (check_directories self).
Proof.
  unfold check_directories.
  keeps_rule keeps_bind; [keeps_rule keeps_get_fs|intros f].
  destruct (negb (exists_ f (input_dir self))); [keeps_rule keeps_raise|].
  destruct (negb (isdir f (input_dir self))); [keeps_rule keeps_raise|].
  keeps_rule keeps_when. intros _.
  keeps_rule keeps_bind; [by keeps_rule keeps_logger|intros _].
  keeps_rule keeps_try_except; [|intros e; keeps_rule keeps_raise].
  keeps_rule keeps_when. intros Hdry. apply negb_true_iff in Hdry.
  keeps_rule keeps_os_call. intros st f0. cbv beta. by apply R_makedirs.
Qed.

Lemma run_print_action_report : keeps R (print_action_report self).
Proof.
  unfold print_action_report.
  keeps_rule keeps_bind; [keeps_rule keeps_get|intros st0].
  repeat (keeps_rule keeps_bind; [|intros _]);
    keeps_rule keeps_when; intros _;
    try destruct (dry_run self); by keeps_rule keeps_logger.
Qed.

Lemma run_walk_directory walk :
  keeps R (walk_directory Exif_data Date_from_exif strftime process_files
                          self walk).
Proof.
  unfold walk_directory. rewrite (one_worker self one_at_a_time).
  keeps_rule keeps_for_each.
  intros [[root ds] fls] _.
  keeps_rule keeps_bind; [|intros _].
  - keeps_rule keeps_for_each. intros msg _. by keeps_rule keeps_logger.
  - keeps_rule keeps_for_each. intros p _. apply R_file.
Qed.

Lemma run_run_body walk walk_up :
  keeps R (run_body Exif_data Date_from_exif strftime process_files
                    self walk walk_up).
Proof.
  unfold run_body.
  keeps_rule keeps_bind;
    [keeps_rule keeps_when; intros _; by keeps_rule keeps_logger|intros _].
  keeps_rule keeps_bind;
    [keeps_rule keeps_when; intros _; by keeps_rule keeps_logger|intros _].
  keeps_rule keeps_bind; [apply run_check_directories|intros _].
  keeps_rule keeps_bind; [apply run_walk_directory|intros _].
  keeps_rule keeps_bind; [|intros _].
  { keeps_rule keeps_when. intros Hc. apply andb_true_iff in Hc as [Hmv _].
    apply keeps_rm_subdirs; try apply _; [done|]. by apply R_rmdir. }
  keeps_rule keeps_bind; [keeps_rule keeps_get|intros st0].
  keeps_rule keeps_when. intros _. apply run_print_action_report.
Qed.

End WholeRun.

Section RunsThatKeepFiles.
Import PyStr OS Run Engine Logic Effects.

Context (Exif_data : string -> option File -> option (gmap string string)).
Context (Date_from_exif :
           string -> option File -> option (gmap string string) -> bool
           -> option string -> option string -> option DateDict).
Context (Date_strptime : string -> string -> Result datetime).
Context (strftime : Z -> Z -> Z -> string -> option string).
Context (process_files : Phockup -> list string -> M unit).

Lemma keeps_weaken {A} (R R' : State -> State -> Prop) (m : M A) :
  (forall st st', R st st' -> R' st st') -> keeps R m -> keeps R' m.
Proof. intros H Hm st. eapply spec_weaken; [apply Hm|by auto..]. Qed.

(** X12.  A run without [--move], with at most one worker, makes no
    regular file disappear, however it ends. *)
Theorem a_run_without_move_removes_no_file
        (input_dir output_dir : string) (args : Args)
        (walk walk_up : list (string * list string * list string)) (f : FS) :
  a_max_concurrency args <= 1 ->
  a_move args = false ->
  match init Exif_data Date_from_exif Date_strptime strftime process_files
             input_dir output_dir args walk walk_up f with
  | Return _ st' | Raised _ st' =>
      forall p, is_Some (files f !! p) -> is_Some (files (fs st') !! p)
  | OutOfFuel => False
  end.
Proof.
  intros Hone Hmv. unfold init.
  destruct (parse_bound _ (a_from_date args) _) as [fr|e]; [|done].
  destruct (parse_bound _ (a_to_date args) _) as [to|e]; [|done].
  assert (keeps (on_files none_gone)
                (run_body Exif_data Date_from_exif strftime process_files
                          (attributes input_dir output_dir args fr to)
                          walk walk_up)) as H.
  { apply run_run_body; try apply _.
    - intros l msg st. unfold on_files. simpl. reflexivity.
    - intros _ st name ok f0 Hm. unfold on_files. simpl.
      apply makedirs_ok_frame in Hm as (-> & _). reflexivity.
    - simpl. congruence.
    - intros filename.
      apply (keeps_weaken (on_files (kept_at filename)));
        [by intros ? ? [? _]|].
      by apply process_file_kept_at.
    - exact Hone.
  }
  specialize (H (initial_state f)). unfold spec in H.
  by destruct (run_body _ _ _ _ _ _ _ _).
Qed.

(** X13.  In link mode, without [--move] and with at most one worker, a
    run overwrites nothing: every regular file that was there is there at
    the end with the bytes and the time it had, however the run ends. *)
Theorem link_mode_overwrites_nothing
        (input_dir output_dir : string) (args : Args)
        (walk walk_up : list (string * list string * list string)) (f : FS) :
  a_max_concurrency args <= 1 ->
  a_move args = false -> a_link args = true ->
  match init Exif_data Date_from_exif Date_strptime strftime process_files
             input_dir output_dir args walk walk_up f with
  | Return _ st' | Raised _ st' => files f ⊆ files (fs st')
  | OutOfFuel => False
  end.
Proof.
  intros Hone Hmv Hln. unfold init.
  destruct (parse_bound _ (a_from_date args) _) as [fr|e]; [|done].
  destruct (parse_bound _ (a_to_date args) _) as [to|e]; [|done].
  assert (keeps (on_files (⊆))
                (run_body Exif_data Date_from_exif strftime process_files
                          (attributes input_dir output_dir args fr to)
                          walk walk_up)) as H.
  { apply run_run_body; try apply _.
    - intros l msg st. unfold on_files. simpl. reflexivity.
    - intros _ st name ok f0 Hm. unfold on_files. simpl.
      apply makedirs_ok_frame in Hm as (-> & _). reflexivity.
    - simpl. congruence.
    - intros filename. by apply process_file_link_mode.
    - exact Hone.
  }
  specialize (H (initial_state f)). unfold spec in H.
  by destruct (run_body _ _ _ _ _ _ _ _).
Qed.

(** X14.  In link mode, without [--move], outside dry-run and with at most
    one worker, the moved and the copied counter stay at zero, however
    the run ends: linking a file moves neither. *)
Theorem linked_files_are_not_counted
        (input_dir output_dir : string) (args : Args)
        (walk walk_up : list (string * list string * list string)) (f : FS) :
  a_max_concurrency args <= 1 ->
  a_move args = false -> a_link args = true -> a_dry_run args = false ->
  match init Exif_data Date_from_exif Date_strptime strftime process_files
             input_dir output_dir args walk walk_up f with
  | Return _ st' | Raised _ st' =>
      files_moved st' = 0 /\ files_copied st' = 0
  | OutOfFuel => False
  end.
Proof.
  intros Hone Hmv Hln Hdry. unfold init.
  destruct (parse_bound _ (a_from_date args) _) as [fr|e]; [|done].
  destruct (parse_bound _ (a_to_date args) _) as [to|e]; [|done].
  assert (keeps not_reported
                (run_body Exif_data Date_from_exif strftime process_files
                          (attributes input_dir output_dir args fr to)
                          walk walk_up)) as H.
  { apply run_run_body; try apply _.
    - by intros l msg st.
    - by intros _ st name ok f0 _.
    - by intros _ st p f0 _.
    - intros filename. by apply process_file_not_reported.
    - exact Hone.
  }
  specialize (H (initial_state f)). unfold spec in H.
  by destruct (run_body _ _ _ _ _ _ _ _).
Qed.

End RunsThatKeepFiles.

Section KeptAtInputs.
Import PyStr OS Run Engine Logic Effects Doubles Scenarios.

(** [a.jpg] in copy mode. *)
Lemma without_move_witness :
  match process_file catalogue (self_of (with_mode false false false))
                     "/in/a.jpg" (initial_state fs_pair) with
  | Return _ st' | Raised _ st' =>
      (forall p, is_Some (files (fs (initial_state fs_pair)) !! p) ->
                 is_Some (files (fs st') !! p))
      /\ files (fs st') !! "/in/a.jpg"
         = files (fs (initial_state fs_pair)) !! "/in/a.jpg"
  | OutOfFuel => False
  end.
Proof.
  apply (without_move_the_input_is_kept
           (Exif_data catalogue) (Date_from_exif catalogue) strftime
           (self_of (with_mode false false false)) "/in/a.jpg"
           (initial_state fs_pair)).
  reflexivity.
Defined.

(** The two photographs in copy mode. *)
Lemma run_without_move_witness :
  match init catalogue "/in" "/out" (with_mode false false false)
             (walk_in ["a.jpg"; "b.jpg"]) [] fs_pair with
  | Return _ st' | Raised _ st' =>
      forall p, is_Some (files fs_pair !! p) -> is_Some (files (fs st') !! p)
  | OutOfFuel => False
  end.
Proof.
  apply (a_run_without_move_removes_no_file
           (Exif_data catalogue) (Date_from_exif catalogue)
           Date_strptime strftime (process_files catalogue)
           "/in" "/out" (with_mode false false false)
           (walk_in ["a.jpg"; "b.jpg"]) [] fs_pair).
  - vm_compute. discriminate.
  - reflexivity.
Defined.

(** The two photographs in link mode. *)
Lemma link_mode_witness :
  match init catalogue "/in" "/out" (with_mode false true false)
             (walk_in ["a.jpg"; "b.jpg"]) [] fs_pair with
  | Return _ st' | Raised _ st' => files fs_pair ⊆ files (fs st')
  | OutOfFuel => False
  end.
Proof.
  apply (link_mode_overwrites_nothing
           (Exif_data catalogue) (Date_from_exif catalogue)
           Date_strptime strftime (process_files catalogue)
           "/in" "/out" (with_mode false true false)
           (walk_in ["a.jpg"; "b.jpg"]) [] fs_pair);
    [vm_compute; discriminate | reflexivity..].
Defined.

Lemma linked_files_witness :
  match init catalogue "/in" "/out" (with_mode false true false)
             (walk_in ["a.jpg"; "b.jpg"]) [] fs_pair with
  | Return _ st' | Raised _ st' =>
      files_moved st' = 0 /\ files_copied st' = 0
  | OutOfFuel => False
  end.
Proof.
  apply (linked_files_are_not_counted
           (Exif_data catalogue) (Date_from_exif catalogue)
           Date_strptime strftime (process_files catalogue)
           "/in" "/out" (with_mode false true false)
           (walk_in ["a.jpg"; "b.jpg"]) [] fs_pair);
    [vm_compute; discriminate | reflexivity..].
Defined.

End KeptAtInputs.

(* ===================================================================== *)
(** ** A file that is placed                                               *)
(* ===================================================================== *)

Section Placement.
Import PyStr OS Run Engine Logic Effects.

Context (Exif_data : string -> option File -> option (gmap string string)).
Context (Date_from_exif :
           string -> option File -> option (gmap string string) -> bool
           -> option string -> option string -> option DateDict).
Context (strftime : Z -> Z -> Z -> string -> option string).

(** X15.  The main path.  Not a dry run; the input is a regular file
    without sidecars; the filters pass it; the slots 1 ..  [k] of its
    target path hold files that compare different, and slot [k + 1] is
    free.  Then the call returns and the file is in slot [k + 1] with its
    bytes and its modification time.  In move mode the input is gone and
    the moved counter has gone up; in link mode the input stays and
    neither counter moves; otherwise the input stays and the copied
    counter has gone up.  No other regular file has changed, the processed
    counter has gone up by one, and one record is logged. *)
Theorem a_file_is_placed_in_the_first_free_slot
        (self : Phockup) (filename output name path : string)
        (ty : option string) (date : option DateDict) (fd : FileDate)
        (k : nat) (c : File) (st st1 : State) :
  dry_run self = false ->
  has_sidecar_ext filename = false ->
  files (fs st) !! filename = Some c ->
  get_file_name_and_path Exif_data Date_from_exif strftime self filename st
  = Return (output, name, path, ty, date) st1 ->
  filters self filename output name ty (date_value date) st
  = Return (Next fd) st ->
  (forall s, 1 <= s <= Z.of_nat k ->
             passed_over self st filename (candidate path s)) ->
  exists_ (fs st) (candidate path (Z.of_nat k + 1)) = false ->
  no_sidecars (fs st) filename ->
  (forall ext, ext ∈ known_sidecar_extensions ->
               candidate path (Z.of_nat k + 1)
               ∉ sidecar_originals filename ext) ->
  exists st',
    process_file Exif_data Date_from_exif strftime self filename st
    = Return tt st'
    /\ files (fs st')
       = (if move self
          then <[candidate path (Z.of_nat k + 1) := c]>
                 (delete filename (files (fs st)))
          else <[candidate path (Z.of_nat k + 1) := c]> (files (fs st)))
    /\ files_processed st' = files_processed st + 1
    /\ files_moved st' = files_moved st + (if move self then 1 else 0)
    /\ files_copied st'
       = files_copied st + (if move self || link self then 0 else 1)
    /\ duplicates_found st' = duplicates_found st
    /\ unknown_found st' = unknown_found st
    /\ log st'
       = log st
         ++ [(INFO, filename +:+ " => " +:+ candidate path (Z.of_nat k + 1))].
Proof.
  intros Hdry Hext Hsrc Hg Hfil Hocc Hfree Hside Hnot.
  pose proof (get_file_name_and_path_frame _ _ _ _ _ _ _ _ _ _ _ _ Hg)
    as (Hpath & Hframe & Hcnt & Hlog).
  pose proof Hframe as (Hfiles & _).
  set (slot := candidate path (Z.of_nat k + 1)) in *.
  assert (exists_ (fs st1) slot = false) as Hfree1
      by (by eapply free_after_makedirs).
  exists (inc_processed (landed self st1 filename filename slot c)).
  split.
  - rewrite (process_file_resolved _ _ _ _ _ _ _ _ _ _ _ _ Hext Hg).
    unfold bind.
    apply (filters_pass _ _ _ _ _ _ _ st st1) in Hfil as [_ Hfil1].
    rewrite (resolver_free self k _ _ _ _ _ _ _ _ Hfil1).
    + fold slot. rewrite (place_lands self _ _ _ _ _ _ c); try done.
      * by rewrite Hfiles.
      * apply no_sidecars_landed; [|done].
        by apply (no_sidecars_same_files (fs st)).
    + intros s Hs.
      apply (passed_over_same_files self st st1 _ _ c); try done.
      by apply Hocc.
    + fold slot. by apply orb_false_iff in Hfree1 as [? _].
  - destruct Hcnt as (Hp & Hd & Hu & Hm & Hc).
    unfold landed, counted, landed_files. rewrite Hfiles, Hdry.
    destruct (move self) eqn:Hmv; simpl.
    + rewrite Hlog. repeat split; try done; lia.
    + destruct (link self); simpl; rewrite Hlog;
        repeat split; try done; lia.
Qed.

(** X16.  Link mode, outside dry-run: an input that is gone when its turn
    comes, with a free target.  [os.link] raises [FileNotFoundError] and
    nothing catches it: the call raises, no counter has moved, nothing is
    logged, and a loop over this file and any others stops here. *)
Theorem a_missing_source_in_link_mode_raises
        (self : Phockup) (filename output name path : string)
        (ty : option string) (date : option DateDict) (fd : FileDate)
        (rest : list string) (st st1 : State) :
  dry_run self = false -> move self = false -> link self = true ->
  has_sidecar_ext filename = false ->
  files (fs st) !! filename = None ->
  get_file_name_and_path Exif_data Date_from_exif strftime self filename st
  = Return (output, name, path, ty, date) st1 ->
  filters self filename output name ty (date_value date) st
  = Return (Next fd) st ->
  exists_ (fs st) path = false ->
  process_file Exif_data Date_from_exif strftime self filename st
  = Raised FileNotFoundError st1
  /\ for_each (filename :: rest)
              (process_file Exif_data Date_from_exif strftime self) st
     = Raised FileNotFoundError st1
  /\ files (fs st1) = files (fs st)
  /\ same_counters st st1
  /\ log st1 = log st.
Proof.
  intros Hdry Hmv Hln Hext Hsrc Hg Hfil Hfree.
  pose proof (get_file_name_and_path_frame _ _ _ _ _ _ _ _ _ _ _ _ Hg)
    as (Hpath & Hframe & Hcnt & Hlog).
  pose proof Hframe as (Hfiles & _).
  assert (exists_ (fs st1) path = false) as Hfree1.
  { rewrite <- (candidate_one path).
    eapply free_after_makedirs; [done..|]. by rewrite candidate_one. }
  assert (process_file Exif_data Date_from_exif strftime self filename st
          = Raised FileNotFoundError st1) as Hrun.
  { rewrite (process_file_resolved _ _ _ _ _ _ _ _ _ _ _ _ Hext Hg).
    unfold bind.
    apply (filters_pass _ _ _ _ _ _ _ st st1) in Hfil as [_ Hfil1].
    rewrite (resolver_free self 0 _ _ _ _ _ _ _ _ Hfil1);
      [|intros; lia|by apply orb_false_iff in Hfree1 as [? _]].
    simpl. unfold place. rewrite Hmv, Hln, Hdry. simpl.
    unfold bind, os_call, OS.link. by rewrite Hfiles, Hsrc. }
  split; [done|]. split; [|done].
  cbn [for_each]. unfold bind. by rewrite Hrun.
Qed.

End Placement.

Section PlacementAtInputs.
Import PyStr OS Run Engine Logic Effects Doubles Scenarios Cases.

(** [b.jpg] in move mode, with another photograph at the target: it
    goes to the second slot. *)
Lemma placement_witness :
  exists st',
    process_file catalogue (self_of (with_mode true false false))
                 "/in/b.jpg" (initial_state fs_taken)
    = Return tt st'
    /\ files (fs st') !! target_2 = Some (file [Byte.x02] 5)
    /\ files (fs st') !! "/in/b.jpg" = None
    /\ files (fs st') !! target = Some (file [Byte.x01] 9)
    /\ files_moved st' = 0 + 1.
Proof.
  destruct (a_file_is_placed_in_the_first_free_slot
              (Exif_data catalogue) (Date_from_exif catalogue) strftime
              (self_of (with_mode true false false))
              "/in/b.jpg" "/out/2023/03/04" "20230304-101530.jpg" target
              (Some "image") (Some t_2023_03_04)
              (FD_Datetime (mkDT 2023 3 4 10 15 30 0)) 1
              (file [Byte.x02] 5)
              (initial_state fs_taken)
              (state_of (get_file_name_and_path
                           (Exif_data catalogue) (Date_from_exif catalogue)
                           strftime (self_of (with_mode true false false))
                           "/in/b.jpg" (initial_state fs_taken))))
    as (st' & Hrun & Hfiles & _ & Hm & _).
  - reflexivity.
  - vm_compute. reflexivity.
  - vm_compute. reflexivity.
  - vm_compute. reflexivity.
  - vm_compute. reflexivity.
  - intros s Hs. assert (s = 1) as -> by lia.
    split; [vm_compute; reflexivity|]. right. vm_compute. reflexivity.
  - vm_compute. reflexivity.
  - apply (bool_decide_unpack _). vm_compute. exact I.
  - assert (Forall (fun ext => candidate target (Z.of_nat 1 + 1)
                                 ∉ sidecar_originals "/in/b.jpg" ext)
                   known_sidecar_extensions) as HF
        by (apply (bool_decide_unpack _); vm_compute; exact I).
    rewrite Forall_forall in HF. exact HF.
  - exists st'. split; [exact Hrun|]. rewrite Hfiles, Hm.
    repeat split; vm_compute; reflexivity.
Defined.

(** [a.jpg] gone before its turn, link mode. *)
Lemma missing_source_in_link_mode_witness :
  for_each ["/in/a.jpg"; "/in/b.jpg"]
           (process_file catalogue (self_of (with_mode false true false)))
           (initial_state fs_vanished)
  = Raised FileNotFoundError
           (state_of (get_file_name_and_path
                        (Exif_data catalogue) (Date_from_exif catalogue)
                        strftime (self_of (with_mode false true false))
                        "/in/a.jpg" (initial_state fs_vanished))).
Proof.
  apply (a_missing_source_in_link_mode_raises
           (Exif_data catalogue) (Date_from_exif catalogue) strftime
           (self_of (with_mode false true false))
           "/in/a.jpg" "/out/unknown" "a.jpg" "/out/unknown/a.jpg"
           None None FD_None ["/in/b.jpg"]
           (initial_state fs_vanished)).
  - reflexivity.
  - reflexivity.
  - reflexivity.
  - vm_compute. reflexivity.
  - vm_compute. reflexivity.
  - vm_compute. reflexivity.
  - vm_compute. reflexivity.
  - vm_compute. reflexivity.
Defined.

End PlacementAtInputs.

(* ===================================================================== *)
(** ** Target names                                                        *)
(* ===================================================================== *)

Section Names.
Import PyStr OS Run Engine Logic Effects.

Lemma ascii_lower_idem (c : ascii) :
  ascii_lower (ascii_lower c) = ascii_lower c.
Proof. destruct c as [[] [] [] [] [] [] [] []]; reflexivity. Qed.

Lemma lower_idem (s : string) : lower (lower s) = lower s.
Proof.
  induction s as [|c s IH]; [done|]. simpl. by rewrite ascii_lower_idem, IH.
Qed.

Lemma get_file_type_range (mimetype : string) :
  get_file_type mimetype
  ∈ [None; Some "image"; Some "video"; Some "xmp"].
Proof.
  unfold get_file_type.
  destruct (patternImage mimetype); [by right; left|].
  destruct (patternVideo mimetype); [by right; right; left|].
  destruct (patternXMP mimetype); [by right; right; right; left|by left].
Qed.

Lemma recognised_is_not_none (ty : option string) :
  ty ∈ [Some "image"; Some "video"; Some "xmp"] -> ty <> None.
Proof.
  intros H ->.
  apply elem_of_cons in H as [|H]; [done|].
  apply elem_of_cons in H as [|H]; [done|].
  apply elem_of_cons in H as [|H]; [done|].
  by apply elem_of_nil in H.
Qed.

Context (Exif_data : string -> option File -> option (gmap string string)).
Context (Date_from_exif :
           string -> option File -> option (gmap string string) -> bool
           -> option string -> option string -> option DateDict).
Context (strftime : Z -> Z -> Z -> string -> option string).

(** X17.  What [get_file_name_and_path] returns.  The path is the name
    under the output directory.  The type is [None] or one of the three
    kinds.  A file of no recognised type keeps its base name, letter case
    included, and has no date.  With [--original-names] every file keeps
    its base name.  Otherwise, when the file name and the sub-seconds
    are ASCII, the name of a recognised file is in lower case: the
    lower-cased base name when the date resolver found nothing, and the
    time stamp [YYYYMMDD-HHMMSS], then the sub-seconds if any, then the
    extension of the input, all in lower case, when it found a date. *)
Theorem target_names
        (self : Phockup) (filename output name path : string)
        (ty : option string) (date : option DateDict) (st st1 : State) :
  get_file_name_and_path Exif_data Date_from_exif strftime self filename st
  = Return (output, name, path, ty, date) st1 ->
  path = output +:+ "/" +:+ name
  /\ ty ∈ [None; Some "image"; Some "video"; Some "xmp"]
  /\ (ty = None -> name = basename filename /\ date = None)
  /\ (original_filenames self = true -> name = basename filename)
  /\ (ty <> None -> original_filenames self = false ->
      isascii filename = true ->
      (forall d, date = Some d -> isascii (dd_subseconds d) = true) ->
      lower name = name
      /\ (date = None -> name = lower (basename filename))
      /\ (forall d t,
             date = Some d -> dd_date d = Some t ->
             name
             = lower (zpad 4 (year t) +:+ zpad 2 (month t)
                        +:+ zpad 2 (day t) +:+ "-" +:+ zpad 2 (hour t)
                        +:+ zpad 2 (minute t) +:+ zpad 2 (second t)
                        +:+ dd_subseconds d +:+ (splitext filename).2))).
Proof.
  intros Hg.
  pose proof (get_file_name_and_path_frame _ _ _ _ _ _ _ _ _ _ _ _ Hg)
    as (Hpath & _).
  split; [done|]. revert Hg.
  unfold get_file_name_and_path, bind at 1, get_fs.
  set (exif := Exif_data _ _).
  assert (target_type_of exif
          ∈ [None; Some "image"; Some "video"; Some "xmp"]) as Hrange.
  { unfold target_type_of. destruct exif as [e|]; [|by left].
    destruct (e !! "MIMEType"); [apply get_file_type_range|by left]. }
  destruct (bool_decide (target_type_of exif
                         ∈ [Some "image"; Some "video"; Some "xmp"]))
    eqn:Hrec.
  - apply bool_decide_eq_true in Hrec.
    apply recognised_is_not_none in Hrec.
    unfold bind at 1.
    destruct (get_output_dir _ _ _ st) as [o st'| |]; [|done..].
    unfold bind at 1, get_file_name.
    set (date0 := Date_from_exif _ _ _ _ _ _).
    destruct (original_filenames self) eqn:Horig; simpl.
    + unfold ret. intros [= <- <- <- <- <- <-].
      split; [done|]. split; [done|]. split; [done|]. done.
    + destruct date0 as [d|] eqn:Hd.
      * destruct (dd_date d) as [t|] eqn:Ht; [|done].
        unfold ret. intros [= <- <- <- <- <- <-].
        split; [done|]. split; [done|]. split; [done|]. intros _ _ _ _.
        split; [apply lower_idem|]. split; [done|].
        intros d' t' [= <-] Ht'. rewrite Ht in Ht'.
        injection Ht' as <-. f_equal.
        destruct (bool_decide (dd_subseconds d = EmptyString)) eqn:Hs.
        -- apply bool_decide_eq_true in Hs. rewrite Hs. simpl.
           by rewrite !str_app_assoc, str_app_nil_l.
        -- simpl. by rewrite !str_app_assoc.
      * unfold ret. intros [= <- <- <- <- <- <-].
        split; [done|]. split; [done|]. split; [done|]. intros _ _ _ _.
        split; [apply lower_idem|]. split; [done|]. done.
  - apply bool_decide_eq_false in Hrec.
    unfold bind at 1.
    destruct (get_output_dir _ _ _ st) as [o st'| |]; [|done..].
    unfold ret. intros [= <- <- <- <- <- <-].
    assert (target_type_of exif = None) as Hnone.
    { apply elem_of_cons in Hrange as [|Hrange]; [done|]. done. }
    split; [done|]. split; [done|]. split; [done|]. done.
Qed.

End Names.

Section NamesAtInputs.
Import PyStr OS Run Engine Logic Effects Doubles Scenarios.

(** [IMG_0001.JPG], dated by its sidecar. *)
Lemma target_names_witness :
  "20230304-101530.jpg"
  = lower (zpad 4 2023 +:+ zpad 2 3 +:+ zpad 2 4 +:+ "-" +:+ zpad 2 10
             +:+ zpad 2 15 +:+ zpad 2 30 +:+ EmptyString +:+ ".JPG").
Proof.
  destruct (target_names
              (Exif_data catalogue) (Date_from_exif catalogue) strftime
              (self_of (with_mode false false false))
              "/in/IMG_0001.JPG" "/out/2023/03/04" "20230304-101530.jpg"
              "/out/2023/03/04/20230304-101530.jpg"
              (Some "xmp") (Some t_2023_03_04)
              (initial_state fs_sidecar)
              (state_of (get_file_name_and_path
                           (Exif_data catalogue) (Date_from_exif catalogue)
                           strftime (self_of (with_mode false false false))
                           "/in/IMG_0001.JPG" (initial_state fs_sidecar))))
    as (_ & _ & _ & _ & H).
  - vm_compute. reflexivity.
  - destruct H as (_ & _ & H);
      [done | reflexivity | vm_compute; reflexivity
      | intros d [= <-]; vm_compute; reflexivity |].
    exact (H t_2023_03_04 (mkDT 2023 3 4 10 15 30 0) eq_refl eq_refl).
Defined.

End NamesAtInputs.

(* ===================================================================== *)
(** ** The sidecar table                                                   *)
(* ===================================================================== *)

Section SidecarTable.
Import PyStr OS Run Engine Logic Effects.

Lemma dict_set_keys_eq (k v : string) (d : list (string * string)) :
  k ∈ d.*1 -> (dict_set k v d).*1 = d.*1.
Proof.
  intros Hk. unfold dict_set. rewrite bool_decide_eq_true_2 by done.
  rewrite <- list_fmap_compose. apply list_fmap_ext.
  intros i [o t] _. simpl.
  destruct (bool_decide (o = k)) eqn:E; [|done].
  by apply bool_decide_eq_true in E.
Qed.

Lemma dict_set_NoDup (k v : string) (d : list (string * string)) :
  NoDup d.*1 -> NoDup (dict_set k v d).*1.
Proof.
  intros Hd. destruct (decide (k ∈ d.*1)) as [Hk|Hk].
  - by rewrite dict_set_keys_eq.
  - unfold dict_set. rewrite bool_decide_eq_false_2 by done.
    rewrite fmap_app. apply NoDup_app. split; [done|]. split.
    + intros x Hx Hx'. apply list_elem_of_singleton in Hx'. by subst.
    + apply NoDup_singleton.
Qed.

(** X18.  The sidecar table is a dictionary keyed by the path of the
    sidecar: a sidecar that several of the four places name (the name of
    a file without an extension and its stem are one path) has one entry,
    so it is moved, linked or copied once.  The keys are exactly the
    places that are regular files. *)
Theorem each_sidecar_is_placed_once
        (f : FS) (original_filename file_name : string) (suffix : Z)
        (sidecar_ext : string) :
  NoDup (sidecar_files f original_filename file_name suffix sidecar_ext).*1
  /\ (forall o,
         o ∈ (sidecar_files f original_filename file_name suffix
                            sidecar_ext).*1
         <-> o ∈ sidecar_originals original_filename sidecar_ext
             /\ isfile f o = true)
  /\ (length (sidecar_files f original_filename file_name suffix sidecar_ext)
      <= 4)%nat.
Proof.
  assert (NoDup (sidecar_files f original_filename file_name suffix
                               sidecar_ext).*1) as Hnd.
  { unfold sidecar_files.
    repeat (case_match; try apply dict_set_NoDup); apply NoDup_nil_2. }
  assert (forall o,
             o ∈ (sidecar_files f original_filename file_name suffix
                                sidecar_ext).*1
             <-> o ∈ sidecar_originals original_filename sidecar_ext
                 /\ isfile f o = true) as Hkeys.
  { intros o. unfold sidecar_files, sidecar_originals.
    rewrite !elem_of_cons, elem_of_nil.
    destruct (isfile f (sidecar_original_with_ext _ _)) eqn:H1;
      destruct (isfile f (sidecar_original_without_ext _ _)) eqn:H2;
      destruct (isfile f (sidecar_original_leading_o _ _)) eqn:H3;
      destruct (isfile f (sidecar_original_trailing_o _ _)) eqn:H4;
      rewrite ?dict_set_keys; simpl; rewrite ?elem_of_nil;
      split;
      try (intros [[->|[->|[->|[->|[]]]]] Ho]; try congruence; tauto);
      try (intros [->|H]; [tauto|]);
      try (destruct H as [->|H]; [tauto|]);
      try (destruct H as [->|H]; [tauto|]);
      try (destruct H as [->|H]; [tauto|]);
      try done; try tauto. }
  split; [done|]. split; [done|].
  rewrite <- (length_fmap fst).
  assert ((sidecar_files f original_filename file_name suffix sidecar_ext).*1
          ⊆+ sidecar_originals original_filename sidecar_ext) as Hsub.
  { apply NoDup_submseteq; [done|]. intros o Ho. by apply Hkeys in Ho as [? _]. }
  apply submseteq_length in Hsub. simpl in Hsub. done.
Qed.

End SidecarTable.

(* ===================================================================== *)
(** ** Where the collision suffix goes                                     *)
(* ===================================================================== *)

Section SuffixPosition.
Import PyStr OS Run Engine Logic Effects.

Lemma count_app (c : ascii) (a b : string) :
  count c (a +:+ b) = count c a + count c b.
Proof.
  induction a as [|x a IH]; [by rewrite str_app_nil_l|].
  rewrite str_app_cons. simpl. rewrite IH. lia.
Qed.

Lemma take_app_exact (a b : string) : take (String.length a) (a +:+ b) = a.
Proof.
  induction a as [|x a IH]; [by rewrite str_app_nil_l; destruct b|].
  rewrite str_app_cons. simpl. by rewrite IH.
Qed.

Lemma drop_app_exact (a b : string) : drop (String.length a) (a +:+ b) = b.
Proof.
  induction a as [|x a IH]; [by rewrite str_app_nil_l; destruct b|].
  rewrite str_app_cons. simpl. by rewrite IH.
Qed.

Lemma rfind_from_last (c : ascii) (i : Z) (x y : string) :
  0 <= i -> count c y = 0 ->
  rfind_from c i (x +:+ String c y) = i + Z.of_nat (String.length x).
Proof.
  intros Hi Hy. revert i Hi. induction x as [|a x IH]; intros i Hi.
  - rewrite str_app_nil_l. simpl. rewrite rfind_from_absent by done.
    simpl. rewrite Ascii.eqb_refl. lia.
  - rewrite str_app_cons. cbn [rfind_from]. rewrite IH by lia.
    destruct (Z.leb_spec 0 (i + 1 + Z.of_nat (String.length x))); [|lia].
    simpl. lia.
Qed.

Lemma dot_app (x : string) : "." +:+ x = String "." x.
Proof. by rewrite str_app_cons, str_app_nil_l. Qed.

Lemma slash_app (x : string) : "/" +:+ x = String "/" x.
Proof. by rewrite str_app_cons, str_app_nil_l. Qed.

(** [splitext] of a path whose last component is [b.x], with no dot in
    [x]: the extension is [.x] unless [b] is empty or all dots. *)
Lemma splitext_last_dot (d b x : string) :
  count "/" b = 0 -> count "/" x = 0 -> count "." x = 0 ->
  splitext (d +:+ "/" +:+ b +:+ "." +:+ x)
  = (if all_dots b then (d +:+ "/" +:+ b +:+ "." +:+ x, EmptyString)
     else (d +:+ "/" +:+ b, "." +:+ x)).
Proof.
  intros Hb Hxs Hxd. unfold splitext, rfind.
  assert (rfind_from "/" 0 (d +:+ "/" +:+ b +:+ "." +:+ x)
          = Z.of_nat (String.length d)) as ->.
  { rewrite slash_app, rfind_from_last; [lia|lia|].
    rewrite count_app, dot_app. simpl. lia. }
  assert (rfind_from "." 0 (d +:+ "/" +:+ b +:+ "." +:+ x)
          = Z.of_nat (String.length (d +:+ "/" +:+ b))) as ->.
  { rewrite <- (str_app_assoc "/"), <- (str_app_assoc d), dot_app.
    rewrite rfind_from_last by done. lia. }
  rewrite !str_length_app. simpl String.length.
  destruct (Z.ltb_spec (Z.of_nat (String.length d))
                       (Z.of_nat (String.length d + (1 + String.length b))));
    [|lia].
  unfold slice, upto, from.
  replace (Z.to_nat (Z.of_nat (String.length d) + 1))
    with (String.length (d +:+ "/"))
    by (rewrite str_length_app; simpl; lia).
  replace (Z.to_nat (Z.of_nat (String.length d + (1 + String.length b))
                     - (Z.of_nat (String.length d) + 1)))
    with (String.length b) by lia.
  replace (Z.to_nat (Z.of_nat (String.length d + (1 + String.length b))))
    with (String.length (d +:+ "/" +:+ b))
    by (rewrite !str_length_app; simpl; lia).
  set (p := d +:+ "/" +:+ b +:+ "." +:+ x).
  assert (p = (d +:+ "/") +:+ (b +:+ "." +:+ x)) as E1
      by (unfold p; by rewrite !str_app_assoc).
  assert (p = (d +:+ "/" +:+ b) +:+ ("." +:+ x)) as E2
      by (unfold p; by rewrite !str_app_assoc).
  assert (drop (String.length (d +:+ "/")) p = b +:+ "." +:+ x) as ->
      by (rewrite E1; apply drop_app_exact).
  assert (take (String.length (d +:+ "/" +:+ b)) p = d +:+ "/" +:+ b) as ->
      by (rewrite E2; apply take_app_exact).
  assert (drop (String.length (d +:+ "/" +:+ b)) p = "." +:+ x) as ->
      by (rewrite E2; apply drop_app_exact).
  by rewrite take_app_exact.
Qed.

(** [splitext] of a path whose last component has no dot. *)
Lemma splitext_no_dot (d c : string) :
  count "/" c = 0 -> count "." c = 0 ->
  splitext (d +:+ "/" +:+ c) = (d +:+ "/" +:+ c, EmptyString).
Proof.
  intros Hs Hd. unfold splitext, rfind.
  rewrite slash_app at 1.
  rewrite (rfind_from_last "/" 0 d c) by (done || lia).
  rewrite (rfind_from_app "." 0 d ("/" +:+ c))
    by (rewrite slash_app; simpl; lia).
  assert (rfind_from "." 0 d < 0 + Z.of_nat (String.length d)) as Hlt
      by (destruct (rfind_from_range "." 0 d) as [->|?]; lia).
  destruct (Z.ltb_spec (0 + Z.of_nat (String.length d))
                       (rfind_from "." 0 d)); [lia|done].
Qed.

(** X19.  Lines 391-393.  The collision suffix goes just before the
    extension of the target path, which starts at the last dot of its last
    component: [dir/b.x] becomes [dir/b-2.x].  A last component without a
    dot, or with leading dots only, has no extension, and the suffix goes
    at its end: [dir/name-2], [dir/.x-2]. *)
Theorem the_suffix_goes_before_the_extension (d b x : string) (s : Z) :
  count "/" b = 0 -> count "/" x = 0 -> count "." x = 0 ->
  suffixed (d +:+ "/" +:+ b +:+ "." +:+ x) s
  = (if all_dots b
     then d +:+ "/" +:+ b +:+ "." +:+ x +:+ "-" +:+ pretty s
     else d +:+ "/" +:+ b +:+ "-" +:+ pretty s +:+ "." +:+ x)
  /\ suffixed (d +:+ "/" +:+ x) s = d +:+ "/" +:+ x +:+ "-" +:+ pretty s.
Proof.
  intros Hb Hxs Hxd. unfold suffixed. split.
  - rewrite splitext_last_dot by done.
    destruct (all_dots b); simpl.
    + rewrite str_app_nil_r. by rewrite !str_app_assoc.
    + by rewrite !str_app_assoc.
  - rewrite splitext_no_dot by done. simpl.
    rewrite str_app_nil_r. by rewrite !str_app_assoc.
Qed.

End SuffixPosition.

Section SuffixPositionAtInputs.
Import PyStr OS Run Engine Logic Effects Doubles Scenarios.

Lemma the_suffix_witness :
  suffixed target 2 = target_2
  /\ suffixed "/out/unknown/.x" 2 = "/out/unknown/.x-2"
  /\ suffixed "/out/unknown/notes" 2 = "/out/unknown/notes-2".
Proof.
  split; [|split].
  - apply (the_suffix_goes_before_the_extension
             "/out/2023/03/04" "20230304-101530" "jpg" 2); reflexivity.
  - apply (the_suffix_goes_before_the_extension
             "/out/unknown" EmptyString "x" 2); reflexivity.
  - apply (the_suffix_goes_before_the_extension
             "/out/unknown" EmptyString "notes" 2); reflexivity.
Defined.

End SuffixPositionAtInputs.

(* ===================================================================== *)
(** ** The three patterns of [get_file_type]                               *)
(* ===================================================================== *)

Section FileTypes.
Import PyStr OS Run Engine Logic Effects.

Lemma no_newline_app (a b : string) :
  no_newline (a +:+ b) = no_newline a && no_newline b.
Proof. unfold no_newline. by rewrite chars_app, forallb_app. Qed.

Lemma no_newline_endswith (m : string) :
  no_newline m = true -> endswith m (String newline EmptyString) = false.
Proof.
  intros Hm. unfold endswith. apply bool_decide_eq_false.
  intros [l Hl]. unfold no_newline in Hm. simpl in Hl.
  rewrite Hl, forallb_app in Hm. simpl in Hm.
  by rewrite andb_false_r in Hm.
Qed.

Lemma before_dollar_id (m : string) :
  endswith m (String newline EmptyString) = false -> before_dollar m = m.
Proof. intros H. unfold before_dollar. by rewrite H. Qed.

Lemma before_dollar_newline (m : string) :
  before_dollar (m +:+ String newline EmptyString) = m.
Proof.
  unfold before_dollar. rewrite endswith_app, str_length_app. simpl.
  replace (String.length m + 1 - 1)%nat with (String.length m) by lia.
  apply take_app_exact.
Qed.

Lemma startswith_app (a s : string) : startswith (a +:+ s) a = true.
Proof.
  unfold startswith. apply bool_decide_eq_true. rewrite chars_app.
  by apply prefix_app_r.
Qed.

Lemma startswith_other (c c' : ascii) (a b s : string) :
  c <> c' -> startswith (String c a +:+ s) (String c' b) = false.
Proof.
  intros Hne. unfold startswith. apply bool_decide_eq_false.
  rewrite str_app_cons. simpl. intros H.
  apply prefix_cons_inv_1 in H. congruence.
Qed.

(** X20.  What the three patterns accept.  [image/] followed by at least
    one character is an image, [video/] followed by anything is a video,
    and [application/rdf+xml] is an xmp file; the dots of
    [application/vnd.adobe.photoshop] are not escaped and stand for any
    character; one newline at the end of the MIME type is ignored; the
    match is case-sensitive and [image/] alone is of no type. *)
Theorem get_file_type_patterns (s : string) (a b : ascii) :
  (no_newline s = true -> s <> EmptyString ->
   get_file_type ("image/" +:+ s) = Some "image")
  /\ (no_newline s = true -> get_file_type ("video/" +:+ s) = Some "video")
  /\ get_file_type "application/rdf+xml" = Some "xmp"
  /\ (a <> newline -> b <> newline ->
      get_file_type ("application/vnd"
                       +:+ String a ("adobe" +:+ String b "photoshop"))
      = Some "image")
  /\ (endswith s (String newline EmptyString) = false ->
      get_file_type (s +:+ String newline EmptyString) = get_file_type s)
  /\ get_file_type "image/" = None
  /\ get_file_type "IMAGE/JPEG" = None.
Proof.
  split; [|split; [|split; [|split; [|split; [|split]]]]].
  - intros Hs Hne. unfold get_file_type, patternImage.
    rewrite before_dollar_id
      by (apply no_newline_endswith; by rewrite no_newline_app, Hs).
    rewrite startswith_app.
    change 6%nat with (String.length "image/"). rewrite drop_app_exact.
    rewrite Hs, bool_decide_eq_false_2 by done. done.
  - intros Hs. unfold get_file_type, patternImage, patternVideo.
    rewrite before_dollar_id
      by (apply no_newline_endswith; by rewrite no_newline_app, Hs).
    rewrite (startswith_other "v" "i") by done.
    rewrite startswith_app.
    change 6%nat with (String.length "video/"). rewrite drop_app_exact.
    rewrite Hs. rewrite !str_app_cons. done.
  - reflexivity.
  - intros Ha Hb. unfold get_file_type, patternImage.
    apply Ascii.eqb_neq in Ha, Hb.
    rewrite before_dollar_id.
    + repeat first [rewrite str_app_cons | rewrite str_app_nil_l].
      cbn [match_dots]. rewrite Ha, Hb.
      rewrite !Ascii.eqb_refl. simpl. by rewrite ?orb_true_r.
    + apply no_newline_endswith.
      repeat first [rewrite str_app_cons | rewrite str_app_nil_l].
      unfold no_newline. simpl. by rewrite Ha, Hb.
  - intros Hs. unfold get_file_type, patternImage, patternVideo, patternXMP.
    by rewrite before_dollar_newline, before_dollar_id.
  - reflexivity.
  - reflexivity.
Qed.

End FileTypes.

Section FileTypesAtInputs.
Import PyStr OS Run Engine Logic Effects.

Lemma get_file_type_witness :
  get_file_type "image/jpeg" = Some "image"
  /\ get_file_type "video/" = Some "video"
  /\ get_file_type "application/vnd-adobe-photoshop" = Some "image"
  /\ get_file_type ("image/jpeg" +:+ String newline EmptyString)
     = get_file_type "image/jpeg".
Proof.
  destruct (get_file_type_patterns "jpeg" "-" "-")
    as (H1 & _ & _ & H4 & _).
  destruct (get_file_type_patterns EmptyString "-" "-")
    as (_ & H2 & _).
  destruct (get_file_type_patterns "image/jpeg" "-" "-")
    as (_ & _ & _ & _ & H5 & _).
  split; [apply H1; done|]. split; [apply H2; done|].
  split; [apply H4; done|]. apply H5. reflexivity.
Defined.

End FileTypesAtInputs.

(* ===================================================================== *)
(** ** Empty directories are removed, in a dry run too                     *)
(* ===================================================================== *)

Section EmptyDirectories.
Import PyStr OS Run Engine Logic Effects.

Context (self : Phockup) (d : string).

Lemma for_each_app {A} (l1 l2 : list A) (body : A -> M unit) (st : State) :
  for_each (l1 ++ l2) body st
  = (for_each l1 body ;;; for_each l2 body) st.
Proof.
  revert st. induction l1 as [|x l1 IH]; intros st; [done|].
  cbn [app for_each]. unfold bind.
  destruct (body x st) as [[] st1|e st1|]; [|done..].
  rewrite IH. done.
Qed.

Lemma has_entries_cleaned listed (st st' : State) :
  cleaned self listed st st' ->
  has_entries (fs st) d = false -> has_entries (fs st') d = false.
Proof.
  intros (Hf & Hd & _). unfold has_entries.
  rewrite !bool_decide_eq_false. intros Hn (q & Hq & HP). apply Hn.
  exists q. split; [|done]. rewrite Hf in Hq.
  apply elem_of_union in Hq as [Hq|Hq]; apply elem_of_union; [by left|].
  right. by apply Hd.
Qed.

Lemma gone_cleaned listed (st st' : State) :
  cleaned self listed st st' -> d ∉ dirs (fs st) -> d ∉ dirs (fs st').
Proof. intros (_ & Hd & _) Hn Hin. by apply Hn, Hd. Qed.

(** The step for the directory [d] itself. *)
Lemma rm_empty listed (st : State) :
  d ∈ listed ->
  get_depth self d <= stop_depth self ->
  has_entries (fs st) d = false ->
  exists st',
    try_except
      (os_call (fun f => rmdir f d) ;;;
       logger INFO ("Deleted empty directory: " +:+ d))
      is_OSError
      (fun e => logger INFO (strerror e +:+ " - " +:+ d +:+ " not deleted."))
      st
    = Return tt st'
    /\ cleaned self listed st st'
    /\ (d ∉ dirs (fs st')).
Proof.
  intros Hl Hdepth He.
  destruct (rm_one self listed d st Hl Hdepth) as (st' & Hrun & Hc).
  exists st'. split; [done|]. split; [done|].
  revert Hrun. unfold try_except, bind, os_call, rmdir. rewrite He.
  destruct (isdir (fs st) d) eqn:Hd; simpl.
  - unfold logger, modify. intros [= <-]. simpl.
    rewrite elem_of_difference, elem_of_singleton. tauto.
  - destruct (isfile (fs st) d); simpl; unfold logger, modify;
      intros [= <-]; simpl; unfold isdir in Hd;
      by apply bool_decide_eq_false in Hd.
Qed.

(** A listed directory within the depth limit that has no entries is
    gone when [rm_subdirs] returns, and [rm_subdirs] returns. *)
Lemma rm_subdirs_removes
      (walk_up : list (string * list string * list string)) (st : State) :
  within_depth self walk_up d ->
  has_entries (fs st) d = false ->
  exists st',
    rm_subdirs self walk_up st = Return tt st'
    /\ cleaned self (listed_dirs walk_up) st st'
    /\ (d ∉ dirs (fs st')).
Proof.
  intros (root & ds & fls & name & Ht & Hname & Hdeq & Hroot & Hdepth) He.
  assert (d ∈ listed_dirs walk_up) as Hl.
  { rewrite Hdeq. unfold listed_dirs. apply list_elem_of_In, in_flat_map.
    exists (root, ds, fls). split; [by apply list_elem_of_In|].
    apply list_elem_of_In, list_elem_of_fmap. by exists name. }
  assert (forall (xs : list (string * list string * list string)) s,
             (forall x, x ∈ xs -> x ∈ walk_up) ->
             exists s', rm_subdirs self xs s = Return tt s'
                        /\ cleaned self (listed_dirs walk_up) s s') as Hpart.
  { intros xs s Hxs. unfold rm_subdirs.
    apply (for_each_returns (cleaned self (listed_dirs walk_up))).
    intros [[r dd] ff] s1 Hx.
    destruct (stop_depth self <? get_depth self r);
      [exists s1; split; [done|reflexivity]|].
    apply (for_each_returns (cleaned self (listed_dirs walk_up))).
    intros n s2 Hn.
    destruct (Z.ltb_spec (stop_depth self) (get_depth self (path_join r n)));
      [exists s2; split; [done|reflexivity]|].
    apply rm_one; [|done].
    unfold listed_dirs. apply list_elem_of_In, in_flat_map.
    exists (r, dd, ff). split; [by apply list_elem_of_In, Hxs|].
    apply list_elem_of_In, list_elem_of_fmap. by exists n. }
  apply list_elem_of_split in Ht as (w1 & w2 & ->).
  destruct (Hpart w1 st) as (s1 & Hw1 & Hc1).
  { intros x Hx. apply elem_of_app. by left. }
  apply list_elem_of_split in Hname as (n1 & n2 & ->).
  set (inner := fun name : string =>
         let dir_path := path_join root name in
         if stop_depth self <? get_depth self dir_path then ret tt
         else
           try_except
             (os_call (fun f => rmdir f dir_path) ;;;
              logger INFO ("Deleted empty directory: " +:+ dir_path))
             is_OSError
             (fun e => logger INFO (strerror e +:+ " - " +:+ dir_path
                                      +:+ " not deleted."))).
  assert (forall (ns : list string) s,
             (forall n, n ∈ ns -> n ∈ n1 ++ name :: n2) ->
             exists s', for_each ns inner s = Return tt s'
                        /\ cleaned self (listed_dirs (w1 ++ (root, n1 ++ name :: n2, fls) :: w2)) s s')
    as Hinner.
  { intros ns s Hns.
    apply (for_each_returns (cleaned self _)).
    intros n s2 Hn. unfold inner. cbv zeta.
    destruct (Z.ltb_spec (stop_depth self) (get_depth self (path_join root n)));
      [exists s2; split; [done|reflexivity]|].
    apply rm_one; [|done].
    unfold listed_dirs. apply list_elem_of_In, in_flat_map.
    exists (root, n1 ++ name :: n2, fls).
    split; [apply list_elem_of_In, elem_of_app; right; left|].
    apply list_elem_of_In, list_elem_of_fmap. exists n. split; [done|].
    by apply Hns. }
  destruct (Hinner n1 s1) as (s2 & Hn1 & Hc2).
  { intros n Hn. apply elem_of_app. by left. }
  assert (has_entries (fs s2) d = false) as He2.
  { eapply has_entries_cleaned; [exact Hc2|].
    eapply has_entries_cleaned; [exact Hc1|done]. }
  destruct (rm_empty _ s2 Hl Hdepth He2) as (s3 & Hd3 & Hc3 & Hgone).
  destruct (Hinner n2 s3) as (s4 & Hn2 & Hc4).
  { intros n Hn. apply elem_of_app. right. by right. }
  destruct (Hpart w2 s4) as (s5 & Hw2 & Hc5).
  { intros x Hx. apply elem_of_app. right. by right. }
  exists s5. split; [|split].
  - unfold rm_subdirs in *. rewrite for_each_app. unfold bind at 1.
    rewrite Hw1. cbn [for_each]. unfold bind at 1.
    destruct (Z.ltb_spec (stop_depth self) (get_depth self root)); [lia|].
    fold inner. rewrite for_each_app. unfold bind at 1. rewrite Hn1.
    cbn [for_each]. unfold bind at 1. unfold inner at 1. cbv zeta.
    rewrite <- Hdeq.
    destruct (Z.ltb_spec (stop_depth self) (get_depth self d)); [lia|].
    rewrite Hd3. rewrite Hn2. exact Hw2.
  - etrans; [exact Hc1|]. etrans; [exact Hc2|]. etrans; [exact Hc3|].
    etrans; [exact Hc4|exact Hc5].
  - eapply gone_cleaned; [exact Hc5|].
    eapply gone_cleaned; [exact Hc4|done].
Qed.

(** X21.  Lines 180-196.  The cleanup pass returns, and a directory it
    lists within the depth limit that has no entry when the pass begins is
    gone when it ends; the regular files are as they were. *)
Theorem an_empty_listed_directory_is_removed
        (walk_up : list (string * list string * list string)) (st : State) :
  within_depth self walk_up d ->
  has_entries (fs st) d = false ->
  exists st',
    rm_subdirs self walk_up st = Return tt st'
    /\ (d ∉ dirs (fs st'))
    /\ files (fs st') = files (fs st)
    /\ same_counters st st'.
Proof.
  intros Hd He.
  destruct (rm_subdirs_removes walk_up st Hd He) as (st' & Hr & Hc & Hg).
  exists st'. split; [done|]. split; [done|].
  destruct Hc as (Hf & _ & Hcnt & _). done.
Qed.

End EmptyDirectories.

Section DryRunCleanup.
Import PyStr OS Run Engine Logic Effects.

Context (Exif_data : string -> option File -> option (gmap string string)).
Context (Date_from_exif :
           string -> option File -> option (gmap string string) -> bool
           -> option string -> option string -> option DateDict).
Context (Date_strptime : string -> string -> Result datetime).
Context (strftime : Z -> Z -> Z -> string -> option string).
Context (process_files : Phockup -> list string -> M unit).

Lemma print_action_report_returns (self : Phockup) (st : State) :
  exists st', print_action_report self st = Return tt st' /\ fs st' = fs st.
Proof.
  unfold print_action_report, bind, get, when, logger, modify.
  repeat (match goal with
          | |- context [if ?b then _ else _] => destruct b
          end; simpl);
    eexists; (split; [reflexivity|done]).
Qed.

Lemma same_fs_then {A B} (m : M A) (k : A -> M B) (st : State)
      (Q : B -> State -> Prop) (E : exn -> State -> Prop) :
  keeps same_fs m ->
  (forall a st1, fs st1 = fs st -> spec (k a) st1 Q E) ->
  (forall e st1, fs st1 = fs st -> E e st1) ->
  spec (bind m k) st Q E.
Proof.
  intros Hm Hk He. apply spec_bind.
  eapply spec_weaken; [apply Hm| |]; simpl; auto.
Qed.

(** X22.  Lines 103-104 and 180-196.  [rm_subdirs] does not look at
    [dry_run]: a dry run in move mode, with at most one worker, that gets
    as far as the cleanup pass removes every listed directory within the depth limit that was
    empty when the run began, while no regular file is touched.  A run
    that stops earlier, with an exception, leaves the filesystem as it
    was. *)
Theorem a_dry_run_with_move_removes_empty_directories
        (input_dir output_dir : string) (args : Args)
        (walk walk_up : list (string * list string * list string))
        (f : FS) (d : string) :
  a_max_concurrency args <= 1 ->
  a_dry_run args = true ->
  a_move args = true ->
  (forall from_date to_date,
      within_depth (attributes input_dir output_dir args from_date to_date)
                   walk_up d) ->
  has_entries f d = false ->
  match init Exif_data Date_from_exif Date_strptime strftime process_files
             input_dir output_dir args walk walk_up f with
  | Return _ st' => (d ∉ dirs (fs st')) /\ files (fs st') = files f
  | Raised _ st' => fs st' = f
  | OutOfFuel => False
  end.
Proof.
  intros Hone Hdry Hmove Hd He. unfold init.
  destruct (parse_bound _ _ _) as [fr|e]; [|done].
  destruct (parse_bound _ _ _) as [to|e]; [|done].
  specialize (Hd fr to).
  set (self := attributes input_dir output_dir args fr to) in *.
  assert (dry_run self = true) as Hdry' by done.
  assert (move self && tuple_truth (rmdirs self) = true) as Hrm
      by (simpl; by rewrite Hmove).
  assert (forall l msg st, same_fs st (add_log l msg st)) as Hlog by done.
  assert (dry_run self = false -> forall st g, same_fs st (with_fs st g))
    as Hfs by congruence.
  change (spec (run_body Exif_data Date_from_exif strftime process_files
                         self walk walk_up)
               (initial_state f)
               (fun _ st' => (d ∉ dirs (fs st')) /\ files (fs st') = files f)
               (fun _ st' => fs st' = f)).
  unfold run_body.
  apply same_fs_then; [keeps_step; by apply keeps_logger| |done].
  intros _ st1 H1. simpl in H1.
  apply same_fs_then;
    [keeps_step; by apply keeps_logger| |intros; congruence].
  intros _ st2 H2. rewrite H1 in H2.
  apply same_fs_then;
    [by apply dry_run_check_directories| |intros; congruence].
  intros _ st3 H3. rewrite H2 in H3.
  apply same_fs_then;
    [by apply dry_run_walk_directory| |intros; congruence].
  intros _ st4 H4. rewrite H3 in H4. rewrite Hrm. unfold when at 1.
  destruct (rm_subdirs_removes self d walk_up st4 Hd) as (st5 & Hr & Hc & Hg);
    [by rewrite H4|].
  unfold spec, bind at 1. rewrite Hr. unfold bind, get.
  destruct Hc as (Hf & _). rewrite H4 in Hf.
  destruct (negb (files_processed st5 =? 0)); simpl; [|done].
  destruct (print_action_report_returns self st5) as (st6 & Hp & Hfs6).
  rewrite Hp, Hfs6. done.
Qed.

End DryRunCleanup.

Section EmptyDirectoriesAtInputs.
Import PyStr OS Run Engine Logic Effects Doubles Scenarios.

Lemma within_depth_at_input (from_date to_date : option datetime) :
  within_depth
    (attributes "/in" "/out" (with_mode true false true) from_date to_date)
    [("/in/empty", [], []); ("/in", ["empty"], ["a.jpg"])] "/in/empty".
Proof.
  exists "/in", ["empty"], ["a.jpg"], "empty".
  split; [apply list_elem_of_In; simpl; auto|].
  split; [apply list_elem_of_In; simpl; auto|].
  split; [reflexivity|]. split; by vm_compute.
Qed.

Lemma an_empty_listed_directory_witness :
  exists st',
    rm_subdirs (self_of (with_mode true false true))
               [("/in/empty", [], []); ("/in", ["empty"], ["a.jpg"])]
               (initial_state fs_empty_dir)
    = Return tt st'
    /\ ("/in/empty" ∉ dirs (fs st'))
    /\ files (fs st') = files fs_empty_dir
    /\ same_counters (initial_state fs_empty_dir) st'.
Proof.
  apply (an_empty_listed_directory_is_removed
           (self_of (with_mode true false true)) "/in/empty").
  - apply within_depth_at_input.
  - vm_compute. reflexivity.
Defined.

Lemma a_dry_run_with_move_witness :
  match Doubles.init catalogue "/in" "/out" (with_mode true false true)
                     [("/in", ["empty"], ["a.jpg"])]
                     [("/in/empty", [], []); ("/in", ["empty"], ["a.jpg"])]
                     fs_empty_dir with
  | Return _ st' =>
      ("/in/empty" ∉ dirs (fs st')) /\ files (fs st') = files fs_empty_dir
  | Raised _ st' => fs st' = fs_empty_dir
  | OutOfFuel => False
  end.
Proof.
  apply (a_dry_run_with_move_removes_empty_directories
           (Doubles.Exif_data catalogue) (Doubles.Date_from_exif catalogue)
           Doubles.Date_strptime Doubles.strftime
           (Doubles.process_files catalogue)
           "/in" "/out" (with_mode true false true)).
  - vm_compute. discriminate.
  - reflexivity.
  - reflexivity.
  - apply within_depth_at_input.
  - vm_compute. reflexivity.
Defined.

End EmptyDirectoriesAtInputs.

(* ===================================================================== *)
(** ** Where the sidecars of a placed file go (C4)                         *)
(* ===================================================================== *)

Section SidecarPlacement.
Import PyStr OS Run Engine Logic Effects.







Context (self : Phockup).




End SidecarPlacement.

Section SidecarsOfAPlacedFile.
Import PyStr OS Run Engine Logic Effects.

Context (Exif_data : string -> option File -> option (gmap string string)).
Context (Date_from_exif :
           string -> option File -> option (gmap string string) -> bool
           -> option string -> option string -> option DateDict).
Context (strftime : Z -> Z -> Z -> string -> option string).


End SidecarsOfAPlacedFile.

Section SidecarsAtInputs.
Import PyStr OS Run Engine Logic Effects Doubles Scenarios Cases.


End SidecarsAtInputs.
